(** * Gitaroo: workspace state and music-theory engine

    A shallow embedding of the parts of the fretboard tool that carry
    invariants: [MusicTheory] (src/utils/music-theory.js), [StateManager]
    (src/utils/state-management.js), [FileOperations]
    (src/utils/file-operations.js), the file loading of [Canvas]
    (src/components/canvas.js) and the note operations of [Grid]
    (src/components/grid.js).

    JavaScript numbers that reach these functions are fret numbers, string
    indices, semitone values and array positions; they are modelled as [Z]
    (integers only: fractions, NaN and the infinities are not represented).
    The DOM is left out: of a note only its data is kept, not its element.
    The definitions come first, the properties proved about them follow. *)

From Stdlib Require Import ZArith Lia Ascii String.
From stdpp Require Import base option list strings pretty gmap sorting.

Set Warnings "-register-all".

Local Open Scope string_scope.
Local Open Scope Z_scope.

(** ** JavaScript preliminaries *)

Module JS.

(** Outcome of evaluating a piece of code that may throw. *)
Inductive completion (A : Type) : Type :=
| Normal (a : A)
| Throw (message : string).
Global Arguments Normal {A} a.
Global Arguments Throw {A} message.

Definition bind {A B} (c : completion A) (k : A -> completion B) : completion B :=
  match c with
  | Normal a => k a
  | Throw m => Throw m
  end.

Global Instance completion_ret : MRet completion := fun _ a => Normal a.
Global Instance completion_bind : MBind completion := fun _ _ k c => bind c k.

(** The remainder operator [%]: truncated division, the result carries the
    sign of the dividend. *)
Definition rem (a b : Z) : Z := Z.rem a b.

(** [array[i]] for an integer [i]: [undefined] out of range. *)
Definition index {A} (l : list A) (i : Z) : option A :=
  if i <? 0 then None else l !! Z.to_nat i.

(** [array.slice(0, e)]: a negative [e] counts from the end. *)
Definition slice0 {A} (l : list A) (e : Z) : list A :=
  if e <? 0 then take (Z.to_nat (Z.of_nat (length l) + e)) l
  else take (Z.to_nat e) l.

(** [array.indexOf(x)]: position of the first occurrence, [-1] if none. *)
Fixpoint indexOf_from (x : string) (l : list string) (i : Z) : Z :=
  match l with
  | [] => -1
  | y :: l' => if String.eqb y x then i else indexOf_from x l' (i + 1)
  end.
Definition indexOf (l : list string) (x : string) : Z := indexOf_from x l 0.

(** Plain data: what object literals, arrays and [JSON.parse] build.  An
    object is the list of its own enumerable properties in insertion order
    (keys are distinct); inherited properties are not represented. *)
Inductive value : Type :=
| VUndefined
| VNull
| VBool (b : bool)
| VNum (n : Z)
| VStr (s : string)
| VArr (items : list value)
| VObj (props : list (string * value)).

(** [typeof v]. *)
Definition typeof (v : value) : string :=
  match v with
  | VUndefined => "undefined"
  | VNull => "object"
  | VBool _ => "boolean"
  | VNum _ => "number"
  | VStr _ => "string"
  | VArr _ => "object"
  | VObj _ => "object"
  end.

(** Truthiness, as tested by [!v], [v || d] and [if (v)]. *)
Definition truthy (v : value) : bool :=
  match v with
  | VUndefined | VNull => false
  | VBool b => b
  | VNum n => negb (n =? 0)
  | VStr s => negb (String.eqb s "")
  | VArr _ | VObj _ => true
  end.

(** [a || b]. *)
Definition or_else (a b : value) : value := if truthy a then a else b.

Definition isArray (v : value) : bool :=
  match v with VArr _ => true | _ => false end.

(** Own property lookup in a list of entries. *)
Fixpoint assoc (key : string) (props : list (string * value)) : option value :=
  match props with
  | [] => None
  | (k, v) :: rest => if String.eqb k key then Some v else assoc key rest
  end.

(** The property names of an array: its indices in canonical decimal form,
    and [length]. *)
Definition arrayIndexOf (key : string) (items : list value) : option nat :=
  List.find (fun i => String.eqb (pretty i) key) (seq 0 (length items)).

(** Decimal digits; an array index is written with digits only. *)
Definition isDigit (c : ascii) : bool :=
  let n := Ascii.N_of_ascii c in ((48 <=? n) && (n <=? 57))%N.

Fixpoint allDigits (s : string) : bool :=
  match s with
  | EmptyString => true
  | String c rest => isDigit c && allDigits rest
  end.

(** [v.key] (or [v[key]]): reading a property of [undefined] or [null]
    throws.  Of the properties of primitives only a string's [length] is
    given; the others (a string's characters, inherited methods) are never
    read by the code below, and reading them gives [undefined] here. *)
Definition get (v : value) (key : string) : completion value :=
  match v with
  | VUndefined | VNull =>
      Throw ("TypeError: Cannot read properties of " ++
             (if v is VNull then "null" else "undefined") ++
             " (reading '" ++ key ++ "')")
  | VObj props => Normal (default VUndefined (assoc key props))
  | VArr items =>
      if String.eqb key "length" then Normal (VNum (Z.of_nat (length items)))
      else Normal (default VUndefined
                     (i ← arrayIndexOf key items; items !! i))
  | VStr s =>
      if String.eqb key "length" then Normal (VNum (Z.of_nat (String.length s)))
      else Normal VUndefined
  | VBool _ | VNum _ => Normal VUndefined
  end.

(** [key in v]: a TypeError unless [v] is an object (arrays included). *)
Definition has (key : string) (v : value) : completion bool :=
  match v with
  | VObj props => Normal (if assoc key props is Some _ then true else false)
  | VArr items =>
      Normal (String.eqb key "length"
              || (if arrayIndexOf key items is Some _ then true else false))
  | _ => Throw "TypeError: Cannot use 'in' operator to search for a key in a non-object"
  end.

(** The string a value becomes inside a template literal or a string
    concatenation. *)
Fixpoint toText (v : value) : string :=
  match v with
  | VUndefined => "undefined"
  | VNull => "null"
  | VBool b => if b then "true" else "false"
  | VNum n => pretty n
  | VStr s => s
  | VArr items =>
      (fix joined (l : list value) : string :=
         match l with
         | [] => ""
         | x :: l' =>
             (match x with VUndefined | VNull => "" | _ => toText x end)
             ++ (match l' with [] => "" | _ => "," ++ joined l' end)
         end) items
  | VObj _ => "[object Object]"
  end.

(** [JSON.parse(JSON.stringify(v))] on plain data: inside an array
    [undefined] becomes [null], inside an object a property whose value is
    [undefined] is left out, everything else is rebuilt as it is. *)
Fixpoint jsonClone (v : value) : value :=
  match v with
  | VArr items =>
      VArr ((fix elements (l : list value) : list value :=
               match l with
               | [] => []
               | x :: l' =>
                   (match x with VUndefined => VNull | _ => jsonClone x end)
                   :: elements l'
               end) items)
  | VObj props =>
      VObj ((fix properties (l : list (string * value)) : list (string * value) :=
               match l with
               | [] => []
               | (k, x) :: l' =>
                   match x with
                   | VUndefined => properties l'
                   | _ => (k, jsonClone x) :: properties l'
                   end
               end) props)
  | _ => v
  end.

(** Data that holds no [undefined] below its root. *)
Fixpoint jsonPlain (v : value) : bool :=
  match v with
  | VArr items =>
      (fix elements (l : list value) : bool :=
         match l with
         | [] => true
         | x :: l' =>
             (match x with VUndefined => false | _ => jsonPlain x end)
             && elements l'
         end) items
  | VObj props =>
      (fix properties (l : list (string * value)) : bool :=
         match l with
         | [] => true
         | (_, x) :: l' =>
             (match x with VUndefined => false | _ => jsonPlain x end)
             && properties l'
         end) props
  | _ => true
  end.

End JS.

(** ** MusicTheory (src/utils/music-theory.js) *)

Module MusicTheory.

(** Entries of [chromaticScale]. *)
Record ScaleNote := {
  name : string;
  isNatural : bool;
  semitone : Z
}.

Definition chromaticScale : list ScaleNote :=
  [ {| name := "C";  isNatural := true;  semitone := 0 |};
    {| name := "C#"; isNatural := false; semitone := 1 |};
    {| name := "D";  isNatural := true;  semitone := 2 |};
    {| name := "D#"; isNatural := false; semitone := 3 |};
    {| name := "E";  isNatural := true;  semitone := 4 |};
    {| name := "F";  isNatural := true;  semitone := 5 |};
    {| name := "F#"; isNatural := false; semitone := 6 |};
    {| name := "G";  isNatural := true;  semitone := 7 |};
    {| name := "G#"; isNatural := false; semitone := 8 |};
    {| name := "A";  isNatural := true;  semitone := 9 |};
    {| name := "A#"; isNatural := false; semitone := 10 |};
    {| name := "B";  isNatural := true;  semitone := 11 |} ].

(** Values of the [intervals] object; the object itself is the list of its
    keys with their values, in insertion order (the order of
    [Object.keys]). *)
Record IntervalDef := {
  semitones : Z;
  intervalName : string
}.

Definition intervals : list (string * IntervalDef) :=
  [ ("minor-3rd",   {| semitones := 3;  intervalName := "Minor 3rd" |});
    ("major-3rd",   {| semitones := 4;  intervalName := "Major 3rd" |});
    ("perfect-4th", {| semitones := 5;  intervalName := "Perfect 4th" |});
    ("perfect-5th", {| semitones := 7;  intervalName := "Perfect 5th" |});
    ("minor-7th",   {| semitones := 10; intervalName := "Minor 7th" |});
    ("major-7th",   {| semitones := 11; intervalName := "Major 7th" |});
    ("octave",      {| semitones := 12; intervalName := "Octave" |}) ].

(** A string of a tuning: [{ note, semitone }]. *)
Record StringTuning := {
  note : string;
  tuningSemitone : Z
}.

Definition standardTuning : list StringTuning :=
  [ {| note := "E"; tuningSemitone := 4 |};
    {| note := "A"; tuningSemitone := 9 |};
    {| note := "D"; tuningSemitone := 2 |};
    {| note := "G"; tuningSemitone := 7 |};
    {| note := "B"; tuningSemitone := 11 |};
    {| note := "E"; tuningSemitone := 4 |} ].

Definition noteClassMap : list (string * string) :=
  [ ("C", "c"); ("C#", "c-sharp"); ("D", "d"); ("D#", "d-sharp");
    ("E", "e"); ("F", "f"); ("F#", "f-sharp"); ("G", "g");
    ("G#", "g-sharp"); ("A", "a"); ("A#", "a-sharp"); ("B", "b") ].

(** [object[key]] on an object given by its entries; [None] is
    [undefined]. *)
Definition property {V} (o : list (string * V)) (key : string) : option V :=
  snd <$> List.find (fun kv => String.eqb (fst kv) key) o.

(** The object returned by [getNoteAt]: the scale entry spread out, then
    the derived and the echoed fields. *)
Record NoteInfo := {
  noteName : string;
  noteIsNatural : bool;
  noteSemitone : Z;
  cssClass : option string;
  displayText : string;
  fret : Z;
  stringTuning : StringTuning
}.

(** [chromaticScale.find(note => note.semitone === totalSemitones)]. *)
Definition findSemitone (totalSemitones : Z) : option ScaleNote :=
  List.find (fun n => semitone n =? totalSemitones) chromaticScale.

(** [getNoteAt(stringTuning, fretNumber)].  When [find] yields
    [undefined], reading [noteInfo.name] throws a TypeError. *)
Definition getNoteAt (stringTuning : StringTuning) (fretNumber : Z)
  : JS.completion NoteInfo :=
  let baseSemitone := tuningSemitone stringTuning in
  let totalSemitones := JS.rem (baseSemitone + fretNumber) 12 in
  match findSemitone totalSemitones with
  | None => JS.Throw "TypeError: Cannot read properties of undefined (reading 'name')"
  | Some noteInfo =>
      JS.Normal
        {| noteName := name noteInfo;
           noteIsNatural := isNatural noteInfo;
           noteSemitone := semitone noteInfo;
           cssClass := property noteClassMap (name noteInfo);
           displayText := if isNatural noteInfo then name noteInfo else "";
           fret := fretNumber;
           stringTuning := stringTuning |}
  end.

(** The pitch-class part of a [getNoteAt] result: everything but the two
    fields that echo the arguments. *)
Definition pitchClass (n : NoteInfo) : ScaleNote * option string * string :=
  ({| name := noteName n; isNatural := noteIsNatural n; semitone := noteSemitone n |},
   cssClass n, displayText n).

(** [calculateInterval] only reads the [semitone] property of its
    arguments; any object that has one can be passed. *)
Class HasSemitone (A : Type) := semitoneOf : A -> Z.
Global Instance ScaleNote_semitone : HasSemitone ScaleNote := semitone.
Global Instance NoteInfo_semitone : HasSemitone NoteInfo := noteSemitone.

(** The object returned by [calculateInterval]:
    [{ type, distance, ...this.intervals[type] }]. *)
Record Interval := {
  type : string;
  distance : Z;
  intervalSemitones : Z;
  intervalLabel : string
}.

(** [Object.keys(this.intervals).find(key =>
      this.intervals[key].semitones === distance)]. *)
Definition findIntervalKey (distance : Z) : option string :=
  List.find
    (fun key => match property intervals key with
                | Some d => semitones d =? distance
                | None => false
                end)
    (fst <$> intervals).

(** [calculateInterval(rootNote, targetNote)]; [None] is JavaScript's
    [null], for the arguments and for the result. *)
Definition calculateInterval {A B} `{HasSemitone A} `{HasSemitone B}
    (rootNote : option A) (targetNote : option B) : option Interval :=
  match rootNote, targetNote with
  | Some rootNote, Some targetNote =>
      let rootSemitone := semitoneOf rootNote in
      let targetSemitone := semitoneOf targetNote in
      let distance := targetSemitone - rootSemitone in
      let distance := if distance <? 0 then distance + 12 else distance in
      match findIntervalKey distance with
      | Some intervalKey =>
          match property intervals intervalKey with
          | Some d =>
              Some {| type := intervalKey;
                      distance := distance;
                      intervalSemitones := semitones d;
                      intervalLabel := intervalName d |}
          | None => None
          end
      | None => None
      end
  | _, _ => None
  end.

(** What [getNoteAt] returns when the table scan finds [e]. *)
Definition noteInfoOf (e : ScaleNote) (t : StringTuning) (f : Z) : NoteInfo :=
  {| noteName := name e;
     noteIsNatural := isNatural e;
     noteSemitone := semitone e;
     cssClass := property noteClassMap (name e);
     displayText := if isNatural e then name e else "";
     fret := f;
     stringTuning := t |}.

(** The interval table as the specification words it. *)
Definition intervalKindSpec (d : Z) : option string :=
  match d with
  | 3 => Some "minor-3rd"
  | 4 => Some "major-3rd"
  | 5 => Some "perfect-4th"
  | 7 => Some "perfect-5th"
  | 10 => Some "minor-7th"
  | 11 => Some "major-7th"
  | _ => None
  end.

(** [getStandardTuning(stringCount)]. *)
Definition lowerStringNotes : list StringTuning :=
  [ {| note := "B";  tuningSemitone := 11 |};
    {| note := "F#"; tuningSemitone := 6 |};
    {| note := "C#"; tuningSemitone := 1 |};
    {| note := "G#"; tuningSemitone := 8 |};
    {| note := "D#"; tuningSemitone := 3 |};
    {| note := "A#"; tuningSemitone := 10 |} ].

Definition getStandardTuning (stringCount : Z) : list StringTuning :=
  if stringCount <=? 6 then
    drop (Z.to_nat (6 - stringCount)) standardTuning
  else
    let additionalStrings := stringCount - 6 in
    fold_left (fun extendedTuning s => s :: extendedTuning)
      (take (Z.to_nat additionalStrings) lowerStringNotes)
      standardTuning.

End MusicTheory.

(** ** StateManager (src/utils/state-management.js) *)

Module StateManager.
Import JS.

(** An action descriptor: [{ type, description, data }]. *)
Record Action := {
  type : string;
  description : string;
  data : value
}.

(** An entry of the history log. *)
Record StateEntry := {
  id : string;
  timestamp : Z;
  action : Action;
  previousState : value;
  newState : value
}.

(** What [undo] and [redo] return. *)
Record Restore := {
  restoreAction : Action;
  stateToRestore : value;
  direction : string
}.

(** What is handed to the listeners. *)
Inductive Notification :=
| EntrySaved (e : StateEntry)
| Restored (r : Restore)
| Signal (kind : string).

(** The fields of a [StateManager].  The listeners are external observers;
    [notified] is the sequence of values [notifyListeners] was called with,
    oldest first. *)
Record t := {
  history : list StateEntry;
  currentIndex : Z;
  maxHistorySize : Z;
  hasUnsavedChangesFlag : bool;
  notified : list Notification
}.

(** The constructor. *)
Definition new : t :=
  {| history := [];
     currentIndex := -1;
     maxHistorySize := 100;
     hasUnsavedChangesFlag := false;
     notified := [] |}.

(** The assignment [stateManager.maxHistorySize = cap]. *)
Definition setMaxHistorySize (cap : Z) (s : t) : t :=
  {| history := history s;
     currentIndex := currentIndex s;
     maxHistorySize := cap;
     hasUnsavedChangesFlag := hasUnsavedChangesFlag s;
     notified := notified s |}.

(** [cloneState(state)]: [null] and [undefined] are returned as they are,
    anything else goes through JSON.  ([JSON.stringify] throws only on
    cyclic data and BigInt, which [value] does not contain.) *)
Definition cloneState (state : value) : value :=
  match state with
  | VNull | VUndefined => state
  | _ => jsonClone state
  end.

(** [createAction(type, description, data = null)]. *)
Definition createAction (type description : string) (data : value) : Action :=
  {| type := type;
     description := description;
     data := if truthy data then cloneState data else VNull |}.

Definition canUndo (s : t) : bool := 0 <=? currentIndex s.

Definition canRedo (s : t) : bool :=
  currentIndex s <? Z.of_nat (length (history s)) - 1.

(** What one call of [saveState] reads from its environment: the two
    readings of [Date.now()] and the base-36 digits taken from
    [Math.random()]. *)
Record Env := {
  idTime : Z;
  randomDigits : string;
  entryTime : Z
}.

(** The entry [saveState] builds. *)
Definition stateEntryOf (env : Env) (action : Action)
    (previousState newState : value) : StateEntry :=
  {| id := "state_" ++ pretty (idTime env) ++ "_" ++ randomDigits env;
     timestamp := entryTime env;
     action := {| type := type action;
                  description := description action;
                  data := data action |};
     previousState := cloneState previousState;
     newState := cloneState newState |}.

(** [saveState(action, previousState, newState)]. *)
Definition saveState (env : Env) (action : Action)
    (previousState newState : value) (s : t) : t :=
  let history1 :=
    if currentIndex s <? Z.of_nat (length (history s)) - 1
    then slice0 (history s) (currentIndex s + 1)
    else history s in
  let stateEntry := stateEntryOf env action previousState newState in
  let history2 := (history1 ++ [stateEntry])%list in
  let currentIndex2 := Z.of_nat (length history2) - 1 in
  let over := maxHistorySize s <? Z.of_nat (length history2) in
  {| history := if over then drop 1 history2 else history2;
     currentIndex := if over then currentIndex2 - 1 else currentIndex2;
     maxHistorySize := maxHistorySize s;
     hasUnsavedChangesFlag := true;
     notified := (notified s ++ [EntrySaved stateEntry])%list |}.

(** [undo()]: [Normal None] is the [null] returned when nothing can be
    undone.  The pointer is decremented before the entry is read, so a
    pointer past the end of the log leaves it decremented and throws. *)
Definition undo (s : t) : t * completion (option Restore) :=
  if negb (canUndo s) then (s, Normal None)
  else
    let moved :=
      {| history := history s;
         currentIndex := currentIndex s - 1;
         maxHistorySize := maxHistorySize s;
         hasUnsavedChangesFlag := hasUnsavedChangesFlag s;
         notified := notified s |} in
    match index (history s) (currentIndex s) with
    | None =>
        (moved, Throw "TypeError: Cannot read properties of undefined (reading 'action')")
    | Some stateEntry =>
        let result :=
          {| restoreAction := action stateEntry;
             stateToRestore := previousState stateEntry;
             direction := "undo" |} in
        ({| history := history s;
            currentIndex := currentIndex s - 1;
            maxHistorySize := maxHistorySize s;
            hasUnsavedChangesFlag := hasUnsavedChangesFlag s;
            notified := (notified s ++ [Restored result])%list |},
         Normal (Some result))
    end.

(** [redo()]. *)
Definition redo (s : t) : t * completion (option Restore) :=
  if negb (canRedo s) then (s, Normal None)
  else
    let moved :=
      {| history := history s;
         currentIndex := currentIndex s + 1;
         maxHistorySize := maxHistorySize s;
         hasUnsavedChangesFlag := hasUnsavedChangesFlag s;
         notified := notified s |} in
    match index (history s) (currentIndex s + 1) with
    | None =>
        (moved, Throw "TypeError: Cannot read properties of undefined (reading 'action')")
    | Some stateEntry =>
        let result :=
          {| restoreAction := action stateEntry;
             stateToRestore := newState stateEntry;
             direction := "redo" |} in
        ({| history := history s;
            currentIndex := currentIndex s + 1;
            maxHistorySize := maxHistorySize s;
            hasUnsavedChangesFlag := hasUnsavedChangesFlag s;
            notified := (notified s ++ [Restored result])%list |},
         Normal (Some result))
    end.

(** [clearHistory()]. *)
Definition clearHistory (s : t) : t :=
  {| history := [];
     currentIndex := -1;
     maxHistorySize := maxHistorySize s;
     hasUnsavedChangesFlag := false;
     notified := (notified s ++ [Signal "history_cleared"])%list |}.

(** [markAsSaved()]. *)
Definition markAsSaved (s : t) : t :=
  {| history := history s;
     currentIndex := currentIndex s;
     maxHistorySize := maxHistorySize s;
     hasUnsavedChangesFlag := false;
     notified := (notified s ++ [Signal "changes_saved"])%list |}.

(** One [saveState] call with everything it receives. *)
Record SaveCall := {
  callEnv : Env;
  callAction : Action;
  callPrevious : value;
  callNew : value
}.

Definition entryOfCall (c : SaveCall) : StateEntry :=
  stateEntryOf (callEnv c) (callAction c) (callPrevious c) (callNew c).

Definition record (c : SaveCall) (s : t) : t :=
  saveState (callEnv c) (callAction c) (callPrevious c) (callNew c) s.

(** A sequence of [saveState] calls, in order. *)
Definition recordAll (cs : list SaveCall) (s : t) : t :=
  fold_left (fun s c => record c s) cs s.

(** [k] calls of [undo] in a row. *)
Fixpoint undoTimes (k : nat) (s : t) : t :=
  match k with
  | O => s
  | S k' => undoTimes k' (fst (undo s))
  end.

(** The states a manager goes through when it is created, given the cap
    [cap], and then only receives [saveState], [undo] and [redo] calls. *)
Inductive reachable (cap : Z) : t -> Prop :=
| reach_new : reachable cap (setMaxHistorySize cap new)
| reach_save s c : reachable cap s -> reachable cap (record c s)
| reach_undo s : reachable cap s -> reachable cap (fst (undo s))
| reach_redo s : reachable cap s -> reachable cap (fst (redo s)).

End StateManager.

(** ** FileOperations (src/utils/file-operations.js) *)

Module FileOperations.
Import JS.

(** The fields of a [FileOperations] object; [stateManager] is the manager
    it was constructed with. *)
Record t := {
  stateManager : StateManager.t;
  currentFileName : option string;
  fileVersion : string
}.

Definition new (stateManager : StateManager.t) : t :=
  {| stateManager := stateManager;
     currentFileName := None;
     fileVersion := "1.0" |}.

(** What the file operations act on besides their own fields: the console
    and the files handed to the browser for download, oldest first.  A
    download is the file name with the value given to [JSON.stringify]. *)
Record World := {
  ops : t;
  console : list string;
  downloads : list (string * value)
}.

(** How a validator returns: [Pass] is [return true]; [Fail m] is
    [console.error(m); return false]. *)
Inductive verdict :=
| Pass
| Fail (logged : string).

Definition passed (v : verdict) : bool :=
  match v with Pass => true | Fail _ => false end.

(** The loop [for (const prop of props) if (!(prop in v)) ...]: the first
    property that is missing. *)
Fixpoint firstMissing (props : list string) (v : value) : completion (option string) :=
  match props with
  | [] => Normal None
  | prop :: rest =>
      present ← has prop v;
      if present : bool then firstMissing rest v else Normal (Some prop)
  end.

Definition notObject (v : value) : bool :=
  negb (String.eqb (typeof v) "object").

Definition notNumber (v : value) : bool :=
  negb (String.eqb (typeof v) "number").

(** The body of the [try] block of [validateGridStructure]. *)
Definition validateGridStructureBody (grid : value) : completion verdict :=
  missing ← firstMissing ["id"; "position"; "config"] grid;
  match missing with
  | Some prop => Normal (Fail ("Grid missing required property: " ++ prop))
  | None =>
    position ← get grid "position";
    if negb (truthy position) || notObject position
    then Normal (Fail "Grid position must be an object")
    else
    x ← get position "x";
    y ← get position "y";
    if notNumber x || notNumber y
    then Normal (Fail "Grid position must have numeric x and y coordinates")
    else
    config ← get grid "config";
    if negb (truthy config) || notObject config
    then Normal (Fail "Grid config must be an object")
    else
    missing ← firstMissing
                ["startFret"; "endFret"; "stringCount"; "tuning"; "orientation"]
                config;
    match missing with
    | Some prop => Normal (Fail ("Grid config missing required property: " ++ prop))
    | None =>
      startFret ← get config "startFret";
      endFret ← get config "endFret";
      stringCount ← get config "stringCount";
      if notNumber startFret || notNumber endFret || notNumber stringCount
      then Normal (Fail "Grid config numeric values must be numbers")
      else
      tuning ← get config "tuning";
      if negb (isArray tuning)
      then Normal (Fail "Grid tuning must be an array")
      else Normal Pass
    end
  end.

(** [validateGridStructure(grid)]: the [catch] turns an exception into a
    logged failure. *)
Definition validateGridStructure (grid : value) : verdict :=
  match validateGridStructureBody grid with
  | Normal v => v
  | Throw e => Fail ("Error validating grid structure: " ++ e)
  end.

(** The loops over the grids: the position and the verdict of the first
    grid that fails. *)
Fixpoint firstInvalidGrid (i : nat) (grids : list value) : option (nat * string) :=
  match grids with
  | [] => None
  | grid :: rest =>
      match validateGridStructure grid with
      | Fail logged => Some (i, logged)
      | Pass => firstInvalidGrid (S i) rest
      end
  end.

(** The body of the [try] block of [validateSaveData]. *)
Definition validateSaveDataBody (data : value) : completion verdict :=
  missing ← firstMissing ["version"; "canvas"; "grids"] data;
  match missing with
  | Some prop => Normal (Fail ("Missing required property: " ++ prop))
  | None =>
    canvas ← get data "canvas";
    if notObject canvas
    then Normal (Fail "Canvas must be an object")
    else
    grids ← get data "grids";
    match grids with
    | VArr grids =>
        match firstInvalidGrid 0 grids with
        | Some (_, logged) => Normal (Fail logged)
        | None =>
            notes ← get data "notes";
            if truthy notes && notObject notes
            then Normal (Fail "Notes must be an object")
            else Normal Pass
        end
    | _ => Normal (Fail "Grids must be an array")
    end
  end.

(** [validateSaveData(data)]. *)
Definition validateSaveData (data : value) : verdict :=
  match validateSaveDataBody data with
  | Normal v => v
  | Throw e => Fail ("Error validating save data: " ++ e)
  end.

(** [validateLoadData(data)]: the [error] of the returned object, [None]
    when [isValid] is true, together with what the grid validator logged. *)
Definition validateLoadDataBody (data : value) : completion (option string * list string) :=
  if negb (truthy data) || notObject data
  then Normal (Some "File must contain a JSON object", [])
  else
  version ← get data "version";
  if negb (truthy version)
  then Normal (Some "Missing version information", [])
  else
  canvas ← get data "canvas";
  if negb (truthy canvas) || notObject canvas
  then Normal (Some "Missing or invalid canvas configuration", [])
  else
  grids ← get data "grids";
  match grids with
  | VArr grids =>
      match firstInvalidGrid 0 grids with
      | Some (i, logged) =>
          Normal (Some ("Invalid grid structure at index " ++ pretty i), [logged])
      | None => Normal (None, [])
      end
  | _ => Normal (Some "Missing or invalid grids array", [])
  end.

Definition validateLoadData (data : value) : option string * list string :=
  match validateLoadDataBody data with
  | Normal r => r
  | Throw e => (Some ("Error parsing file: " ++ e), [])
  end.

(** What [saveCanvas] and [loadCanvas] return: [{ success: true, ... }] or
    [{ success: false, error }]. *)
Inductive result (A : Type) :=
| Success (payload : A)
| Failure (error : string).
Global Arguments Success {A} payload.
Global Arguments Failure {A} error.

(** What one call of [saveCanvas] reads from its environment. *)
Record SaveEnv := {
  isoTime : string;
  now : Z
}.

(** [iso.replace(/[:.]/g, '-').slice(0, 19)]. *)
Fixpoint dashes (iso : string) : string :=
  match iso with
  | EmptyString => EmptyString
  | String c rest =>
      String (if Ascii.eqb c ":" || Ascii.eqb c "." then "-"%char else c)
             (dashes rest)
  end.

Definition defaultFileName (env : SaveEnv) : string :=
  "gitaroo-fretboard-" ++ String.substring 0 19 (dashes (isoTime env)) ++ ".json".

(** The object [saveCanvas] builds from the canvas state. *)
Definition saveDataOf (fo : t) (env : SaveEnv) (canvasState : value) : completion value :=
  orientation ← get canvasState "orientation";
  locked ← get canvasState "locked";
  dimensions ← get canvasState "dimensions";
  grids ← get canvasState "grids";
  notes ← get canvasState "notes";
  rootNote ← get canvasState "rootNote";
  intervals ← get canvasState "intervals";
  settings ← get canvasState "settings";
  Normal (VObj
    [ ("version", VStr (fileVersion fo));
      ("timestamp", VNum (now env));
      ("metadata", VObj
         [ ("application", VStr "Gitaroo Guitar Fretboard Learning Tool");
           ("createdBy", VStr "user");
           ("description",
            VStr "Guitar fretboard diagram with notes and configurations") ]);
      ("canvas", VObj
         [ ("orientation", or_else orientation (VStr "portrait"));
           ("locked", or_else locked (VBool false));
           ("dimensions",
            or_else dimensions
              (VObj [("width", VNum 816); ("height", VNum 1056)])) ]);
      ("grids", or_else grids (VArr []));
      ("notes", or_else notes (VObj []));
      ("rootNote", or_else rootNote VNull);
      ("intervals", or_else intervals (VObj []));
      ("settings", or_else settings (VObj [])) ]).

Definition saveFailed (w : World) (logged : list string) (error : string)
    : World * result string :=
  ({| ops := ops w;
      console := (console w ++ logged ++ ["Error saving canvas: " +:+ error])%list;
      downloads := downloads w |},
   Failure error).

(** [saveCanvas(canvasState, filename = null)]; the payload of a success is
    the file name. *)
Definition saveCanvas (env : SaveEnv) (canvasState : value)
    (filename : option string) (w : World) : World * result string :=
  let filename :=
    match filename with
    | Some f => if String.eqb f "" then defaultFileName env else f
    | None => defaultFileName env
    end in
  match saveDataOf (ops w) env canvasState with
  | Throw e => saveFailed w [] e
  | Normal saveData =>
      match validateSaveData saveData with
      | Fail logged => saveFailed w [logged] "Invalid data structure for saving"
      | Pass =>
          ({| ops := {| stateManager := StateManager.markAsSaved (stateManager (ops w));
                        currentFileName := Some filename;
                        fileVersion := fileVersion (ops w) |};
              console := (console w ++
                          ["Canvas saved successfully as " +:+ filename])%list;
              downloads := (downloads w ++ [(filename, saveData)])%list |},
           Success filename)
      end
  end.

(** A [File]: its name, and what reading it as text gives ([Throw] when the
    reader fails). *)
Record File := {
  fileName : string;
  fileText : completion string
}.

(** [s.toLowerCase()], on ASCII text. *)
Fixpoint toLowerCase (s : string) : string :=
  match s with
  | EmptyString => EmptyString
  | String c rest =>
      let n := Ascii.N_of_ascii c in
      String (if ((65 <=? n) && (n <=? 90))%N then Ascii.ascii_of_N (n + 32) else c)
             (toLowerCase rest)
  end.

Definition endsWith (s suffix : string) : bool :=
  let n := String.length s in
  let m := String.length suffix in
  (m <=? n)%nat && String.eqb (String.substring (n - m) m s) suffix.

(** The payload of a successful load: [{ data, filename }]. *)
Record Loaded := {
  loadedData : value;
  loadedFileName : string
}.

Definition loadFailed (w : World) (logged : list string) (error : string)
    : World * result Loaded :=
  ({| ops := ops w;
      console := (console w ++ logged ++ ["Error loading canvas: " +:+ error])%list;
      downloads := downloads w |},
   Failure error).

Section Load.

(** [JSON.parse]: the value a text denotes, or the message of the
    SyntaxError it throws. *)
Variable JSON_parse : string -> completion value.

(** [loadCanvas(file)], from the moment the file's text is available;
    [None] is a missing file argument. *)
Definition loadCanvas (file : option File) (w : World) : World * result Loaded :=
  match file with
  | None => loadFailed w [] "No file provided"
  | Some file =>
      if negb (endsWith (toLowerCase (fileName file)) ".json")
      then loadFailed w [] "File must be a JSON file (.json extension)"
      else
      match fileText file with
      | Throw e => loadFailed w [] e
      | Normal fileContent =>
          match JSON_parse fileContent with
          | Throw parseError =>
              loadFailed w [] ("Invalid JSON format: " ++ parseError)
          | Normal loadedData =>
              match validateLoadData loadedData with
              | (Some error, logged) =>
                  loadFailed w logged ("Invalid file structure: " ++ error)
              | (None, logged) =>
                  match
                    version ← get loadedData "version";
                    canvas ← get loadedData "canvas";
                    grids ← get loadedData "grids";
                    notes ← get loadedData "notes";
                    rootNote ← get loadedData "rootNote";
                    intervals ← get loadedData "intervals";
                    settings ← get loadedData "settings";
                    Normal
                      (version,
                       VObj [ ("canvas", or_else canvas (VObj []));
                              ("grids", or_else grids (VArr []));
                              ("notes", or_else notes (VObj []));
                              ("rootNote", or_else rootNote VNull);
                              ("intervals", or_else intervals (VObj []));
                              ("settings", or_else settings (VObj [])) ])
                  with
                  | Throw e => loadFailed w logged e
                  | Normal (version, canvasState) =>
                      let warning :=
                        if truthy version
                           && (match version with
                               | VStr v => negb (String.eqb v (fileVersion (ops w)))
                               | _ => true
                               end)
                        then ["File version " +:+ toText version +:+
                              " may not be fully compatible with current version "
                              +:+ fileVersion (ops w)]
                        else [] in
                      ({| ops := {| stateManager :=
                                      StateManager.clearHistory (stateManager (ops w));
                                    currentFileName := Some (fileName file);
                                    fileVersion := fileVersion (ops w) |};
                          console := (console w ++ logged ++ warning ++
                                      ["Canvas loaded successfully from " +:+ fileName file])%list;
                          downloads := downloads w |},
                       Success {| loadedData := canvasState;
                                  loadedFileName := fileName file |})
                  end
              end
          end
      end
  end.

End Load.

End FileOperations.

(** ** Document shapes *)

(** The shapes the validators of [FileOperations] accept, and the
    invariants of the data model, stated on documents. *)
Module Shape.
Import JS.

(** [g.config.tuning] is an array. *)
Definition tuningIsArray (g : value) : Prop :=
  exists props cfg tun,
    g = VObj props
    /\ assoc "config" props = Some (VObj cfg)
    /\ assoc "tuning" cfg = Some (VArr tun).

(** A grid with an [id], a [position] with numeric [x] and [y], and a
    [config] with numeric [startFret], [endFret] and [stringCount], an array
    [tuning] and an [orientation]. *)
Definition wellShapedGrid (g : value) : Prop :=
  exists props pos cfg x y startFret endFret stringCount tun,
    g = VObj props
    /\ is_Some (assoc "id" props)
    /\ assoc "position" props = Some (VObj pos)
    /\ assoc "x" pos = Some (VNum x)
    /\ assoc "y" pos = Some (VNum y)
    /\ assoc "config" props = Some (VObj cfg)
    /\ assoc "startFret" cfg = Some (VNum startFret)
    /\ assoc "endFret" cfg = Some (VNum endFret)
    /\ assoc "stringCount" cfg = Some (VNum stringCount)
    /\ assoc "tuning" cfg = Some (VArr tun)
    /\ is_Some (assoc "orientation" cfg).

(** The document has a top-level [grids] array. *)
Definition hasGridsArray (doc : value) : Prop :=
  exists props grids, doc = VObj props /\ assoc "grids" props = Some (VArr grids).

(** One of the grids of the document has a [config.tuning] that is not an
    array. *)
Definition hasGridWithoutTuningArray (doc : value) : Prop :=
  exists props grids g,
    doc = VObj props
    /\ assoc "grids" props = Some (VArr grids)
    /\ g ∈ grids
    /\ ~ tuningIsArray g.

(** The fret bounds of the data model, [0 <= start <= end <= 24], on a
    well-shaped grid. *)
Definition fretBoundsHold (g : value) : Prop :=
  exists props cfg startFret endFret,
    g = VObj props
    /\ assoc "config" props = Some (VObj cfg)
    /\ assoc "startFret" cfg = Some (VNum startFret)
    /\ assoc "endFret" cfg = Some (VNum endFret)
    /\ 0 <= startFret <= endFret /\ endFret <= 24.

(** The tuning has one entry per string. *)
Definition tuningLengthHolds (g : value) : Prop :=
  exists props cfg stringCount tun,
    g = VObj props
    /\ assoc "config" props = Some (VObj cfg)
    /\ assoc "stringCount" cfg = Some (VNum stringCount)
    /\ assoc "tuning" cfg = Some (VArr tun)
    /\ Z.of_nat (length tun) = stringCount.



(** The errors [validateLoadData] reports. *)
Definition loadError (reason : string) : Prop :=
  reason = "File must contain a JSON object"
  \/ reason = "Missing version information"
  \/ reason = "Missing or invalid canvas configuration"
  \/ reason = "Missing or invalid grids array"
  \/ exists i : nat, reason = "Invalid grid structure at index " ++ pretty i.

End Shape.

(** ** Canvas: file loading (src/components/canvas.js) *)

Module Canvas.
Import JS.

Section HandleLoad.

(** The grids, notes, root note and settings shown on the canvas, and
    [restoreCanvasState], which replaces them by what a loaded document
    describes (it rebuilds the page and may throw half-way). *)
Variable Workspace : Type.
Variable restoreCanvasState : value -> Workspace -> Workspace * completion unit.
Variable JSON_parse : string -> completion value.

Record t := {
  workspace : Workspace;
  toasts : list (string * string);
  files : FileOperations.World
}.

(** [handleLoad(event)], with [file] standing for
    [event.target.files[0]]. *)
Definition handleLoad (file : option FileOperations.File) (c : t) : t :=
  match file with
  | None => c
  | Some _ =>
      match FileOperations.loadCanvas JSON_parse file (files c) with
      | (files', FileOperations.Success loaded) =>
          match restoreCanvasState (FileOperations.loadedData loaded) (workspace c) with
          | (restored, Normal _) =>
              {| workspace := restored;
                 toasts := (toasts c ++
                            [("Canvas loaded from " +:+ FileOperations.loadedFileName loaded,
                              "success")])%list;
                 files := files' |}
          | (restored, Throw e) =>
              {| workspace := restored;
                 toasts := (toasts c ++ [("Load failed: " +:+ e, "error")])%list;
                 files :=
                   {| FileOperations.ops := FileOperations.ops files';
                      FileOperations.console :=
                        (FileOperations.console files' ++
                         ["Error loading canvas: " +:+ e])%list;
                      FileOperations.downloads := FileOperations.downloads files' |} |}
          end
      | (files', FileOperations.Failure error) =>
          {| workspace := workspace c;
             toasts := (toasts c ++ [("Load failed: " +:+ error, "error")])%list;
             files := files' |}
      end
  end.

End HandleLoad.

Global Arguments Build_t {Workspace}.
Global Arguments workspace {Workspace}.
Global Arguments toasts {Workspace}.
Global Arguments files {Workspace}.
Global Arguments handleLoad {Workspace}.

End Canvas.

(** ** Grid: the note operations (src/components/grid.js) *)

Module Grid.
Import JS.

Record Config := {
  startFret : Z;
  endFret : Z;
  stringCount : Z;
  tuning : list MusicTheory.StringTuning;
  orientation : string
}.

(** A placed note: [{ ...noteInfo, stringIndex, fret, element, groupState }].
    The [fret] written after the spread is the one [getNoteAt] already
    echoed in [noteInfo]; the DOM [element] is left out. *)
Record Note := {
  noteInfo : MusicTheory.NoteInfo;
  stringIndex : Z;
  groupState : string
}.

(** The canvas's [rootNote]: [{ ...note, gridId, noteId }]. *)
Record RootNote := {
  rootNoteData : Note;
  rootGridId : string;
  rootNoteId : string
}.

(** The fields of a grid that the note operations use; [id] is
    [element.id]. *)
Record t := {
  id : string;
  config : Config;
  notes : gmap string Note;
  isLocked : bool
}.

(** A grid and what it reaches through [this.canvas] and
    [this.stateManager]: the canvas's root note and interval map, and the
    actions handed to [saveState], oldest first.  (The two snapshots of each
    [saveState] call are taken by [Canvas.getCanvasState] over the whole
    canvas and are not part of this model.) *)
Record Scene := {
  grid : t;
  rootNote : option RootNote;
  intervals : gmap string MusicTheory.Interval;
  recorded : list StateManager.Action
}.

(** The constructor's configuration. *)
Definition defaultConfig : Config :=
  {| startFret := 0;
     endFret := 7;
     stringCount := 6;
     tuning := MusicTheory.getStandardTuning 6;
     orientation := "vertical" |}.

Definition new (id : string) : t :=
  {| id := id; config := defaultConfig; notes := ∅; isLocked := false |}.

(** The template [`${this.element.id}_${stringIndex}_${fret}`]. *)
Definition noteIdOf (g : t) (stringIndex fret : Z) : string :=
  id g ++ "_" ++ pretty stringIndex ++ "_" ++ pretty fret.

Definition withNotes (notes : gmap string Note) (g : t) : t :=
  {| id := id g; config := config g; notes := notes; isLocked := isLocked g |}.

(** [this.stateManager.saveState(this.stateManager.createAction(type,
    description), previousState, newState)]. *)
Definition save (type description : string) (s : Scene) : Scene :=
  {| grid := grid s;
     rootNote := rootNote s;
     intervals := intervals s;
     recorded := (recorded s ++
                  [StateManager.createAction type description VNull])%list |}.

(** [this.canvas.setRootNote(null)]: the root note is cleared and the
    interval map is emptied. *)
Definition clearRootNote (s : Scene) : Scene :=
  {| grid := grid s;
     rootNote := None;
     intervals := ∅;
     recorded := recorded s |}.

(** [placeNote(stringIndex, fret)].  An exception of [getNoteAt] leaves
    before anything is stored. *)
Definition placeNote (stringIndex fret : Z) (s : Scene) : Scene * completion unit :=
  match index (tuning (config (grid s))) stringIndex with
  | None =>
      (s, Throw "TypeError: Cannot read properties of undefined (reading 'semitone')")
  | Some stringTuning =>
      match MusicTheory.getNoteAt stringTuning fret with
      | Throw e => (s, Throw e)
      | Normal noteInfo =>
          let noteId := noteIdOf (grid s) stringIndex fret in
          let note :=
            {| noteInfo := noteInfo;
               stringIndex := stringIndex;
               groupState := "chromatic" |} in
          let stored :=
            {| grid := withNotes (<[noteId := note]> (notes (grid s))) (grid s);
               rootNote := rootNote s;
               intervals := intervals s;
               recorded := recorded s |} in
          (save "note_place"
             ("Place " ++ MusicTheory.noteName noteInfo ++ " note at fret " ++
              pretty fret ++ ", string " ++ pretty (stringIndex + 1))
             stored,
           Normal ())
      end
  end.

(** [removeNote(noteId)]. *)
Definition removeNote (noteId : string) (s : Scene) : Scene :=
  match notes (grid s) !! noteId with
  | None => s
  | Some note =>
      let removed :=
        {| grid := withNotes (delete noteId (notes (grid s))) (grid s);
           rootNote := rootNote s;
           intervals := intervals s;
           recorded := recorded s |} in
      let cleared :=
        match rootNote removed with
        | Some root =>
            if String.eqb (rootNoteId root) noteId
            then clearRootNote removed else removed
        | None => removed
        end in
      save "note_remove"
        ("Remove " ++ MusicTheory.noteName (noteInfo note) ++ " note")
        cleared
  end.

Definition groupStates : list string :=
  ["chromatic"; "group-1"; "group-2"; "group-3"; "group-4"].

(** [cycleNoteGroup(noteId, note)], where [note] is the object stored under
    [noteId] (the call site passes [this.notes.get(noteId)]): the
    assignment to [note.groupState] changes that entry of the map. *)
Definition cycleNoteGroup (noteId : string) (note : Note) (s : Scene) : Scene :=
  let currentIndex := indexOf groupStates (groupState note) in
  let nextIndex := rem (currentIndex + 1) (Z.of_nat (length groupStates)) in
  if (nextIndex =? 0) && (currentIndex =? 0) then removeNote noteId s
  else
    match index groupStates nextIndex with
    | None => s
    | Some newGroupState =>
        let changed :=
          {| noteInfo := noteInfo note;
             stringIndex := stringIndex note;
             groupState := newGroupState |} in
        save "note_group_change"
          ("Change note " ++ MusicTheory.noteName (noteInfo note) ++
           " group to " ++ newGroupState)
          {| grid := withNotes (<[noteId := changed]> (notes (grid s))) (grid s);
             rootNote := rootNote s;
             intervals := intervals s;
             recorded := recorded s |}
    end.

(** [handleNoteClick(event)], with the string index and the fret read from
    the clicked position. *)
Definition handleNoteClick (stringIndex fret : Z) (s : Scene) : Scene * completion unit :=
  if isLocked (grid s) then (s, Normal ())
  else
    let noteId := noteIdOf (grid s) stringIndex fret in
    match notes (grid s) !! noteId with
    | Some existingNote => (cycleNoteGroup noteId existingNote s, Normal ())
    | None => placeNote stringIndex fret s
    end.

(** The next state of the cycle, as the specification words it: one step
    through chromatic, group 1, ..., group 4, and from group 4 back to
    chromatic. *)
Definition nextGroupStateSpec (state : string) : string :=
  if String.eqb state "chromatic" then "group-1"
  else if String.eqb state "group-1" then "group-2"
  else if String.eqb state "group-2" then "group-3"
  else if String.eqb state "group-3" then "group-4"
  else "chromatic".

End Grid.

(** ** Sample data *)

Module Samples.
Import JS.

(** The calls of the history tests: action [i] takes a counter from [i] to
    [i + 1]. *)
Definition sampleCall (i : Z) : StateManager.SaveCall :=
  {| StateManager.callEnv :=
       {| StateManager.idTime := 1700000000000 + i;
          StateManager.randomDigits := "k3j2h1g0f";
          StateManager.entryTime := 1700000000000 + i |};
     StateManager.callAction :=
       {| StateManager.type := "test";
          StateManager.description := "Action " ++ pretty i;
          StateManager.data := VUndefined |};
     StateManager.callPrevious := VObj [("count", VNum i)];
     StateManager.callNew := VObj [("count", VNum (i + 1))] |}.

Definition sevenCalls : list StateManager.SaveCall :=
  sampleCall <$> [0; 1; 2; 3; 4; 5; 6].

(** A default grid with one note on the low E string at fret 3. *)
Definition lowE : MusicTheory.StringTuning :=
  {| MusicTheory.note := "E"; MusicTheory.tuningSemitone := 4 |}.

Definition gAtFret3 : MusicTheory.NoteInfo :=
  {| MusicTheory.noteName := "G";
     MusicTheory.noteIsNatural := true;
     MusicTheory.noteSemitone := 7;
     MusicTheory.cssClass := Some "g";
     MusicTheory.displayText := "G";
     MusicTheory.fret := 3;
     MusicTheory.stringTuning := lowE |}.



Definition emptyScene : Grid.Scene :=
  {| Grid.grid := Grid.new "grid-1";
     Grid.rootNote := None;
     Grid.intervals := ∅;
     Grid.recorded := [] |}.

(** [n] clicks in a row on string 0, fret 3. *)
Fixpoint clickTimes (n : nat) (s : Grid.Scene) : Grid.Scene :=
  match n with
  | O => s
  | S n' => clickTimes n' (fst (Grid.handleNoteClick 0 3 s))
  end.



Definition canvasProps (grids : list value) : list (string * value) :=
  [ ("canvas", VObj [ ("orientation", VStr "portrait");
                      ("locked", VBool false);
                      ("dimensions",
                       VObj [("width", VNum 816); ("height", VNum 1056)]) ]);
    ("grids", VArr grids);
    ("notes", VObj []);
    ("rootNote", VNull);
    ("intervals", VObj []);
    ("settings", VObj [("version", VStr "1.0"); ("timestamp", VNum 1700000000000)]) ].

Definition canvasStateWith (grids : list value) : value :=
  VObj (canvasProps grids).


Definition saveEnv : FileOperations.SaveEnv :=
  {| FileOperations.isoTime := "2024-01-02T03:04:05.678Z";
     FileOperations.now := 1704164645678 |}.

Definition freshWorld : FileOperations.World :=
  {| FileOperations.ops := FileOperations.new StateManager.new;
     FileOperations.console := [];
     FileOperations.downloads := [] |}.

(** A world whose manager holds two recorded actions. *)
Definition usedWorld : FileOperations.World :=
  {| FileOperations.ops :=
       FileOperations.new
         (StateManager.recordAll [sampleCall 0; sampleCall 1] StateManager.new);
     FileOperations.console := [];
     FileOperations.downloads := [] |}.

(** Two documents: one without [grids], one whose grid has a string where
    the tuning array should be. *)
Definition docWithoutGrids : value :=
  VObj [ ("version", VStr "1.0"); ("canvas", VObj []) ].

Definition docWithStringTuning : value :=
  VObj [ ("version", VStr "1.0"); ("canvas", VObj []);
         ("grids", VArr
            [ VObj [ ("id", VStr "grid-1");
                     ("position", VObj [("x", VNum 0); ("y", VNum 0)]);
                     ("config", VObj [ ("startFret", VNum 0); ("endFret", VNum 7);
                                       ("stringCount", VNum 6);
                                       ("tuning", VStr "EADGBE");
                                       ("orientation", VStr "vertical") ]) ] ]) ].

(** A parser that knows the two texts used below. *)
Definition sampleParse (text : string) : completion value :=
  if String.eqb text "no grids" then Normal docWithoutGrids
  else if String.eqb text "string tuning" then Normal docWithStringTuning
  else Throw "Unexpected token".

(** A canvas whose workspace is the document last restored. *)
Definition restoreDocument (doc : value) (current : value) : value * completion unit :=
  (doc, Normal ()).

Definition usedCanvas : Canvas.t value :=
  {| Canvas.workspace := canvasStateWith [];
     Canvas.toasts := [];
     Canvas.files := usedWorld |}.

Definition fileOf (text : string) : FileOperations.File :=
  {| FileOperations.fileName := "Lesson.JSON";
     FileOperations.fileText := Normal text |}.

End Samples.

(** ** MusicTheory: the remaining functions *)

Module MusicTheoryExt.
Import JS MusicTheory.

(** [parseNote(noteString)]: a copy of the scale entry with that name, or
    [null]. *)
Definition parseNote (noteString : string) : option ScaleNote :=
  match List.find (fun n => String.eqb (name n) noteString) chromaticScale with
  | Some note =>
      Some {| name := name note; isNatural := isNatural note; semitone := semitone note |}
  | None => None
  end.

(** [getAllNoteNames()]. *)
Definition getAllNoteNames : list string := name <$> chromaticScale.

(** A string of a tuning as an object: [{ note, semitone }]. *)
Definition tuningValue (t : StringTuning) : value :=
  VObj [("note", VStr (note t)); ("semitone", VNum (tuningSemitone t))].

(** The callback of [validateTuning]:
    [stringTuning && typeof stringTuning.note === 'string' &&
     typeof stringTuning.semitone === 'number' &&
     stringTuning.semitone >= 0 && stringTuning.semitone <= 11],
    as the boolean [every] makes of it. *)
Definition validStringTuning (stringTuning : value) : completion bool :=
  if negb (truthy stringTuning) then Normal false
  else
    note ← get stringTuning "note";
    if negb (String.eqb (typeof note) "string") then Normal false
    else
      semitone ← get stringTuning "semitone";
      match semitone with
      | VNum n => Normal ((0 <=? n) && (n <=? 11))
      | _ => Normal false
      end.

(** [array.every(callback)]: stops at the first element the callback
    rejects. *)
Fixpoint every (callback : value -> completion bool) (items : list value)
    : completion bool :=
  match items with
  | [] => Normal true
  | x :: rest =>
      ok ← callback x;
      if ok : bool then every callback rest else Normal false
  end.

(** [validateTuning(tuning)]. *)
Definition validateTuning (tuning : value) : completion bool :=
  match tuning with
  | VArr items => every validStringTuning items
  | _ => Normal false
  end.

(** The [classMap] of [getIntervalCssClass]. *)
Definition intervalClassMap : list (string * string) :=
  [ ("minor-3rd", "interval-minor-3rd");
    ("major-3rd", "interval-major-3rd");
    ("perfect-4th", "interval-perfect-4th");
    ("perfect-5th", "interval-perfect-5th");
    ("minor-7th", "interval-minor-7th");
    ("major-7th", "interval-major-7th");
    ("octave", "interval-octave") ].

(** [getIntervalCssClass(intervalType)]: [classMap[intervalType] || '']. *)
Definition getIntervalCssClass (intervalType : string) : string :=
  match property intervalClassMap intervalType with
  | Some c => if String.eqb c "" then "" else c
  | None => ""
  end.

(** A fret marker: [{ fret, type }]. *)
Record Marker := {
  markerFret : Z;
  markerType : string
}.

Definition singleDotFrets : list Z := [3; 5; 7; 9; 15; 17; 19; 21].
Definition doubleDotFrets : list Z := [12].

Definition includes (l : list Z) (x : Z) : bool := existsb (Z.eqb x) l.

(** [getFretMarkers(startFret, endFret)]: the loop runs over the frets
    [startFret], ..., [endFret] and pushes a marker for those of the two
    lists. *)
Definition getFretMarkers (startFret endFret : Z) : list Marker :=
  omap (fun fret =>
          if includes singleDotFrets fret
          then Some {| markerFret := fret; markerType := "single" |}
          else if includes doubleDotFrets fret
          then Some {| markerFret := fret; markerType := "double" |}
          else None)
       (seqZ startFret (endFret - startFret + 1)).

(** [calculateAllIntervals(rootNote, allNotes)]: the map of the notes that
    stand in a recognised interval to the root, by note id. *)
Definition calculateAllIntervals {A B} `{HasSemitone A} `{HasSemitone B}
    (rootNote : option A) (allNotes : gmap string B) : gmap string Interval :=
  match rootNote with
  | None => ∅
  | Some _ =>
      omap (fun note => calculateInterval rootNote (Some note)) allNotes
  end.

End MusicTheoryExt.

(** ** StateManager: the remaining functions *)

Module StateManagerExt.
Import JS StateManager.

(** What [getStateInfo()] returns. *)
Record StateInfo := {
  historyLength : Z;
  infoCurrentIndex : Z;
  infoCanUndo : bool;
  infoCanRedo : bool;
  infoHasUnsavedChanges : bool
}.

Definition getStateInfo (s : t) : StateInfo :=
  {| historyLength := Z.of_nat (length (history s));
     infoCurrentIndex := currentIndex s;
     infoCanUndo := canUndo s;
     infoCanRedo := canRedo s;
     infoHasUnsavedChanges := hasUnsavedChangesFlag s |}.

(** [hasUnsavedChanges()]. *)
Definition hasUnsavedChanges (s : t) : bool := hasUnsavedChangesFlag s.

(** The object [exportHistory()] returns and [importHistory] reads.  A
    field that an imported object may lack is optional. *)
Record HistoryData := {
  dataVersion : string;
  dataTimestamp : Z;
  dataCurrentIndex : option Z;
  dataHistory : option (list StateEntry)
}.

(** [exportHistory()], with the reading of [Date.now()].  (The object
    holds the log itself, not a copy; the properties below look at it
    before the manager is used again.) *)
Definition exportHistory (now : Z) (s : t) : HistoryData :=
  {| dataVersion := "1.0";
     dataTimestamp := now;
     dataCurrentIndex := Some (currentIndex s);
     dataHistory := Some (history s) |}.

(** [importHistory(historyData)]; [None] is a missing argument, on which
    reading [version] throws inside the [try].  The pointer is
    [historyData.currentIndex || -1], so that a pointer of 0 is read as
    absent. *)
Definition importHistory (historyData : option HistoryData) (s : t) : t * bool :=
  match historyData with
  | None => (s, false)
  | Some historyData =>
      if negb (String.eqb (dataVersion historyData) "1.0") then (s, false)
      else
        ({| history := default [] (dataHistory historyData);
            currentIndex :=
              match dataCurrentIndex historyData with
              | Some i => if i =? 0 then -1 else i
              | None => -1
              end;
            maxHistorySize := maxHistorySize s;
            hasUnsavedChangesFlag := true;
            notified := (notified s ++ [Signal "history_imported"])%list |},
         true)
  end.

(** [validateState(state)]. *)
Definition validateState (state : value) : completion bool :=
  if negb (truthy state) || negb (String.eqb (typeof state) "object")
  then Normal false
  else
    hasCanvas ← has "canvas" state;
    if hasCanvas : bool then has "grids" state else Normal false.

(** One press of the undo or of the redo button. *)
Inductive Step := StepUndo | StepRedo.

Definition step (st : Step) (s : t) : t :=
  match st with
  | StepUndo => fst (undo s)
  | StepRedo => fst (redo s)
  end.

Definition steps (sts : list Step) (s : t) : t :=
  fold_left (fun s st => step st s) sts s.

(** The states of a manager created with the cap [cap] on which
    [saveState], [undo], [redo], [clearHistory] and [markAsSaved] are
    called in any order. *)
Inductive operated (cap : Z) : t -> Prop :=
| op_new : operated cap (setMaxHistorySize cap new)
| op_save s c : operated cap s -> operated cap (record c s)
| op_undo s : operated cap s -> operated cap (fst (undo s))
| op_redo s : operated cap s -> operated cap (fst (redo s))
| op_clear s : operated cap s -> operated cap (clearHistory s)
| op_saved s : operated cap s -> operated cap (markAsSaved s).

End StateManagerExt.

(** ** Grid: configuration, dragging and serialisation *)

Module GridExt.
Import JS Grid.

(** [{ ...g, config }]. *)
Definition withConfig (config : Config) (g : t) : t :=
  {| id := id g; config := config; notes := notes g; isLocked := isLocked g |}.

Definition withGrid (g : t) (s : Scene) : Scene :=
  {| grid := g;
     rootNote := rootNote s;
     intervals := intervals s;
     recorded := recorded s |}.

(** [parseInt(text) || fallback]: [None] is the [NaN] that [parseInt]
    gives on text that does not start with a number. *)
Definition parsedOr (parsed : option Z) (fallback : Z) : Z :=
  match parsed with
  | Some n => if n =? 0 then fallback else n
  | None => fallback
  end.

(** The three numeric inputs of the grid controller, by their class:
    [start-fret], [end-fret] and [string-count]. *)
Inductive Control := StartFretInput | EndFretInput | StringCountInput.

(** What a change of a numeric input does to the configuration, [None]
    when nothing is to be rendered. *)
Definition changedConfig (control : Control) (parsed : option Z) (config : Config)
    : option Config :=
  match control with
  | StartFretInput =>
      let value := Z.max 0 (Z.min 24 (parsedOr parsed 0)) in
      if negb (value =? startFret config)
      then Some {| startFret := value;
                   endFret := if endFret config <? value then value
                              else endFret config;
                   stringCount := stringCount config;
                   tuning := tuning config;
                   orientation := orientation config |}
      else None
  | EndFretInput =>
      let value := Z.max 0 (Z.min 24 (parsedOr parsed 0)) in
      if negb (value =? endFret config)
      then Some {| startFret := if value <? startFret config then value
                                else startFret config;
                   endFret := value;
                   stringCount := stringCount config;
                   tuning := tuning config;
                   orientation := orientation config |}
      else None
  | StringCountInput =>
      let value := Z.max 4 (Z.min 12 (parsedOr parsed 6)) in
      if negb (value =? stringCount config)
      then Some {| startFret := startFret config;
                   endFret := endFret config;
                   stringCount := value;
                   tuning := MusicTheory.getStandardTuning value;
                   orientation := orientation config |}
      else None
  end.

(** [handleConfigChange(event)] for a change of one of the numeric inputs,
    with [parsed] standing for [parseInt(target.value)].  (The fourth
    branch, a tuning select, stores a scale entry where a string tuning
    was; it is not covered.) *)
Definition handleConfigChange (control : Control) (parsed : option Z) (s : Scene)
    : Scene :=
  if isLocked (grid s) then s
  else
    match changedConfig control parsed (config (grid s)) with
    | Some config' =>
        save "grid_config_change"
          ("Update grid " ++ id (grid s) ++ " configuration")
          (withGrid (withConfig config' (grid s)) s)
    | None => s
    end.

(** The ranges the controller's inputs declare: frets from 0 to 24 with the
    start not after the end, 4 to 12 strings, and one tuning entry per
    string. *)
Definition configInRange (config : Config) : Prop :=
  0 <= startFret config <= endFret config
  /\ endFret config <= 24
  /\ 4 <= stringCount config <= 12
  /\ Z.of_nat (length (tuning config)) = stringCount config.

(** [toggleOrientation()] of a grid. *)
Definition toggleOrientation (s : Scene) : Scene :=
  if isLocked (grid s) then s
  else
    let flipped :=
      if String.eqb (orientation (config (grid s))) "vertical"
      then "horizontal" else "vertical" in
    save "grid_config_change"
      ("Change grid " ++ id (grid s) ++ " orientation to " ++ flipped)
      (withGrid
         (withConfig {| startFret := startFret (config (grid s));
                        endFret := endFret (config (grid s));
                        stringCount := stringCount (config (grid s));
                        tuning := tuning (config (grid s));
                        orientation := flipped |}
            (grid s))
         s).

(** [setLocked(locked)]. *)
Definition setLocked (locked : bool) (g : t) : t :=
  {| id := id g; config := config g; notes := notes g; isLocked := locked |}.


(** [this.position] and [this.dragOffset], in whole pixels. *)
Record Position := {
  x : Z;
  y : Z
}.

(** A bounding rectangle, as far as dragging reads it. *)
Record Rect := {
  rectLeft : Z;
  rectTop : Z;
  rectWidth : Z;
  rectHeight : Z
}.

(** A grid with the fields dragging and saving use. *)
Record Placed := {
  placedGrid : t;
  position : Position;
  isDragging : bool;
  dragOffset : Position
}.

(** The constructor, for the element with the given id. *)
Definition place (id : string) : Placed :=
  {| placedGrid := Grid.new id;
     position := {| x := 0; y := 0 |};
     isDragging := false;
     dragOffset := {| x := 0; y := 0 |} |}.

(** [startDrag(event)]; [onController] is
    [event.target.closest('.grid-controller')] being found, [rect] the
    bounding rectangle of the grid. *)
Definition startDrag (onController : bool) (clientX clientY : Z) (rect : Rect)
    (g : Placed) : Placed :=
  if isLocked (placedGrid g) || negb onController then g
  else
    {| placedGrid := placedGrid g;
       position := position g;
       isDragging := true;
       dragOffset := {| x := clientX - rectLeft rect;
                        y := clientY - rectTop rect |} |}.

(** [drag(event)], with the bounding rectangles of the canvas and of the
    grid. *)
Definition drag (clientX clientY : Z) (canvasRect gridRect : Rect) (g : Placed)
    : Placed :=
  if negb (isDragging g) then g
  else
    let newX := clientX - rectLeft canvasRect - x (dragOffset g) in
    let newY := clientY - rectTop canvasRect - y (dragOffset g) in
    let newX := Z.max 0 (Z.min newX (rectWidth canvasRect - rectWidth gridRect)) in
    let newY := Z.max 0 (Z.min newY (rectHeight canvasRect - rectHeight gridRect)) in
    {| placedGrid := placedGrid g;
       position := {| x := newX; y := newY |};
       isDragging := isDragging g;
       dragOffset := dragOffset g |}.

Definition positionData (p : Position) : value :=
  VObj [("x", VNum (x p)); ("y", VNum (y p))].

(** [endDrag(event)]; [canvasState] is what [this.canvas.getCanvasState()]
    returns at that moment. *)
Definition endDrag (env : StateManager.Env) (canvasState : value) (g : Placed)
    (manager : StateManager.t) : Placed * StateManager.t :=
  if negb (isDragging g) then (g, manager)
  else
    ({| placedGrid := placedGrid g;
        position := position g;
        isDragging := false;
        dragOffset := dragOffset g |},
     StateManager.saveState env
       (StateManager.createAction "grid_move"
          ("Move grid " ++ id (placedGrid g))
          (VObj [("position", positionData (position g))]))
       VNull canvasState manager).

(** The mouse events a grid listens to. *)
Inductive Mouse :=
| MouseDown (onController : bool) (clientX clientY : Z) (rect : Rect)
| MouseMove (clientX clientY : Z) (canvasRect gridRect : Rect)
| MouseUp (env : StateManager.Env) (canvasState : value).

Definition mouse (event : Mouse) (st : Placed * StateManager.t)
    : Placed * StateManager.t :=
  match event with
  | MouseDown onController clientX clientY rect =>
      (startDrag onController clientX clientY rect (fst st), snd st)
  | MouseMove clientX clientY canvasRect gridRect =>
      (drag clientX clientY canvasRect gridRect (fst st), snd st)
  | MouseUp env canvasState => endDrag env canvasState (fst st) (snd st)
  end.

Definition mouseAll (events : list Mouse) (st : Placed * StateManager.t)
    : Placed * StateManager.t :=
  fold_left (fun st event => mouse event st) events st.

(** The entry [serialize()] writes for a note. *)
Definition noteData (note : Note) : value :=
  VObj [ ("name", VStr (MusicTheory.noteName (noteInfo note)));
         ("semitone", VNum (MusicTheory.noteSemitone (noteInfo note)));
         ("isNatural", VBool (MusicTheory.noteIsNatural (noteInfo note)));
         ("stringIndex", VNum (stringIndex note));
         ("fret", VNum (MusicTheory.fret (noteInfo note)));
         ("groupState", VStr (groupState note)) ].

(** [{ ...this.config }] as data. *)
Definition configData (config : Config) : value :=
  VObj [ ("startFret", VNum (startFret config));
         ("endFret", VNum (endFret config));
         ("stringCount", VNum (stringCount config));
         ("tuning", VArr (MusicTheoryExt.tuningValue <$> tuning config));
         ("orientation", VStr (orientation config)) ].

(** [serialize()].  The notes are listed in the order of the map's keys;
    no reader of the result depends on the order. *)
Definition serialize (g : Placed) : value :=
  VObj [ ("id", VStr (id (placedGrid g)));
         ("position", positionData (position g));
         ("config", configData (config (placedGrid g)));
         ("notes", VObj (map_to_list (noteData <$> notes (placedGrid g)))) ].

End GridExt.

(** ** FileOperations: the remaining functions *)

Module FileOperationsExt.
Import JS FileOperations.

(** What [getCurrentFileInfo()] returns. *)
Record FileInfo := {
  infoFileName : option string;
  infoHasUnsavedChanges : bool;
  infoVersion : string
}.

Definition getCurrentFileInfo (fo : t) : FileInfo :=
  {| infoFileName := currentFileName fo;
     infoHasUnsavedChanges := StateManagerExt.hasUnsavedChanges (stateManager fo);
     infoVersion := fileVersion fo |}.

(** A document with a truthy [version], a [canvas] that is an object and
    a [grids] array of well-shaped grids. *)
Definition loadable (doc : value) : Prop :=
  exists props version canvas grids,
    doc = VObj props
    /\ assoc "version" props = Some version
    /\ truthy version = true
    /\ assoc "canvas" props = Some canvas
    /\ truthy canvas = true
    /\ typeof canvas = "object"
    /\ assoc "grids" props = Some (VArr grids)
    /\ Forall Shape.wellShapedGrid grids.

(** The warning [loadCanvas] logs for a version other than its own. *)
Definition versionWarning (fo : t) (version : value) : list string :=
  if truthy version
     && (match version with
         | VStr v => negb (String.eqb v (fileVersion fo))
         | _ => true
         end)
  then ["File version " +:+ toText version +:+
        " may not be fully compatible with current version " +:+ fileVersion fo]
  else [].

End FileOperationsExt.

(** ** Canvas: grids, root note, lock and state *)

Module CanvasExt.
Import JS.

(** The [semitone] of a stored note and of the root note, both of which
    spread a note's information. *)
Global Instance Note_semitone : MusicTheory.HasSemitone Grid.Note :=
  fun note => MusicTheory.noteSemitone (Grid.noteInfo note).
Global Instance RootNote_semitone : MusicTheory.HasSemitone Grid.RootNote :=
  fun root => MusicTheory.noteSemitone (Grid.noteInfo (Grid.rootNoteData root)).

(** A [Map] with string keys, in insertion order. *)
Fixpoint mapGet {A} (key : string) (m : list (string * A)) : option A :=
  match m with
  | [] => None
  | (k, v) :: rest => if String.eqb k key then Some v else mapGet key rest
  end.

Fixpoint mapSet {A} (key : string) (v : A) (m : list (string * A))
    : list (string * A) :=
  match m with
  | [] => [(key, v)]
  | (k, x) :: rest =>
      if String.eqb k key then (k, v) :: rest else (k, x) :: mapSet key v rest
  end.

Definition mapDelete {A} (key : string) (m : list (string * A))
    : list (string * A) :=
  List.filter (fun entry => negb (String.eqb (fst entry) key)) m.

(** The fields of a [Canvas] that its operations on grids use;
    [recorded] holds the actions handed to [saveState], oldest first. *)
Record t := {
  grids : list (string * GridExt.Placed);
  rootNote : option Grid.RootNote;
  intervals : gmap string MusicTheory.Interval;
  orientation : string;
  isLocked : bool;
  recorded : list StateManager.Action
}.

(** The constructor. *)
Definition new : t :=
  {| grids := [];
     rootNote := None;
     intervals := ∅;
     orientation := "portrait";
     isLocked := false;
     recorded := [] |}.

Definition save (type description : string) (c : t) : t :=
  {| grids := grids c;
     rootNote := rootNote c;
     intervals := intervals c;
     orientation := orientation c;
     isLocked := isLocked c;
     recorded := (recorded c ++
                  [StateManager.createAction type description VNull])%list |}.

(** The intervals of the notes of one grid: the entries
    [updateIntervalHighlighting] sets while it visits the grid. *)
Definition intervalsOf (root : Grid.RootNote) (g : GridExt.Placed)
    : gmap string MusicTheory.Interval :=
  omap (fun note => MusicTheory.calculateInterval (Some root) (Some note))
       (Grid.notes (GridExt.placedGrid g)).

(** [updateIntervalHighlighting()]: the map is cleared and, with a root
    note, filled grid after grid; an entry set for a later grid replaces
    one with the same note id. *)
Definition updateIntervalHighlighting (c : t) : t :=
  {| grids := grids c;
     rootNote := rootNote c;
     intervals :=
       match rootNote c with
       | None => ∅
       | Some root =>
           fold_left (fun found entry => intervalsOf root (snd entry) ∪ found)
                     (grids c) ∅
       end;
     orientation := orientation c;
     isLocked := isLocked c;
     recorded := recorded c |}.

(** [setRootNote(noteInfo)]. *)
Definition setRootNote (noteInfo : option Grid.RootNote) (c : t) : t :=
  updateIntervalHighlighting
    {| grids := grids c;
       rootNote := noteInfo;
       intervals := intervals c;
       orientation := orientation c;
       isLocked := isLocked c;
       recorded := recorded c |}.

(** [handleNoteDoubleClick(event)] of the grid [g], whose [this.canvas] is
    [c], with the string index and the fret of the clicked position. *)
Definition handleNoteDoubleClick (g : Grid.t) (stringIndex fret : Z) (c : t) : t :=
  if Grid.isLocked g then c
  else
    let noteId := Grid.noteIdOf g stringIndex fret in
    match Grid.notes g !! noteId with
    | Some note =>
        setRootNote (Some {| Grid.rootNoteData := note;
                             Grid.rootGridId := Grid.id g;
                             Grid.rootNoteId := noteId |}) c
    | None => c
    end.

(** [toggleOrientation()] of the canvas. *)
Definition toggleOrientation (c : t) : t :=
  if isLocked c then c
  else
    let flipped :=
      if String.eqb (orientation c) "portrait" then "landscape" else "portrait" in
    save "canvas_orientation_change" ("Change orientation to " ++ flipped)
      {| grids := grids c;
         rootNote := rootNote c;
         intervals := intervals c;
         orientation := flipped;
         isLocked := isLocked c;
         recorded := recorded c |}.

Definition lockGrid (locked : bool) (g : GridExt.Placed) : GridExt.Placed :=
  {| GridExt.placedGrid := GridExt.setLocked locked (GridExt.placedGrid g);
     GridExt.position := GridExt.position g;
     GridExt.isDragging := GridExt.isDragging g;
     GridExt.dragOffset := GridExt.dragOffset g |}.

(** [toggleLock()]. *)
Definition toggleLock (c : t) : t :=
  let locked := negb (isLocked c) in
  save "canvas_lock_toggle"
    ("Canvas " ++ (if locked then "locked" else "unlocked"))
    {| grids := prod_map (fun k => k) (lockGrid locked) <$> grids c;
       rootNote := rootNote c;
       intervals := intervals c;
       orientation := orientation c;
       isLocked := locked;
       recorded := recorded c |}.




(** [handleGridDelete(gridId)]. *)
Definition handleGridDelete (gridId : string) (c : t) : t :=
  match mapGet gridId (grids c) with
  | None => c
  | Some _ =>
      let removed :=
        {| grids := mapDelete gridId (grids c);
           rootNote := rootNote c;
           intervals := intervals c;
           orientation := orientation c;
           isLocked := isLocked c;
           recorded := recorded c |} in
      let cleared :=
        match rootNote removed with
        | Some root =>
            if String.eqb (Grid.rootGridId root) gridId
            then setRootNote None removed else removed
        | None => removed
        end in
      save "grid_delete" ("Delete grid " ++ gridId) cleared
  end.

(** An interval as data: [{ type, distance, semitones, name }]. *)
Definition intervalData (i : MusicTheory.Interval) : value :=
  VObj [ ("type", VStr (MusicTheory.type i));
         ("distance", VNum (MusicTheory.distance i));
         ("semitones", VNum (MusicTheory.intervalSemitones i));
         ("name", VStr (MusicTheory.intervalLabel i)) ].

Section GetCanvasState.

(** The own properties of a stored note object as data, the DOM element
    among them. *)
Variable noteObject : Grid.Note -> list (string * value).

(** The loop [gridNotes.forEach((note, noteId) => notesData[noteId] = note)]
    over the grids; a note id met again keeps its place and takes the
    later note. *)
Definition notesDataOf (grids : list (string * GridExt.Placed))
    : list (string * value) :=
  fold_left
    (fun notesData entry =>
       fold_left
         (fun notesData note => mapSet (fst note) (VObj (noteObject (snd note))) notesData)
         (map_to_list (Grid.notes (GridExt.placedGrid (snd entry))))
         notesData)
    grids [].

(** [this.rootNote] as data: [null], or [{ ...note, gridId, noteId }]. *)
Definition rootNoteDataOf (rootNote : option Grid.RootNote) : value :=
  match rootNote with
  | None => VNull
  | Some root =>
      VObj (mapSet "noteId" (VStr (Grid.rootNoteId root))
              (mapSet "gridId" (VStr (Grid.rootGridId root))
                 (noteObject (Grid.rootNoteData root))))
  end.

(** [getCanvasState()], with the width and height of the canvas element
    and the reading of [Date.now()]. *)
Definition getCanvasState (offsetWidth offsetHeight now : Z) (c : t) : value :=
  VObj
    [ ("canvas", VObj
         [ ("orientation", VStr (orientation c));
           ("locked", VBool (isLocked c));
           ("dimensions",
            VObj [("width", VNum offsetWidth); ("height", VNum offsetHeight)]) ]);
      ("grids", VArr (GridExt.serialize <$> (snd <$> grids c)));
      ("notes", VObj (notesDataOf (grids c)));
      ("rootNote", rootNoteDataOf (rootNote c));
      ("intervals", VObj (map_to_list (intervalData <$> intervals c)));
      ("settings", VObj [("version", VStr "1.0"); ("timestamp", VNum now)]) ].

(** [handleSave()]: the toast shown, with the effect on the files. *)
Definition handleSave (env : FileOperations.SaveEnv) (offsetWidth offsetHeight now : Z)
    (c : t) (w : FileOperations.World)
    : FileOperations.World * (string * string) :=
  match FileOperations.saveCanvas env (getCanvasState offsetWidth offsetHeight now c)
          None w with
  | (w', FileOperations.Success filename) =>
      (w', ("Canvas saved as " +:+ filename, "success"))
  | (w', FileOperations.Failure error) =>
      (w', ("Save failed: " +:+ error, "error"))
  end.

End GetCanvasState.

End CanvasExt.

(* ================================================================== *)
(** * Properties *)
(* ================================================================== *)

(** ** MusicTheory *)

Module MusicTheoryFacts.
Import MusicTheory.

Example getNoteAt_E_open :
  pitchClass <$> (match getNoteAt {| note := "E"; tuningSemitone := 4 |} 0 with
                  | JS.Normal n => Some n | JS.Throw _ => None end)
  = Some ({| name := "E"; isNatural := true; semitone := 4 |}, Some "e", "E").
Proof. reflexivity. Qed.

Example calculateInterval_fifth :
  calculateInterval (Some {| name := "C"; isNatural := true; semitone := 0 |})
                    (Some {| name := "G"; isNatural := true; semitone := 7 |})
  = Some {| type := "perfect-5th"; distance := 7;
            intervalSemitones := 7; intervalLabel := "Perfect 5th" |}.
Proof. reflexivity. Qed.

(** An integer in [0, 12) is one of twelve values. *)
Lemma twelve_cases (d : Z) :
  0 <= d < 12 ->
  d = 0 \/ d = 1 \/ d = 2 \/ d = 3 \/ d = 4 \/ d = 5 \/
  d = 6 \/ d = 7 \/ d = 8 \/ d = 9 \/ d = 10 \/ d = 11.
Proof. lia. Qed.

Ltac twelve d H :=
  destruct (twelve_cases d H)
    as [->|[->|[->|[->|[->|[->|[->|[->|[->|[->|[->| ->]]]]]]]]]]].

(** On a non-negative dividend [%] is the mathematical modulo. *)
Lemma rem_nonneg (a : Z) : 0 <= a -> JS.rem a 12 = a mod 12.
Proof. intros Ha. unfold JS.rem. apply Z.rem_mod_nonneg; lia. Qed.



(** The scan of the chromatic table finds the entry of every semitone in
    [0, 12), and its [semitone] field is the one looked for. *)
Lemma findSemitone_in_range (d : Z) :
  0 <= d < 12 -> exists e, findSemitone d = Some e /\ semitone e = d.
Proof. intros H. twelve d H; eexists; split; reflexivity. Qed.



(** The distance computed by [calculateInterval] for two semitones of
    [0, 11] is their difference modulo 12. *)
Lemma distance_mod (r t : Z) :
  0 <= r <= 11 -> 0 <= t <= 11 ->
  (if t - r <? 0 then t - r + 12 else t - r) = (t - r) mod 12.
Proof.
  intros Hr Ht. destruct (Z.ltb_spec (t - r) 0).
  - rewrite <- (Z.mod_add (t - r) 1 12) by lia.
    rewrite Z.mod_small by lia. lia.
  - symmetry. apply Z.mod_small. lia.
Qed.

(** C8. For two pitch classes with semitones in [0,11], [calculateInterval]
    works with the distance [(target - root) mod 12]: the kind it returns
    is the one of the fixed table (3 minor-3rd, 4 major-3rd, 5 perfect-4th,
    7 perfect-5th, 10 minor-7th, 11 major-7th), the returned [distance] is
    that distance, the distances 0, 1, 2, 6, 8, 9 give [null], and the
    octave entry is never returned. *)
Theorem calculateInterval_table {A B} `{HasSemitone A} `{HasSemitone B}
    (root : A) (target : B) :
  0 <= semitoneOf root <= 11 ->
  0 <= semitoneOf target <= 11 ->
  let d := (semitoneOf target - semitoneOf root) mod 12 in
  let result := calculateInterval (Some root) (Some target) in
  type <$> result = intervalKindSpec d
  /\ (forall i, result = Some i -> distance i = d /\ intervalSemitones i = d)
  /\ (d ∈ [0; 1; 2; 6; 8; 9] -> result = None)
  /\ type <$> result <> Some "octave".
Proof.
  intros Hr Ht d result. subst result. unfold calculateInterval.
  rewrite (distance_mod _ _ Hr Ht). fold d.
  assert (Hd : 0 <= d < 12) by (apply Z.mod_pos_bound; lia).
  clearbody d.
  twelve d Hd; simpl;
    repeat match goal with |- _ /\ _ => split end;
    try discriminate; try reflexivity;
    try (intros i [= <-]; split; reflexivity);
    try (intros Hin; exfalso; rewrite !elem_of_cons, elem_of_nil in Hin; lia).
Qed.

Lemma calculateInterval_table_witness :
  let root := {| name := "D"; isNatural := true; semitone := 2 |} in
  let target := {| name := "C"; isNatural := true; semitone := 0 |} in
  let result := calculateInterval (Some root) (Some target) in
  type <$> result = intervalKindSpec ((0 - 2) mod 12)
  /\ (forall i, result = Some i ->
        distance i = (0 - 2) mod 12 /\ intervalSemitones i = (0 - 2) mod 12)
  /\ ((0 - 2) mod 12 ∈ [0; 1; 2; 6; 8; 9] -> result = None)
  /\ type <$> result <> Some "octave".
Proof.
  refine (calculateInterval_table
            {| name := "D"; isNatural := true; semitone := 2 |}
            {| name := "C"; isNatural := true; semitone := 0 |} _ _);
    unfold semitoneOf, ScaleNote_semitone; simpl; lia.
Defined.

Lemma getNoteAt_found (t : StringTuning) (f : Z) (e : ScaleNote) :
  findSemitone (JS.rem (tuningSemitone t + f) 12) = Some e ->
  getNoteAt t f = JS.Normal (noteInfoOf e t f).
Proof. intros E. unfold getNoteAt. rewrite E. reflexivity. Qed.


(** With a non-negative tuning semitone and a non-negative fret the table
    scan succeeds. *)
Lemma getNoteAt_succeeds (t : StringTuning) (f : Z) :
  0 <= tuningSemitone t -> 0 <= f ->
  exists e,
    findSemitone (JS.rem (tuningSemitone t + f) 12) = Some e
    /\ getNoteAt t f = JS.Normal (noteInfoOf e t f).
Proof.
  intros Ht Hf.
  assert (Hr : 0 <= JS.rem (tuningSemitone t + f) 12 < 12).
  { rewrite rem_nonneg by lia. apply Z.mod_pos_bound. lia. }
  destruct (findSemitone_in_range _ Hr) as (e & He & _).
  exists e. split; [exact He|apply getNoteAt_found, He].
Qed.







Example getNoteAt_negative_throws :
  getNoteAt {| note := "E"; tuningSemitone := 4 |} (-5)
  = JS.Throw "TypeError: Cannot read properties of undefined (reading 'name')".
Proof. reflexivity. Qed.

End MusicTheoryFacts.

(** ** Plain data *)

Module JSFacts.
Import JS.

(** Induction on [value] that reaches the items of arrays and the property
    values of objects. *)
Lemma value_nested_ind (P : value -> Prop) :
  P VUndefined -> P VNull -> (forall b, P (VBool b)) -> (forall n, P (VNum n)) ->
  (forall s, P (VStr s)) ->
  (forall items, Forall P items -> P (VArr items)) ->
  (forall props, Forall (fun kv => P kv.2) props -> P (VObj props)) ->
  forall v, P v.
Proof.
  intros HU HN HB HZ HS HA HO.
  fix IH 1. intros [ | | b | n | s | items | props].
  - exact HU.
  - exact HN.
  - apply HB.
  - apply HZ.
  - apply HS.
  - apply HA. revert items. fix IHl 1.
    intros [|x l]; constructor; [apply IH | apply IHl].
  - apply HO. revert props. fix IHl 1.
    intros [|[k x] l]; constructor; [apply IH | apply IHl].
Qed.

(** A value that is not [undefined] and holds no [undefined] is rebuilt by
    the JSON round trip exactly as it is. *)
Lemma jsonClone_plain (v : value) : jsonPlain v = true -> jsonClone v = v.
Proof.
  induction v as [ | | b | n | s | items IH | props IH] using value_nested_ind;
    try reflexivity.
  - intros Hp. simpl in Hp |- *. f_equal.
    induction IH as [|x l Hx _ IHl]; [reflexivity|].
    apply andb_prop in Hp as [Hx' Hl].
    rewrite (IHl Hl). f_equal.
    destruct x; try discriminate; try reflexivity; apply Hx, Hx'.
  - intros Hp. simpl in Hp |- *. f_equal.
    induction IH as [|[k x] l Hx _ IHl]; [reflexivity|].
    apply andb_prop in Hp as [Hx' Hl].
    rewrite (IHl Hl). simpl in Hx.
    destruct x; try discriminate; try reflexivity; f_equal; f_equal; apply Hx, Hx'.
Qed.

End JSFacts.

(** ** StateManager *)

Module StateManagerFacts.
Import JS StateManager.


(** The shape of the log after one [saveState]: the entries up to the
    pointer are kept, the new entry is appended, and the oldest entry is
    dropped when the cap is exceeded. *)
Lemma record_history (c : SaveCall) (s : t) :
  -1 <= currentIndex s ->
  let kept := take (Z.to_nat (currentIndex s + 1)) (history s) in
  let appended := (kept ++ [entryOfCall c])%list in
  history (record c s)
  = (if maxHistorySize s <? Z.of_nat (length appended)
     then drop 1 appended else appended)
  /\ currentIndex (record c s)
     = (if maxHistorySize s <? Z.of_nat (length appended)
        then Z.of_nat (length appended) - 1 - 1
        else Z.of_nat (length appended) - 1).
Proof.
  intros Hi kept appended.
  assert (Hk : (if currentIndex s <? Z.of_nat (length (history s)) - 1
                then slice0 (history s) (currentIndex s + 1)
                else history s) = kept).
  { subst kept. destruct (Z.ltb_spec (currentIndex s) (Z.of_nat (length (history s)) - 1)).
    - unfold slice0. destruct (Z.ltb_spec (currentIndex s + 1) 0); [lia|reflexivity].
    - symmetry. apply take_ge. lia. }
  unfold record, saveState. simpl. rewrite Hk. fold (entryOfCall c). fold appended.
  split; reflexivity.
Qed.

(** After [saveState] the pointer is on the last entry of the log. *)
Lemma record_pointer_at_tail (c : SaveCall) (s : t) :
  currentIndex (record c s) = Z.of_nat (length (history (record c s))) - 1.
Proof.
  unfold record, saveState. simpl.
  match goal with |- context [(?h ++ [?e])%list] => set (h2 := (h ++ [e])%list) end.
  assert (Hlen : (1 <= length h2)%nat) by (subst h2; rewrite length_app; simpl; lia).
  destruct (maxHistorySize s <? Z.of_nat (length h2)).
  - rewrite length_drop. lia.
  - reflexivity.
Qed.

Lemma record_maxHistorySize (c : SaveCall) (s : t) :
  maxHistorySize (record c s) = maxHistorySize s.
Proof. reflexivity. Qed.

Lemma undo_maxHistorySize (s : t) : maxHistorySize (fst (undo s)) = maxHistorySize s.
Proof.
  unfold undo. destruct (negb (canUndo s)); [reflexivity|].
  destruct (index _ _); reflexivity.
Qed.

Lemma redo_maxHistorySize (s : t) : maxHistorySize (fst (redo s)) = maxHistorySize s.
Proof.
  unfold redo. destruct (negb (canRedo s)); [reflexivity|].
  destruct (index _ _); reflexivity.
Qed.

Lemma undo_history (s : t) : history (fst (undo s)) = history s.
Proof.
  unfold undo. destruct (negb (canUndo s)); [reflexivity|].
  destruct (index _ _); reflexivity.
Qed.

Lemma redo_history (s : t) : history (fst (redo s)) = history s.
Proof.
  unfold redo. destruct (negb (canRedo s)); [reflexivity|].
  destruct (index _ _); reflexivity.
Qed.

Lemma undo_currentIndex (s : t) :
  currentIndex (fst (undo s))
  = if canUndo s then currentIndex s - 1 else currentIndex s.
Proof.
  unfold undo. destruct (canUndo s); simpl; [|reflexivity].
  destruct (index _ _); reflexivity.
Qed.

Lemma redo_currentIndex (s : t) :
  currentIndex (fst (redo s))
  = if canRedo s then currentIndex s + 1 else currentIndex s.
Proof.
  unfold redo. destruct (canRedo s); simpl; [|reflexivity].
  destruct (index _ _); reflexivity.
Qed.

(** The pointer of a reachable manager is [-1] or the position of an entry,
    and the cap is the one it was created with. *)
Lemma reachable_pointer (cap : Z) (s : t) :
  reachable cap s ->
  -1 <= currentIndex s < Z.of_nat (length (history s))
  /\ maxHistorySize s = cap.
Proof.
  induction 1 as [|s c _ [IHp IHc]|s _ [IHp IHc]|s _ [IHp IHc]].
  - simpl. split; [lia|reflexivity].
  - rewrite record_maxHistorySize. split; [|exact IHc].
    rewrite record_pointer_at_tail. lia.
  - rewrite undo_maxHistorySize, undo_history, undo_currentIndex.
    split; [|exact IHc]. unfold canUndo.
    destruct (Z.leb_spec 0 (currentIndex s)); lia.
  - rewrite redo_maxHistorySize, redo_history, redo_currentIndex.
    split; [|exact IHc]. unfold canRedo.
    destruct (Z.ltb_spec (currentIndex s) (Z.of_nat (length (history s)) - 1)); lia.
Qed.

(** The log of a reachable manager is never longer than a cap [>= 0]. *)
Lemma reachable_length (cap : Z) (s : t) :
  0 <= cap -> reachable cap s -> Z.of_nat (length (history s)) <= cap.
Proof.
  intros Hcap. induction 1 as [|s c Hs IH|s _ IH|s _ IH].
  - simpl. lia.
  - destruct (reachable_pointer cap s Hs) as [Hp Hc].
    destruct (record_history c s ltac:(lia)) as [Hh _]. rewrite Hh, Hc.
    set (appended := (take (Z.to_nat (currentIndex s + 1)) (history s)
                      ++ [entryOfCall c])%list).
    assert (La : (length appended <= S (length (history s)))%nat).
    { subst appended. rewrite length_app, length_take. simpl. lia. }
    destruct (Z.ltb_spec cap (Z.of_nat (length appended)));
      [rewrite length_drop|]; lia.
  - rewrite undo_history. exact IH.
  - rewrite redo_history. exact IH.
Qed.

Lemma reachable_undoTimes (cap : Z) (k : nat) (s : t) :
  reachable cap s -> reachable cap (undoTimes k s).
Proof.
  revert s. induction k as [|k IH]; intros s Hs; simpl; [exact Hs|].
  apply IH. constructor. exact Hs.
Qed.

Lemma recordAll_snoc (cs : list SaveCall) (c : SaveCall) (s : t) :
  recordAll (cs ++ [c]) s = record c (recordAll cs s).
Proof. unfold recordAll. apply fold_left_app. Qed.

Lemma recordAll_maxHistorySize (cs : list SaveCall) (s : t) :
  maxHistorySize (recordAll cs s) = maxHistorySize s.
Proof.
  induction cs as [|c cs IH] using rev_ind; [reflexivity|].
  rewrite recordAll_snoc, record_maxHistorySize. exact IH.
Qed.

(** With a cap of at least one, the entry under the pointer after
    [saveState] is the entry just built. *)
Lemma record_entry_at_pointer (c : SaveCall) (s : t) :
  1 <= maxHistorySize s ->
  index (history (record c s)) (currentIndex (record c s)) = Some (entryOfCall c).
Proof.
  intros Hcap. unfold record, saveState. simpl. fold (entryOfCall c).
  match goal with |- context [(?h ++ [?e])%list] => set (h1 := h) end.
  unfold index.
  destruct (Z.ltb_spec (maxHistorySize s) (Z.of_nat (length (h1 ++ [entryOfCall c])))) as [Ho|Ho];
    rewrite length_app in *; simpl in *.
  - destruct (Z.ltb_spec (Z.of_nat (length h1 + 1) - 1 - 1) 0); [lia|].
    rewrite lookup_drop.
    replace (1 + Z.to_nat (Z.of_nat (length h1 + 1) - 1 - 1))%nat
      with (length h1 + 0)%nat by lia.
    rewrite lookup_app_r by lia.
    replace (length h1 + 0 - length h1)%nat with 0%nat by lia. reflexivity.
  - destruct (Z.ltb_spec (Z.of_nat (length h1 + 1) - 1) 0); [lia|].
    replace (Z.to_nat (Z.of_nat (length h1 + 1) - 1)) with (length h1 + 0)%nat by lia.
    rewrite lookup_app_r by lia.
    replace (length h1 + 0 - length h1)%nat with 0%nat by lia. reflexivity.
Qed.

(** [undo] on a pointer that designates an entry. *)
Lemma undo_at_entry (s : t) (e : StateEntry) :
  index (history s) (currentIndex s) = Some e ->
  exists s1,
    undo s = (s1, Normal (Some {| restoreAction := action e;
                                  stateToRestore := previousState e;
                                  direction := "undo" |}))
    /\ history s1 = history s
    /\ currentIndex s1 = currentIndex s - 1
    /\ maxHistorySize s1 = maxHistorySize s.
Proof.
  intros He. unfold undo, canUndo.
  assert (Hi : 0 <= currentIndex s).
  { unfold index in He. destruct (Z.ltb_spec (currentIndex s) 0); [discriminate|lia]. }
  destruct (Z.leb_spec 0 (currentIndex s)); [|lia]. simpl. rewrite He.
  eexists. split; [reflexivity|]. repeat split.
Qed.

(** [redo] when the entry after the pointer exists. *)
Lemma redo_at_entry (s : t) (e : StateEntry) :
  -1 <= currentIndex s ->
  index (history s) (currentIndex s + 1) = Some e ->
  exists s2,
    redo s = (s2, Normal (Some {| restoreAction := action e;
                                  stateToRestore := newState e;
                                  direction := "redo" |}))
    /\ history s2 = history s
    /\ currentIndex s2 = currentIndex s + 1
    /\ maxHistorySize s2 = maxHistorySize s.
Proof.
  intros Hi He. unfold redo, canRedo.
  assert (Hlt : currentIndex s + 1 < Z.of_nat (length (history s))).
  { unfold index in He. destruct (Z.ltb_spec (currentIndex s + 1) 0); [discriminate|].
    apply lookup_lt_Some in He. lia. }
  destruct (Z.ltb_spec (currentIndex s) (Z.of_nat (length (history s)) - 1)); [|lia].
  simpl. rewrite He.
  eexists. split; [reflexivity|]. repeat split.
Qed.

(** C6. In every state reachable by records, undos and redos, a new record
    keeps the entries up to the current pointer and drops all the entries
    after it, appends the new entry (the oldest entry leaves when the cap is
    exceeded) and puts the pointer on the new tail, which holds the new
    entry; [canRedo()] is then false, in particular after a record that
    follows any number of undo calls. *)
Theorem saveState_discards_redo (cap : Z) (s : t) (c : SaveCall) :
  reachable cap s ->
  let kept := take (Z.to_nat (currentIndex s + 1)) (history s) in
  let appended := (kept ++ [entryOfCall c])%list in
  let s' := record c s in
  history s' = (if cap <? Z.of_nat (length appended)
                then drop 1 appended else appended)
  /\ currentIndex s' = Z.of_nat (length (history s')) - 1
  /\ (1 <= cap ->
      index (history s') (currentIndex s') = Some (entryOfCall c))
  /\ canRedo s' = false
  /\ forall k, canRedo (record c (undoTimes k s)) = false.
Proof.
  intros Hs kept appended s'.
  destruct (reachable_pointer cap s Hs) as [Hp Hc].
  destruct (record_history c s ltac:(lia)) as [Hh _].
  rewrite Hc in Hh.
  assert (Hredo : forall u, canRedo (record c u) = false).
  { intros u. unfold canRedo. rewrite record_pointer_at_tail.
    apply Z.ltb_irrefl. }
  split; [exact Hh|].
  split; [apply record_pointer_at_tail|].
  split; [intros Hcap; apply record_entry_at_pointer; lia|].
  split; [apply Hredo|]. intros k. apply Hredo.
Qed.


(** Dropping the head after an append at the tail. *)
Lemma drop_1_drop_snoc {A} (k : nat) (l : list A) (x : A) :
  (k <= length l)%nat ->
  drop 1 (drop k l ++ [x])%list = drop (S k) (l ++ [x])%list.
Proof.
  revert k. induction l as [|y l IH]; intros [|k] Hk; simpl in *; try lia;
    try reflexivity.
  rewrite <- IH by lia. reflexivity.
Qed.

(** The log after a sequence of records on a fresh manager: the entries of
    the last [cap] calls, in call order, with the pointer on the last one. *)
Lemma recordAll_new (cap : Z) (calls : list SaveCall) :
  0 <= cap ->
  let s := recordAll calls (setMaxHistorySize cap new) in
  history s = drop (length calls - Z.to_nat cap) (entryOfCall <$> calls)
  /\ currentIndex s = Z.of_nat (length (history s)) - 1.
Proof.
  intros Hcap. induction calls as [|c calls IH] using rev_ind.
  - simpl. split; reflexivity.
  - simpl in IH |- *. destruct IH as [IHh IHi].
    rewrite recordAll_snoc. split; [|apply record_pointer_at_tail].
    set (s := recordAll calls (setMaxHistorySize cap new)) in *.
    destruct (record_history c s ltac:(lia)) as [Hh _].
    rewrite Hh. clear Hh.
    replace (maxHistorySize s) with cap
      by (subst s; rewrite recordAll_maxHistorySize; reflexivity).
    rewrite take_ge by lia.
    rewrite IHh, length_app, length_drop, length_fmap, fmap_app. simpl.
    rewrite length_app. simpl.
    destruct (Z.ltb_spec cap
                (Z.of_nat (length calls - (length calls - Z.to_nat cap) + 1))).
    + rewrite drop_1_drop_snoc by (rewrite length_fmap; lia).
      f_equal. lia.
    + replace (length calls - Z.to_nat cap)%nat with 0%nat by lia.
      replace (length calls + 1 - Z.to_nat cap)%nat with 0%nat by lia.
      reflexivity.
Qed.

(** Repeated [undo] walks the pointer down to [-1] and stops there. *)
Lemma undoTimes_state (k : nat) (s : t) :
  -1 <= currentIndex s ->
  history (undoTimes k s) = history s
  /\ currentIndex (undoTimes k s) = Z.max (-1) (currentIndex s - Z.of_nat k).
Proof.
  revert s. induction k as [|k IH]; intros s Hs.
  - simpl. split; [reflexivity|lia].
  - cbn [undoTimes].
    assert (Hu : -1 <= currentIndex (fst (undo s))).
    { rewrite undo_currentIndex. unfold canUndo.
      destruct (Z.leb_spec 0 (currentIndex s)); lia. }
    destruct (IH _ Hu) as [IHh IHi].
    rewrite IHh, IHi, undo_history, undo_currentIndex. split; [reflexivity|].
    unfold canUndo. destruct (Z.leb_spec 0 (currentIndex s)); lia.
Qed.

Lemma undo_nothing (s : t) :
  currentIndex s < 0 -> undo s = (s, Normal None).
Proof.
  intros Hs. unfold undo, canUndo.
  destruct (Z.leb_spec 0 (currentIndex s)); [lia|reflexivity].
Qed.

(** C5. On a manager created with a cap [cap >= 0] (100 unless it is
    reassigned), after any sequence of [saveState] calls the log is never
    longer than the cap: it holds the entries of the most recent [cap]
    calls in call order, the pointer is on the last one, an append to a
    full log drops exactly the oldest entry and takes the pointer one back
    from the end of the lengthened log, so that it stays on the new entry;
    [undo] then succeeds exactly for the most recent [min n cap] calls,
    newest first, and returns [null] after that. *)
Theorem saveState_history_cap (cap : Z) (calls : list SaveCall) :
  0 <= cap ->
  let s := recordAll calls (setMaxHistorySize cap new) in
  let n := length calls in
  Z.of_nat (length (history s)) <= cap
  /\ history s = drop (n - Z.to_nat cap) (entryOfCall <$> calls)
  /\ currentIndex s = Z.of_nat (length (history s)) - 1
  /\ (forall c,
        let s' := record c s in
        let appended := (history s ++ [entryOfCall c])%list in
        if Z.of_nat (length (history s)) =? cap
        then history s' = drop 1 appended
             /\ currentIndex s' = Z.of_nat (length appended) - 1 - 1
             /\ length (history s') = length (history s)
        else history s' = appended
             /\ currentIndex s' = Z.of_nat (length appended) - 1)
  /\ (forall k c,
        (k < Nat.min n (Z.to_nat cap))%nat ->
        calls !! (n - 1 - k)%nat = Some c ->
        snd (undo (undoTimes k s))
        = Normal (Some {| restoreAction := action (entryOfCall c);
                          stateToRestore := cloneState (callPrevious c);
                          direction := "undo" |}))
  /\ (forall k,
        (Nat.min n (Z.to_nat cap) <= k)%nat ->
        snd (undo (undoTimes k s)) = Normal None).
Proof.
  intros Hcap s n.
  destruct (recordAll_new cap calls Hcap) as [Hh Hi]. fold s in Hh, Hi. fold n in Hh.
  assert (Hlen : length (history s) = Nat.min n (Z.to_nat cap)).
  { rewrite Hh, length_drop, length_fmap. fold n. lia. }
  assert (Hmax : maxHistorySize s = cap)
    by (subst s; rewrite recordAll_maxHistorySize; reflexivity).
  split; [lia|]. split; [exact Hh|]. split; [exact Hi|]. split; [|split].
  - intros c s' appended.
    destruct (record_history c s ltac:(lia)) as [Rh Ri].
    rewrite Hmax, take_ge in Rh, Ri by lia. fold appended in Rh, Ri.
    assert (La : length appended = S (length (history s)))
      by (subst appended; rewrite length_app; simpl; lia).
    destruct (Z.eqb_spec (Z.of_nat (length (history s))) cap) as [E|E].
    + destruct (Z.ltb_spec cap (Z.of_nat (length appended))); [|lia].
      split; [exact Rh|]. split; [exact Ri|].
      subst s'. rewrite Rh, length_drop. lia.
    + destruct (Z.ltb_spec cap (Z.of_nat (length appended))); [lia|].
      split; [exact Rh|exact Ri].
  - intros k c Hk Hc.
    destruct (undoTimes_state k s ltac:(lia)) as [Uh Ui].
    assert (He : index (history (undoTimes k s)) (currentIndex (undoTimes k s))
                 = Some (entryOfCall c)).
    { rewrite Uh, Ui, Hi. unfold index.
      destruct (Z.ltb_spec (Z.max (-1) (Z.of_nat (length (history s)) - 1 - Z.of_nat k)) 0);
        [lia|].
      rewrite Hh at 2. rewrite lookup_drop, list_lookup_fmap.
      replace (n - Z.to_nat cap +
               Z.to_nat (Z.max (-1) (Z.of_nat (length (history s)) - 1 - Z.of_nat k)))%nat
        with (n - 1 - k)%nat by lia.
      rewrite Hc. reflexivity. }
    destruct (undo_at_entry _ _ He) as (s1 & Hu & _).
    rewrite Hu. reflexivity.
  - intros k Hk.
    destruct (undoTimes_state k s ltac:(lia)) as [_ Ui].
    rewrite undo_nothing; [reflexivity|]. lia.
Qed.

Lemma setMaxHistorySize_default : setMaxHistorySize 100 new = new.
Proof. reflexivity. Qed.

Lemma saveState_history_cap_witness :
  let s := recordAll Samples.sevenCalls (setMaxHistorySize 5 new) in
  Z.of_nat (length (history s)) <= 5
  /\ history s = entryOfCall <$> (Samples.sampleCall <$> [2; 3; 4; 5; 6])
  /\ currentIndex s = 4
  /\ snd (undo (undoTimes 5 s)) = Normal None.
Proof.
  destruct (saveState_history_cap 5 Samples.sevenCalls ltac:(lia))
    as (Hlen & Hh & Hi & _ & _ & Hnone).
  split; [exact Hlen|]. split; [exact Hh|].
  split; [rewrite Hi, Hh; reflexivity|].
  apply Hnone. simpl. lia.
Defined.

Lemma saveState_discards_redo_witness :
  let s := fst (undo (record (Samples.sampleCall 1)
                        (record (Samples.sampleCall 0) (setMaxHistorySize 100 new)))) in
  let s' := record (Samples.sampleCall 2) s in
  canRedo s = true
  /\ canRedo s' = false
  /\ index (history s') (currentIndex s') = Some (entryOfCall (Samples.sampleCall 2)).
Proof.
  intros s s'. split; [reflexivity|].
  destruct (saveState_discards_redo 100 s (Samples.sampleCall 2))
    as (_ & _ & Ht & Hr & _).
  - apply reach_undo, reach_save, reach_save, reach_new.
  - split; [exact Hr|]. apply Ht. lia.
Defined.


End StateManagerFacts.

(** ** Grid *)

Module GridFacts.
Import JS Grid.

Example noteIdOf_sample : noteIdOf (Grid.new "grid-1") 0 3 = "grid-1_0_3".
Proof. reflexivity. Qed.

(** What the index computation of [cycleNoteGroup] gives for any group
    state: the removal test never holds (the next index is zero only when
    the current one is 4 or -1), and the state chosen is the next one of
    the cycle. *)
Lemma cycle_indices (state : string) :
  let currentIndex := indexOf groupStates state in
  let nextIndex := rem (currentIndex + 1) (Z.of_nat (length groupStates)) in
  (nextIndex =? 0) && (currentIndex =? 0) = false
  /\ index groupStates nextIndex = Some (nextGroupStateSpec state).
Proof.
  unfold indexOf, groupStates, nextGroupStateSpec. cbn [indexOf_from].
  rewrite !(String.eqb_sym state).
  destruct (String.eqb "chromatic" state); [split; reflexivity|].
  destruct (String.eqb "group-1" state); [split; reflexivity|].
  destruct (String.eqb "group-2" state); [split; reflexivity|].
  destruct (String.eqb "group-3" state); [split; reflexivity|].
  destruct (String.eqb "group-4" state); split; reflexivity.
Qed.

(** [cycleNoteGroup] always rewrites the entry with the next state of the
    cycle and records a group change; its call of [removeNote] is never
    reached. *)
Lemma cycleNoteGroup_changes (noteId : string) (note : Note) (s : Scene) :
  cycleNoteGroup noteId note s
  = save "note_group_change"
      ("Change note " ++ MusicTheory.noteName (noteInfo note) ++
       " group to " ++ nextGroupStateSpec (groupState note))
      {| grid := withNotes
                   (<[noteId := {| noteInfo := noteInfo note;
                                   stringIndex := stringIndex note;
                                   groupState := nextGroupStateSpec (groupState note) |}]>
                      (notes (grid s)))
                   (grid s);
         rootNote := rootNote s;
         intervals := intervals s;
         recorded := recorded s |}.
Proof.
  unfold cycleNoteGroup.
  destruct (cycle_indices (groupState note)) as [Hrm Hnext].
  rewrite Hrm, Hnext. reflexivity.
Qed.



(** Six clicks on a free coordinate: the first places the note, the next
    four take it to [group-4], and the sixth brings it back to [chromatic];
    the note is still there and no removal was recorded. *)
Example six_clicks_keep_the_note :
  let s := Samples.clickTimes 6 Samples.emptyScene in
  groupState <$> notes (grid s) !! "grid-1_0_3" = Some "chromatic"
  /\ groupState <$> notes (grid (Samples.clickTimes 5 Samples.emptyScene)) !! "grid-1_0_3"
     = Some "group-4"
  /\ StateManager.type <$> recorded s
     = ["note_place"; "note_group_change"; "note_group_change";
        "note_group_change"; "note_group_change"; "note_group_change"].
Proof. vm_compute. repeat split. Qed.

(** For every note on the grid, [cycleNoteGroup] advances the group state
    one step through the cycle, the step from [group-4] leading back to
    [chromatic]; no other note changes and none is removed. *)
Lemma cycleNoteGroup_advances (noteId : string) (note : Note) (s : Scene) :
  notes (grid s) !! noteId = Some note ->
  let s' := cycleNoteGroup noteId note s in
  (groupState <$> notes (grid s') !! noteId)
  = Some (nextGroupStateSpec (groupState note))
  /\ (forall other, other <> noteId ->
        notes (grid s') !! other = notes (grid s) !! other).
Proof.
  intros Hin s'. subst s'. rewrite cycleNoteGroup_changes. simpl. split.
  - rewrite lookup_insert_eq. reflexivity.
  - intros other Hne. apply lookup_insert_ne. congruence.
Qed.





End GridFacts.

(** ** FileOperations *)

Module FileOperationsFacts.
Import JS FileOperations Shape.

(** The decimal form of a number is made of digits. *)
Lemma pretty_N_char_digit (x : N) : isDigit (pretty_N_char x) = true.
Proof. unfold pretty_N_char. repeat case_match; reflexivity. Qed.

Lemma pretty_N_go_digits (x : N) (s : string) :
  allDigits s = true -> allDigits (pretty_N_go x s) = true.
Proof.
  revert s. induction (N.lt_wf_0 x) as [x _ IH]; intros s Hs.
  destruct (N.eq_dec x 0%N) as [->|Hx].
  - rewrite pretty_N_go_0. exact Hs.
  - rewrite pretty_N_go_step by lia. apply IH.
    + apply N.div_lt; lia.
    + simpl. rewrite pretty_N_char_digit. exact Hs.
Qed.

Lemma pretty_nat_digits (n : nat) : allDigits (pretty n) = true.
Proof.
  unfold pretty, pretty_nat, pretty, pretty_N.
  case_decide; [reflexivity|]. apply pretty_N_go_digits. reflexivity.
Qed.

(** A key with a character that is not a digit is not an array index. *)
Lemma arrayIndexOf_not_digits (key : string) (items : list value) :
  allDigits key = false -> arrayIndexOf key items = None.
Proof.
  intros Hk. unfold arrayIndexOf.
  destruct (List.find _ _) as [i|] eqn:E; [|reflexivity].
  apply List.find_some in E as [_ E]. apply String.eqb_eq in E.
  rewrite <- E, pretty_nat_digits in Hk. discriminate.
Qed.

Lemma has_array (key : string) (items : list value) :
  allDigits key = false -> String.eqb key "length" = false ->
  has key (VArr items) = Normal false.
Proof.
  intros Hd Hl. unfold has. rewrite Hl, arrayIndexOf_not_digits by exact Hd.
  reflexivity.
Qed.

Lemma get_array (key : string) (items : list value) :
  allDigits key = false -> String.eqb key "length" = false ->
  get (VArr items) key = Normal VUndefined.
Proof.
  intros Hd Hl. unfold get. rewrite Hl, arrayIndexOf_not_digits by exact Hd.
  reflexivity.
Qed.

(** Property reads and [in] tests on an object. *)
Lemma get_obj key props : get (VObj props) key = Normal (default VUndefined (assoc key props)).
Proof. reflexivity. Qed.
Lemma has_obj key props : has key (VObj props) = Normal (if assoc key props is Some _ then true else false).
Proof. reflexivity. Qed.

(** What the type tests of the validators let through. *)
Lemma object_check (v : value) :
  negb (truthy v) || notObject v = false ->
  (exists items, v = VArr items) \/ (exists props, v = VObj props).
Proof.
  destruct v; cbn; rewrite ?orb_true_r; intros; try discriminate; eauto.
Qed.

Lemma number_check (v : value) : notNumber v = false -> exists n, v = VNum n.
Proof. destruct v; cbn; intros; try discriminate; eauto. Qed.

Lemma array_check (v : value) : negb (isArray v) = false -> exists l, v = VArr l.
Proof. destruct v; cbn; intros; try discriminate; eauto. Qed.

Local Arguments get : simpl never.
Local Arguments has : simpl never.
Local Arguments notObject : simpl never.
Local Arguments notNumber : simpl never.
Local Arguments truthy : simpl never.
Local Arguments isArray : simpl never.

(** [validateGridStructure] accepts only well-shaped grids ... *)
Lemma validateGridStructure_shape (g : value) :
  validateGridStructure g = Pass -> wellShapedGrid g.
Proof.
  unfold validateGridStructure, validateGridStructureBody.
  intros H.
  destruct g as [ | | b | n | s | items | props]; try discriminate H.
  { cbn [firstMissing] in H. rewrite !has_array in H by reflexivity.
    cbn in H. discriminate H. }
  cbn [firstMissing] in H. rewrite !has_obj, !get_obj in H.
  destruct (assoc "id" props) as [vid|] eqn:Eid; [|discriminate H].
  destruct (assoc "position" props) as [pos|] eqn:Epos; [|discriminate H].
  destruct (assoc "config" props) as [cfg|] eqn:Ecfg; [|discriminate H].
  cbn in H.
  destruct (negb (truthy pos) || notObject pos) eqn:Cpos; [discriminate H|].
  apply object_check in Cpos as [[items ->]|[posProps ->]].
  { rewrite !get_array in H by reflexivity. cbn in H. discriminate H. }
  rewrite !get_obj in H. cbn in H.
  destruct (notNumber (default VUndefined (assoc "x" posProps))) eqn:Cx; [discriminate H|].
  destruct (notNumber (default VUndefined (assoc "y" posProps))) eqn:Cy; [discriminate H|].
  cbn in H.
  destruct (negb (truthy cfg) || notObject cfg) eqn:Ccfg; [discriminate H|].
  apply object_check in Ccfg as [[items ->]|[cfgProps ->]].
  { rewrite !has_array in H by reflexivity. cbn in H. discriminate H. }
  rewrite !has_obj, !get_obj in H.
  destruct (assoc "startFret" cfgProps) as [sf|] eqn:Esf; [|discriminate H].
  destruct (assoc "endFret" cfgProps) as [ef|] eqn:Eef; [|discriminate H].
  destruct (assoc "stringCount" cfgProps) as [sc|] eqn:Esc; [|discriminate H].
  destruct (assoc "tuning" cfgProps) as [tu|] eqn:Etu; [|discriminate H].
  destruct (assoc "orientation" cfgProps) as [ori|] eqn:Eor; [|discriminate H].
  cbn in H.
  destruct (notNumber sf) eqn:Csf; [discriminate H|].
  destruct (notNumber ef) eqn:Cef; [discriminate H|].
  destruct (notNumber sc) eqn:Csc; [discriminate H|].
  cbn in H.
  destruct (negb (isArray tu)) eqn:Ctu; [discriminate H|].
  apply number_check in Cx as [x Ex], Cy as [y Ey], Csf as [? ->], Cef as [? ->], Csc as [? ->].
  apply array_check in Ctu as [? ->].
  destruct (assoc "x" posProps) as [vx|] eqn:Ex'; [|discriminate Ex].
  destruct (assoc "y" posProps) as [vy|] eqn:Ey'; [|discriminate Ey].
  cbn in Ex, Ey. subst vx vy.
  unfold wellShapedGrid. repeat eexists; eauto.
Qed.

(** ... and all of them. *)
Lemma shape_validateGridStructure (g : value) :
  wellShapedGrid g -> validateGridStructure g = Pass.
Proof.
  intros (props & pos & cfg & x & y & sf & ef & sc & tun & -> & [vid Hid] & Hpos & Hx & Hy
          & Hcfg & Hsf & Hef & Hsc & Htu & [ori Hor]).
  unfold validateGridStructure, validateGridStructureBody.
  cbn [firstMissing]. rewrite !has_obj, Hid, Hpos, Hcfg. cbn.
  rewrite (get_obj "position"), Hpos. unfold notObject, notNumber, truthy, isArray. cbn.
  rewrite (get_obj "x"), (get_obj "y"), Hx, Hy. cbn.
  rewrite (get_obj "config"), Hcfg. cbn.
  rewrite !has_obj, Hsf, Hef, Hsc, Htu, Hor. cbn.
  rewrite (get_obj "startFret"), (get_obj "endFret"), (get_obj "stringCount"),
    Hsf, Hef, Hsc. cbn.
  rewrite (get_obj "tuning"), Htu. reflexivity.
Qed.

(** The loop over the grids finds no invalid grid exactly when all are
    well-shaped. *)
Lemma firstInvalidGrid_None (i : nat) (grids : list value) :
  firstInvalidGrid i grids = None <-> Forall wellShapedGrid grids.
Proof.
  revert i. induction grids as [|g grids IH]; intros i; cbn [firstInvalidGrid].
  - split; [constructor|reflexivity].
  - destruct (validateGridStructure g) eqn:E.
    + rewrite IH. split.
      * intros H. constructor; [apply validateGridStructure_shape, E|exact H].
      * intros H. inversion H; assumption.
    + split; [discriminate|]. intros H. inversion H as [|? ? Hg _]; subst.
      apply shape_validateGridStructure in Hg. congruence.
Qed.

Lemma truthy_or_else_object (v : value) (props : list (string * value)) :
  truthy (or_else v (VObj props)) = true.
Proof. unfold or_else. destruct (truthy v) eqn:E; [exact E|reflexivity]. Qed.

(** The outcome of [validateSaveData] on the object [saveCanvas] builds, in
    terms of its [grids] and [notes]. *)
Lemma validateSaveData_saveDataOf (fo : t) (env : SaveEnv) (props : list (string * value))
    (saveData : value) :
  saveDataOf fo env (VObj props) = Normal saveData ->
  let grids := or_else (default VUndefined (assoc "grids" props)) (VArr []) in
  let notes := or_else (default VUndefined (assoc "notes" props)) (VObj []) in
  get saveData "grids" = Normal grids
  /\ validateSaveData saveData
     = match grids with
       | VArr grids =>
           match firstInvalidGrid 0 grids with
           | Some (_, logged) => Fail logged
           | None => if notObject notes then Fail "Notes must be an object" else Pass
           end
       | _ => Fail "Grids must be an array"
       end.
Proof.
  intros E grids notes. unfold saveDataOf, get in E. cbn in E.
  injection E as <-. fold grids notes. split; [reflexivity|].
  unfold validateSaveData, validateSaveDataBody.
  cbn [firstMissing]. rewrite !has_obj. cbn.
  rewrite (get_obj "canvas"). cbn. unfold notObject at 1. cbn.
  rewrite (get_obj "grids"). cbn.
  destruct grids as [ | | | | | gs | ]; try reflexivity.
  destruct (firstInvalidGrid 0 gs) as [[i logged]|]; [reflexivity|].
  rewrite (get_obj "notes"). cbn.
  subst notes. rewrite truthy_or_else_object. cbn.
  destruct (notObject _); reflexivity.
Qed.

(** A document that [validateLoadData] accepts has a [grids] array of
    well-shaped grids; otherwise the error is one of the messages of the
    validator. *)
Lemma validateLoadData_cases (doc : value) :
  match validateLoadData doc with
  | (None, _) =>
      exists props grids,
        doc = VObj props /\ assoc "grids" props = Some (VArr grids)
        /\ Forall wellShapedGrid grids
  | (Some reason, _) => loadError reason
  end.
Proof.
  unfold validateLoadData, validateLoadDataBody, loadError.
  destruct (negb (truthy doc) || notObject doc) eqn:C; [cbn; auto|].
  apply object_check in C as [[items ->]|[props ->]].
  { rewrite (get_array "version") by reflexivity. unfold truthy. cbn. auto. }
  rewrite (get_obj "version"). cbn.
  destruct (negb (truthy _)); [cbn; auto|].
  rewrite (get_obj "canvas"). cbn.
  destruct (negb (truthy _) || notObject _); [cbn; auto|].
  rewrite (get_obj "grids"). cbn.
  destruct (assoc "grids" props) as [[ | | | | | grids | ]|] eqn:G; cbn; auto 6.
  destruct (firstInvalidGrid 0 grids) as [[i logged]|] eqn:F; cbn.
  - do 4 right. eauto.
  - exists props, grids. repeat split; try assumption.
    apply (firstInvalidGrid_None 0), F.
Qed.

Lemma typeof_object_notObject (v : value) :
  typeof v = "object" <-> notObject v = false.
Proof.
  unfold notObject. rewrite negb_false_iff, String.eqb_eq. reflexivity.
Qed.




Section Loading.

Variable Workspace : Type.
Variable restoreCanvasState : value -> Workspace -> Workspace * completion unit.
Variable JSON_parse : string -> completion value.

(** A failed load leaves the file operations, and with them the manager
    and its history, as they were; a successful one clears the history. *)
Lemma loadCanvas_state (file : option File) (w w' : World) (r : result Loaded) :
  loadCanvas JSON_parse file w = (w', r) ->
  match r with
  | Failure _ => ops w' = ops w /\ downloads w' = downloads w
  | Success _ =>
      stateManager (ops w') = StateManager.clearHistory (stateManager (ops w))
  end.
Proof.
  unfold loadCanvas, loadFailed. intros H.
  repeat case_match; simplify_eq; cbn; auto.
Qed.

(** A well-shaped grid has an array for a tuning. *)
Lemma wellShapedGrid_tuning (g : value) : wellShapedGrid g -> tuningIsArray g.
Proof.
  intros (props & pos & cfg & x & y & sf & ef & sc & tun & -> & _ & _ & _ & _
          & Hc & _ & _ & _ & Ht & _).
  exists props, cfg, tun. auto.
Qed.

(** C3. For a load input whose document has no top-level [grids] array, or
    has a grid whose [config.tuning] is not an array, [loadCanvas] fails
    with a descriptive error: "Invalid file structure: " followed by the
    message of the check that failed (or, when the file name does not end in
    .json, the message that says so).  The file operations with their
    manager are unchanged, and [handleLoad] leaves the workspace, the
    history and the pointer as they were and shows the error.  In general
    the history changes on a successful load only. *)
Theorem loadCanvas_rejects_malformed (file : File) (text : string)
    (doc : value) (c : Canvas.t Workspace) :
  fileText file = Normal text ->
  JSON_parse text = Normal doc ->
  ~ hasGridsArray doc \/ hasGridWithoutTuningArray doc ->
  exists error logged,
    (if endsWith (toLowerCase (fileName file)) ".json"
     then exists reason,
            loadError reason /\ error = "Invalid file structure: " +:+ reason
     else error = "File must be a JSON file (.json extension)")
    /\ loadCanvas JSON_parse (Some file) (Canvas.files c)
       = ({| ops := ops (Canvas.files c);
             console := (console (Canvas.files c) ++ logged ++
                         ["Error loading canvas: " +:+ error])%list;
             downloads := downloads (Canvas.files c) |},
          Failure error)
    /\ (let c' := Canvas.handleLoad restoreCanvasState JSON_parse (Some file) c in
        Canvas.workspace c' = Canvas.workspace c
        /\ stateManager (ops (Canvas.files c')) = stateManager (ops (Canvas.files c))
        /\ Canvas.toasts c'
           = (Canvas.toasts c ++ [("Load failed: " +:+ error, "error")])%list)
    /\ (forall other w' r,
          loadCanvas JSON_parse other (Canvas.files c) = (w', r) ->
          StateManager.history (stateManager (ops w'))
          <> StateManager.history (stateManager (ops (Canvas.files c))) ->
          exists loaded, r = Success loaded).
Proof.
  intros Htext Hparse Hbad.
  assert (Hclear : forall other w' r,
            loadCanvas JSON_parse other (Canvas.files c) = (w', r) ->
            StateManager.history (stateManager (ops w'))
            <> StateManager.history (stateManager (ops (Canvas.files c))) ->
            exists loaded, r = Success loaded).
  { intros other w' r Hl Hne. destruct r as [loaded|e]; [eauto|].
    apply loadCanvas_state in Hl as [Ho _]. rewrite Ho in Hne. contradiction. }
  assert (Hfail : forall error logged,
            loadCanvas JSON_parse (Some file) (Canvas.files c)
            = loadFailed (Canvas.files c) logged error ->
            let c' := Canvas.handleLoad restoreCanvasState JSON_parse (Some file) c in
            Canvas.workspace c' = Canvas.workspace c
            /\ stateManager (ops (Canvas.files c')) = stateManager (ops (Canvas.files c))
            /\ Canvas.toasts c'
               = (Canvas.toasts c ++ [("Load failed: " +:+ error, "error")])%list).
  { intros error logged L. unfold Canvas.handleLoad. rewrite L.
    unfold loadFailed. cbn. repeat split. }
  destruct (endsWith (toLowerCase (fileName file)) ".json") eqn:Hname.
  - pose proof (validateLoadData_cases doc) as Hcases.
    destruct (validateLoadData doc) as [[reason|] logged] eqn:V.
    + assert (L : loadCanvas JSON_parse (Some file) (Canvas.files c)
                  = loadFailed (Canvas.files c) logged
                      ("Invalid file structure: " +:+ reason)).
      { unfold loadCanvas. rewrite Hname, Htext, Hparse, V. reflexivity. }
      exists ("Invalid file structure: " +:+ reason), logged.
      split; [eauto|]. split; [exact L|]. split; [apply (Hfail _ _ L)|exact Hclear].
    + exfalso. destruct Hcases as (props & grids & -> & Hg & Hall).
      destruct Hbad as [Hno|(props' & grids' & g & E & Hg' & Hin & Hnt)].
      * apply Hno. exists props, grids. auto.
      * injection E as <-. rewrite Hg in Hg'. injection Hg' as <-.
        apply Hnt, wellShapedGrid_tuning.
        rewrite Forall_forall in Hall. apply Hall, Hin.
  - assert (L : loadCanvas JSON_parse (Some file) (Canvas.files c)
                = loadFailed (Canvas.files c) []
                    "File must be a JSON file (.json extension)").
    { unfold loadCanvas. rewrite Hname. reflexivity. }
    exists "File must be a JSON file (.json extension)", [].
    split; [reflexivity|]. split; [exact L|].
    split; [apply (Hfail _ _ L)|exact Hclear].
Qed.

End Loading.

Lemma loadCanvas_rejects_malformed_witness :
  exists error logged,
    (exists reason,
       loadError reason /\ error = "Invalid file structure: " +:+ reason)
    /\ loadCanvas Samples.sampleParse (Some (Samples.fileOf "string tuning"))
         (Canvas.files Samples.usedCanvas)
       = ({| ops := ops (Canvas.files Samples.usedCanvas);
             console := (console (Canvas.files Samples.usedCanvas) ++ logged ++
                         ["Error loading canvas: " +:+ error])%list;
             downloads := downloads (Canvas.files Samples.usedCanvas) |},
          Failure error)
    /\ (let c' := Canvas.handleLoad Samples.restoreDocument Samples.sampleParse
                    (Some (Samples.fileOf "string tuning")) Samples.usedCanvas in
        Canvas.workspace c' = Canvas.workspace Samples.usedCanvas
        /\ stateManager (ops (Canvas.files c'))
           = stateManager (ops (Canvas.files Samples.usedCanvas))
        /\ Canvas.toasts c'
           = (Canvas.toasts Samples.usedCanvas ++
              [("Load failed: " +:+ error, "error")])%list)
    /\ (forall other w' r,
          loadCanvas Samples.sampleParse other (Canvas.files Samples.usedCanvas) = (w', r) ->
          StateManager.history (stateManager (ops w'))
          <> StateManager.history (stateManager (ops (Canvas.files Samples.usedCanvas))) ->
          exists loaded, r = Success loaded).
Proof.
  apply (loadCanvas_rejects_malformed value Samples.restoreDocument Samples.sampleParse
           (Samples.fileOf "string tuning") "string tuning"
           Samples.docWithStringTuning Samples.usedCanvas).
  - reflexivity.
  - reflexivity.
  - right. unfold hasGridWithoutTuningArray, Samples.docWithStringTuning.
    eexists _, _, _. split; [reflexivity|]. split; [reflexivity|].
    split; [left|].
    intros (props & cfg & tun & E & Hc & Ht).
    injection E as <-. cbn in Hc. injection Hc as <-. discriminate Ht.
Defined.

Example loadCanvas_string_tuning :
  snd (loadCanvas Samples.sampleParse (Some (Samples.fileOf "string tuning"))
         Samples.usedWorld)
  = Failure "Invalid file structure: Invalid grid structure at index 0".
Proof. reflexivity. Qed.

Example loadCanvas_no_grids :
  snd (loadCanvas Samples.sampleParse (Some (Samples.fileOf "no grids"))
         Samples.usedWorld)
  = Failure "Invalid file structure: Missing or invalid grids array".
Proof. reflexivity. Qed.

End FileOperationsFacts.

(** ** MusicTheory: the remaining functions *)

Module MusicTheoryExtFacts.
Import JS MusicTheory MusicTheoryExt.

(** Unshifting the elements of a list one after the other puts them in
    front in reverse order. *)
Lemma unshift_all {A} (l acc : list A) :
  fold_left (fun extended s => s :: extended) l acc = (rev l ++ acc)%list.
Proof.
  revert acc. induction l as [|x l IH]; intros acc; simpl; [reflexivity|].
  rewrite IH, <- app_assoc. reflexivity.
Qed.

(** X1. [getStandardTuning(stringCount)] returns [stringCount] strings when
    the count is between 0 and 12, none below 0 and twelve above 12; every
    string has a semitone in [0,11]; up to six strings the result is the
    high end of the six-string tuning, and from six on the six-string tuning
    is the high end of the result. *)
Theorem getStandardTuning_strings (stringCount : Z) :
  let tuning := getStandardTuning stringCount in
  length tuning = Z.to_nat (Z.min 12 (Z.max 0 stringCount))
  /\ Forall (fun t => 0 <= tuningSemitone t <= 11) tuning
  /\ (stringCount <= 6 -> tuning `suffix_of` standardTuning)
  /\ (6 <= stringCount -> standardTuning `suffix_of` tuning).
Proof.
  intros tuning. subst tuning. unfold getStandardTuning.
  assert (Hstd : Forall (fun t => 0 <= tuningSemitone t <= 11) standardTuning)
    by (repeat constructor; simpl; lia).
  assert (Hlow : Forall (fun t => 0 <= tuningSemitone t <= 11) lowerStringNotes)
    by (repeat constructor; simpl; lia).
  destruct (Z.leb_spec stringCount 6) as [Hle|Hgt].
  - split; [|split; [|split]].
    + rewrite length_drop. simpl. lia.
    + apply Forall_drop, Hstd.
    + intros _. apply suffix_drop.
    + intros Hge. replace stringCount with 6 by lia. reflexivity.
  - rewrite unshift_all. split; [|split; [|split]].
    + rewrite length_app, length_rev, length_take. simpl. lia.
    + apply Forall_app. split; [|exact Hstd].
      apply Forall_rev, Forall_take, Hlow.
    + lia.
    + intros _. eexists. reflexivity.
Qed.

Lemma includes_spec (l : list Z) (x : Z) : includes l x = true <-> x ∈ l.
Proof.
  unfold includes. rewrite existsb_exists. split.
  - intros (y & Hin & Heq). apply Z.eqb_eq in Heq. subst y.
    apply list_elem_of_In, Hin.
  - intros Hin. exists x. split; [apply list_elem_of_In, Hin|apply Z.eqb_refl].
Qed.

(** Keeping some elements of an increasing list, each under its own value,
    leaves an increasing list. *)
Lemma omap_frets_sorted (f : Z -> option Marker) (l : list Z) :
  (forall x m, f x = Some m -> markerFret m = x) ->
  StronglySorted Z.lt l ->
  StronglySorted Z.lt (markerFret <$> omap f l).
Proof.
  intros Hf. induction 1 as [|x l Hs IH Hall]; simpl; [constructor|].
  destruct (f x) as [m|] eqn:E; [|exact IH].
  simpl. constructor; [exact IH|].
  rewrite (Hf _ _ E). apply Forall_fmap, Forall_forall.
  intros m' Hm'. apply list_elem_of_omap in Hm' as (y & Hy & Ey).
  simpl. rewrite (Hf _ _ Ey). rewrite Forall_forall in Hall. apply Hall, Hy.
Qed.

Lemma seqZ_sorted (m n : Z) : StronglySorted Z.lt (seqZ m n).
Proof.
  destruct (Z.le_gt_cases n 0) as [Hn|Hn]; [rewrite seqZ_nil by lia; constructor|].
  replace n with (Z.of_nat (Z.to_nat n)) by lia. clear Hn.
  generalize (Z.to_nat n) as k. clear n. intros k. revert m.
  induction k as [|k IH]; intros m.
  - rewrite seqZ_nil by lia. constructor.
  - rewrite seqZ_cons by lia.
    replace (Z.pred (Z.of_nat (S k))) with (Z.of_nat k) by lia.
    constructor; [apply IH|].
    apply Forall_forall. intros x Hx. apply elem_of_seqZ in Hx. lia.
Qed.

(** X2. [getFretMarkers(startFret, endFret)] lists, in increasing fret
    order, exactly the frets of the range that carry a marker: a single dot
    at 3, 5, 7, 9, 15, 17, 19 and 21, a double dot at 12; a range whose end
    is below its start has no marker. *)
Theorem getFretMarkers_spec (startFret endFret : Z) :
  (forall fret kind,
     {| markerFret := fret; markerType := kind |} ∈ getFretMarkers startFret endFret
     <-> startFret <= fret <= endFret
         /\ ((kind = "single" /\ fret ∈ [3; 5; 7; 9; 15; 17; 19; 21])
             \/ (kind = "double" /\ fret = 12)))
  /\ StronglySorted Z.lt (markerFret <$> getFretMarkers startFret endFret)
  /\ (endFret < startFret -> getFretMarkers startFret endFret = []).
Proof.
  unfold getFretMarkers. split; [|split].
  - intros fret kind. rewrite list_elem_of_omap. split.
    + intros (x & Hx & Hm). apply elem_of_seqZ in Hx.
      destruct (includes singleDotFrets x) eqn:S1.
      * injection Hm as <- <-. split; [lia|]. left. split; [reflexivity|].
        apply includes_spec, S1.
      * destruct (includes doubleDotFrets x) eqn:S2; [|discriminate Hm].
        injection Hm as <- <-. split; [lia|]. right. split; [reflexivity|].
        apply includes_spec in S2. unfold doubleDotFrets in S2.
        apply list_elem_of_singleton in S2. exact S2.
    + intros [Hr [[-> Hin]|[-> ->]]].
      * exists fret. split; [apply elem_of_seqZ; lia|].
        apply includes_spec in Hin. unfold singleDotFrets. rewrite Hin. reflexivity.
      * exists 12. split; [apply elem_of_seqZ; lia|]. reflexivity.
  - apply omap_frets_sorted; [|apply seqZ_sorted].
    intros x m Hm.
    destruct (includes singleDotFrets x); [injection Hm as <-; reflexivity|].
    destruct (includes doubleDotFrets x); [injection Hm as <-; reflexivity|discriminate].
  - intros Hlt. rewrite seqZ_nil by lia. reflexivity.
Qed.

Example getFretMarkers_default :
  getFretMarkers 0 7
  = [ {| markerFret := 3; markerType := "single" |};
      {| markerFret := 5; markerType := "single" |};
      {| markerFret := 7; markerType := "single" |} ].
Proof. reflexivity. Qed.

(** X3. [parseNote] accepts exactly the names [getAllNoteNames] lists; the
    note it returns carries the name asked for and is the entry of the
    chromatic table for its semitone, so names and semitones correspond one
    to one; the name of every pitch [getNoteAt] computes parses back to that
    pitch class. *)
Theorem parseNote_names :
  (forall s, is_Some (parseNote s) <-> s ∈ getAllNoteNames)
  /\ (forall s e, parseNote s = Some e -> name e = s /\ findSemitone (semitone e) = Some e)
  /\ (forall t f info,
        getNoteAt t f = Normal info ->
        parseNote (noteName info)
        = Some {| name := noteName info; isNatural := noteIsNatural info;
                  semitone := noteSemitone info |}).
Proof.
  assert (Hfind : forall s e, parseNote s = Some e ->
                  name e = s /\ findSemitone (semitone e) = Some e /\ parseNote (name e) = Some e).
  { intros s e H. unfold parseNote in H.
    destruct (List.find _ _) as [n|] eqn:E; [|discriminate].
    injection H as <-. apply List.find_some in E as [Hin Heq].
    apply String.eqb_eq in Heq. subst s. simpl in Hin.
    repeat (destruct Hin as [<-|Hin]; [repeat split; reflexivity|]).
    destruct Hin. }
  split; [|split].
  - intros s. split.
    + intros [e He]. destruct (Hfind _ _ He) as [<- _].
      unfold parseNote in He. destruct (List.find _ _) as [n|] eqn:E; [|discriminate].
      injection He as <-. simpl. apply List.find_some in E as [Hin _].
      apply list_elem_of_fmap. exists n. split; [reflexivity|apply list_elem_of_In, Hin].
    + intros Hin. unfold getAllNoteNames in Hin.
      apply list_elem_of_fmap in Hin as (e & -> & He).
      unfold chromaticScale in He. rewrite !elem_of_cons, elem_of_nil in He.
      repeat (destruct He as [->|He]; [eexists; reflexivity|]). destruct He.
  - intros s e H. destruct (Hfind _ _ H) as (? & ? & _). auto.
  - intros t f info H. unfold getNoteAt in H.
    destruct (findSemitone _) as [e|] eqn:E; [|discriminate].
    injection H as <-. simpl.
    unfold findSemitone in E. apply List.find_some in E as [Hin _].
    simpl in Hin.
    repeat (destruct Hin as [<-|Hin]; [reflexivity|]). destruct Hin.
Qed.


Lemma get_truthy (v : value) (key : string) :
  truthy v = true -> exists r, get v key = Normal r.
Proof.
  destruct v; simpl; intros H; try discriminate; eauto;
    destruct (String.eqb key "length"); eauto.
Qed.

Lemma validStringTuning_normal (v : value) : exists b, validStringTuning v = Normal b.
Proof.
  unfold validStringTuning. destruct (truthy v) eqn:T; simpl; [|eauto].
  destruct (get_truthy v "note" T) as [n ->]. simpl.
  destruct (negb _); [eauto|].
  destruct (get_truthy v "semitone" T) as [m ->]. simpl.
  destruct m; eauto.
Qed.

Lemma validStringTuning_tuningValue (t : StringTuning) :
  validStringTuning (tuningValue t)
  = Normal ((0 <=? tuningSemitone t) && (tuningSemitone t <=? 11)).
Proof. reflexivity. Qed.

(** X4. [validateTuning] never throws and rejects everything that is not an
    array.  On a tuning given as [{ note, semitone }] objects it answers
    true exactly when every semitone lies in [0,11]; a tuning it accepts
    gives a pitch on every string at every fret [>= 0]; and it accepts the
    standard tuning of every string count. *)
Theorem validateTuning_spec (tuning : list StringTuning) :
  (forall v, exists b, validateTuning v = Normal b)
  /\ (forall v, isArray v = false -> validateTuning v = Normal false)
  /\ (validateTuning (VArr (tuningValue <$> tuning)) = Normal true
      <-> Forall (fun t => 0 <= tuningSemitone t <= 11) tuning)
  /\ (validateTuning (VArr (tuningValue <$> tuning)) = Normal true ->
      forall t fret, t ∈ tuning -> 0 <= fret ->
      exists info, getNoteAt t fret = Normal info)
  /\ (forall stringCount,
        validateTuning (VArr (tuningValue <$> getStandardTuning stringCount))
        = Normal true).
Proof.
  assert (Hiff : forall ts, validateTuning (VArr (tuningValue <$> ts)) = Normal true
                 <-> Forall (fun t => 0 <= tuningSemitone t <= 11) ts).
  { intros ts. unfold validateTuning. induction ts as [|t ts IH].
    - split; [constructor|reflexivity].
    - rewrite fmap_cons. cbn [every].
      rewrite validStringTuning_tuningValue. cbn [mbind completion_bind bind].
      destruct (Z.leb_spec 0 (tuningSemitone t)) as [L0|L0],
               (Z.leb_spec (tuningSemitone t) 11) as [L1|L1];
        simpl; try (split; [discriminate|intros Hf; inversion Hf; lia]).
      rewrite IH. split; [intros Hf; constructor; [lia|exact Hf]|].
      intros Hf. inversion Hf. assumption. }
  split; [|split; [|split; [|split]]].
  - intros [ | | | | | items | ]; simpl; eauto.
    induction items as [|x items IH]; simpl; [eauto|].
    destruct (validStringTuning_normal x) as [[|] ->]; simpl; eauto.
  - intros [ | | | | | items | ]; simpl; intros H; try reflexivity. discriminate.
  - apply Hiff.
  - intros Hv t fret Hin Hf. apply Hiff in Hv.
    rewrite Forall_forall in Hv. specialize (Hv t Hin).
    destruct (MusicTheoryFacts.getNoteAt_succeeds t fret ltac:(lia) Hf) as (e & _ & He).
    eauto.
  - intros stringCount. apply Hiff.
    unfold getStandardTuning.
    assert (Hstd : Forall (fun t => 0 <= tuningSemitone t <= 11) standardTuning)
      by (repeat constructor; simpl; lia).
    assert (Hlow : Forall (fun t => 0 <= tuningSemitone t <= 11) lowerStringNotes)
      by (repeat constructor; simpl; lia).
    destruct (stringCount <=? 6); [apply Forall_drop, Hstd|].
    rewrite unshift_all.
    apply Forall_app. split; [|exact Hstd]. apply Forall_rev, Forall_take, Hlow.
Qed.

(** What [calculateInterval] returns is an entry of the interval table
    for the distance it computed. *)
Lemma calculateInterval_entry {A B} `{HasSemitone A} `{HasSemitone B}
    (root : A) (target : B) (i : Interval) :
  calculateInterval (Some root) (Some target) = Some i ->
  let d := semitoneOf target - semitoneOf root in
  distance i = (if d <? 0 then d + 12 else d)
  /\ intervalSemitones i = distance i
  /\ (type i, distance i) ∈
       [ ("minor-3rd", 3); ("major-3rd", 4); ("perfect-4th", 5);
         ("perfect-5th", 7); ("minor-7th", 10); ("major-7th", 11);
         ("octave", 12) ].
Proof.
  intros Hi d. unfold calculateInterval in Hi. fold d in Hi.
  set (dist := if d <? 0 then d + 12 else d) in *.
  destruct (findIntervalKey dist) as [key|] eqn:K; [|discriminate].
  unfold findIntervalKey in K. apply List.find_some in K as [Hin Hd].
  simpl in Hin.
  clearbody dist. clear d.
  repeat (destruct Hin as [<-|Hin];
          [ match type of Hd with
            | context [property intervals ?k] =>
                let t := eval vm_compute in (property intervals k) in
                change (property intervals k) with t in Hd, Hi
            end;
            cbn [semitones intervalName] in Hd, Hi;
            apply Z.eqb_eq in Hd; injection Hi as <-; cbn [type distance intervalSemitones];
            split; [reflexivity|]; split; [congruence|];
            subst dist; rewrite !elem_of_cons; tauto | ]).
  destruct Hin.
Qed.

(** X6. Every interval [calculateInterval] returns has a CSS class:
    [getIntervalCssClass] of its type is "interval-" followed by the type,
    never the empty string. *)
Theorem getIntervalCssClass_of_interval {A B} `{HasSemitone A} `{HasSemitone B}
    (root : option A) (target : option B) (i : Interval) :
  calculateInterval root target = Some i ->
  getIntervalCssClass (type i) = "interval-" ++ type i
  /\ getIntervalCssClass (type i) <> "".
Proof.
  destruct root as [r|], target as [t|]; try discriminate.
  intros Hi. destruct (calculateInterval_entry r t i Hi) as (_ & _ & Hin).
  rewrite !elem_of_cons, elem_of_nil in Hin.
  repeat (destruct Hin as [[= -> _]|Hin]; [split; [reflexivity|discriminate]|]).
  destruct Hin.
Qed.

(** X5. [calculateAllIntervals] returns the empty map without a root note.
    With one, its keys are note ids of the notes given, the entry of a note
    is what [calculateInterval] gives for it, a note of the root's own pitch
    class has no entry, and the distance of every entry is one of 3, 4, 5,
    7, 10, 11 and 12. *)
Theorem calculateAllIntervals_spec {A B} `{HasSemitone A} `{HasSemitone B}
    (root : A) (allNotes : gmap string B) :
  calculateAllIntervals (@None A) allNotes = ∅
  /\ dom (calculateAllIntervals (Some root) allNotes) ⊆ dom allNotes
  /\ (forall noteId note,
        allNotes !! noteId = Some note ->
        calculateAllIntervals (Some root) allNotes !! noteId
        = calculateInterval (Some root) (Some note))
  /\ (forall noteId note,
        allNotes !! noteId = Some note ->
        semitoneOf note = semitoneOf root ->
        calculateAllIntervals (Some root) allNotes !! noteId = None)
  /\ (forall noteId i,
        calculateAllIntervals (Some root) allNotes !! noteId = Some i ->
        distance i ∈ [3; 4; 5; 7; 10; 11; 12]).
Proof.
  unfold calculateAllIntervals.
  split; [reflexivity|]. split; [|split; [|split]].
  - intros k Hk. apply elem_of_dom in Hk as [i Hi].
    rewrite lookup_omap in Hi. apply elem_of_dom.
    destruct (allNotes !! k); [eauto|discriminate].
  - intros noteId note Hn. rewrite lookup_omap, Hn. reflexivity.
  - intros noteId note Hn Hs. rewrite lookup_omap, Hn. simpl.
    unfold calculateInterval. rewrite Hs, Z.sub_diag. reflexivity.
  - intros noteId i Hi. rewrite lookup_omap in Hi.
    destruct (allNotes !! noteId) as [note|]; [|discriminate]. simpl in Hi.
    destruct (calculateInterval_entry root note i Hi) as (_ & _ & Hin).
    rewrite !elem_of_cons, elem_of_nil in Hin. rewrite !elem_of_cons.
    repeat (destruct Hin as [[= _ ->]|Hin]; [tauto|]). destruct Hin.
Qed.


Lemma getIntervalCssClass_of_interval_witness :
  let c := {| name := "C"; isNatural := true; semitone := 0 |} in
  let g := {| name := "G"; isNatural := true; semitone := 7 |} in
  exists i,
    calculateInterval (Some c) (Some g) = Some i
    /\ getIntervalCssClass (type i) = "interval-perfect-5th"
    /\ getIntervalCssClass (type i) <> "".
Proof.
  intros c g. eexists. split; [reflexivity|].
  refine (getIntervalCssClass_of_interval (Some c) (Some g) _ _). reflexivity.
Defined.

End MusicTheoryExtFacts.

(** ** StateManager: history invariants, export and import *)

Module StateManagerExtFacts.
Import JS StateManager StateManagerExt.

(** The pointer and the length of the log of an operated manager. *)
Lemma operated_bounds (cap : Z) (s : t) :
  0 <= cap ->
  operated cap s ->
  -1 <= currentIndex s < Z.of_nat (length (history s))
  /\ Z.of_nat (length (history s)) <= cap
  /\ maxHistorySize s = cap.
Proof.
  intros Hcap.
  induction 1 as [|s c _ (IHp & IHl & IHc)|s _ (IHp & IHl & IHc)
                  |s _ (IHp & IHl & IHc)|s _ (IHp & IHl & IHc)|s _ IH].
  - simpl. lia.
  - rewrite StateManagerFacts.record_maxHistorySize.
    rewrite StateManagerFacts.record_pointer_at_tail.
    destruct (StateManagerFacts.record_history c s ltac:(lia)) as [Hh _].
    rewrite Hh, IHc.
    set (appended := (take (Z.to_nat (currentIndex s + 1)) (history s)
                      ++ [entryOfCall c])%list).
    assert (La : (length appended <= S (length (history s)))%nat).
    { subst appended. rewrite length_app, length_take. simpl. lia. }
    assert (Lb : (1 <= length appended)%nat).
    { subst appended. rewrite length_app. simpl. lia. }
    destruct (Z.ltb_spec cap (Z.of_nat (length appended)));
      [rewrite length_drop|]; lia.
  - rewrite StateManagerFacts.undo_maxHistorySize, StateManagerFacts.undo_history,
      StateManagerFacts.undo_currentIndex.
    unfold canUndo. destruct (Z.leb_spec 0 (currentIndex s)); lia.
  - rewrite StateManagerFacts.redo_maxHistorySize, StateManagerFacts.redo_history,
      StateManagerFacts.redo_currentIndex.
    unfold canRedo.
    destruct (Z.ltb_spec (currentIndex s) (Z.of_nat (length (history s)) - 1)); lia.
  - simpl. lia.
  - exact IH.
Qed.

Lemma canUndo_entry (s : t) :
  currentIndex s < Z.of_nat (length (history s)) ->
  canUndo s = true ->
  exists e, index (history s) (currentIndex s) = Some e.
Proof.
  unfold canUndo, index. intros Hp H. apply Z.leb_le in H.
  destruct (Z.ltb_spec (currentIndex s) 0); [lia|].
  apply lookup_lt_is_Some. lia.
Qed.

Lemma canRedo_entry (s : t) :
  -1 <= currentIndex s ->
  canRedo s = true ->
  exists e, index (history s) (currentIndex s + 1) = Some e.
Proof.
  unfold canRedo, index. intros Hp H. apply Z.ltb_lt in H.
  destruct (Z.ltb_spec (currentIndex s + 1) 0); [lia|].
  apply lookup_lt_is_Some. lia.
Qed.

(** X7. Whatever sequence of [saveState], [undo], [redo], [clearHistory]
    and [markAsSaved] calls a manager created with a cap [>= 0] has
    received, its pointer is [-1] or the position of an entry of the log,
    the log is no longer than the cap, and neither [undo] nor [redo]
    throws: each returns [null] exactly when [canUndo], respectively
    [canRedo], is false. *)
Theorem operated_invariant (cap : Z) (s : t) :
  0 <= cap ->
  operated cap s ->
  (-1 <= currentIndex s < Z.of_nat (length (history s)))
  /\ Z.of_nat (length (history s)) <= cap
  /\ maxHistorySize s = cap
  /\ (forall m, snd (undo s) <> Throw m)
  /\ (forall m, snd (redo s) <> Throw m)
  /\ (snd (undo s) = Normal None <-> canUndo s = false)
  /\ (snd (redo s) = Normal None <-> canRedo s = false).
Proof.
  intros Hcap Hs.
  destruct (operated_bounds cap s Hcap Hs) as (Hp & Hl & Hc).
  split; [exact Hp|]. split; [exact Hl|]. split; [exact Hc|].
  pose proof (canUndo_entry s ltac:(lia)) as Hu.
  pose proof (canRedo_entry s ltac:(lia)) as Hr.
  unfold undo, redo.
  destruct (canUndo s) eqn:CU, (canRedo s) eqn:CR; simpl;
    try (destruct (Hu eq_refl) as [e ->]); try (destruct (Hr eq_refl) as [e' ->]);
    simpl; repeat split; try discriminate; try reflexivity; auto.
Qed.

Lemma operated_invariant_witness :
  let s := fst (undo (record (Samples.sampleCall 1) (setMaxHistorySize 5 new))) in
  snd (redo s) <> Throw "TypeError".
Proof.
  intros s.
  refine (proj1 (proj2 (proj2 (proj2 (proj2
            (operated_invariant 5 s _ _))))) "TypeError").
  - lia.
  - subst s. repeat constructor.
Defined.

(** X8. In every such state [undo] and [redo] are inverse to each other:
    when an undo is possible it hands back the previous state of the entry
    under the pointer, and the redo that follows hands back the new state
    of the same entry and puts the pointer back; when a redo is possible,
    redo followed by undo does the same the other way round.  The log is
    the same afterwards. *)
Theorem undo_redo_inverse (cap : Z) (s : t) :
  0 <= cap ->
  operated cap s ->
  (canUndo s = true ->
   exists e,
     index (history s) (currentIndex s) = Some e
     /\ snd (undo s)
        = Normal (Some {| restoreAction := action e;
                          stateToRestore := previousState e;
                          direction := "undo" |})
     /\ snd (redo (fst (undo s)))
        = Normal (Some {| restoreAction := action e;
                          stateToRestore := newState e;
                          direction := "redo" |})
     /\ history (fst (redo (fst (undo s)))) = history s
     /\ currentIndex (fst (redo (fst (undo s)))) = currentIndex s)
  /\ (canRedo s = true ->
      exists e,
        index (history s) (currentIndex s + 1) = Some e
        /\ snd (redo s)
           = Normal (Some {| restoreAction := action e;
                             stateToRestore := newState e;
                             direction := "redo" |})
        /\ snd (undo (fst (redo s)))
           = Normal (Some {| restoreAction := action e;
                             stateToRestore := previousState e;
                             direction := "undo" |})
        /\ history (fst (undo (fst (redo s)))) = history s
        /\ currentIndex (fst (undo (fst (redo s)))) = currentIndex s).
Proof.
  intros Hcap Hs.
  destruct (operated_bounds cap s Hcap Hs) as (Hp & Hl & Hc).
  split; intros Hcan.
  - destruct (canUndo_entry s ltac:(lia) Hcan) as [e He].
    exists e. split; [exact He|].
    destruct (StateManagerFacts.undo_at_entry s e He) as (s1 & Hu & Hh1 & Hi1 & _).
    rewrite Hu. simpl.
    assert (He1 : index (history s1) (currentIndex s1 + 1) = Some e).
    { rewrite Hh1, Hi1. replace (currentIndex s - 1 + 1) with (currentIndex s) by lia.
      exact He. }
    unfold canUndo in Hcan. apply Z.leb_le in Hcan.
    destruct (StateManagerFacts.redo_at_entry s1 e ltac:(lia) He1)
      as (s2 & Hr & Hh2 & Hi2 & _).
    rewrite Hr. simpl. split; [reflexivity|]. split; [reflexivity|].
    split; [congruence|lia].
  - destruct (canRedo_entry s ltac:(lia) Hcan) as [e He].
    exists e. split; [exact He|].
    destruct (StateManagerFacts.redo_at_entry s e ltac:(lia) He)
      as (s1 & Hr & Hh1 & Hi1 & _).
    rewrite Hr. simpl.
    assert (He1 : index (history s1) (currentIndex s1) = Some e).
    { rewrite Hh1, Hi1. exact He. }
    destruct (StateManagerFacts.undo_at_entry s1 e He1) as (s2 & Hu & Hh2 & Hi2 & _).
    rewrite Hu. simpl. split; [reflexivity|]. split; [reflexivity|].
    split; [congruence|lia].
Qed.

Lemma undo_redo_inverse_witness :
  let s := record (Samples.sampleCall 1) (setMaxHistorySize 5 new) in
  currentIndex (fst (redo (fst (undo s)))) = currentIndex s.
Proof.
  intros s.
  destruct (undo_redo_inverse 5 s ltac:(lia) ltac:(subst s; repeat constructor))
    as [Hu _].
  destruct (Hu eq_refl) as (e & _ & _ & _ & _ & Hi). exact Hi.
Defined.

Lemma step_fields (st : Step) (s : t) :
  history (step st s) = history s
  /\ hasUnsavedChangesFlag (step st s) = hasUnsavedChangesFlag s
  /\ maxHistorySize (step st s) = maxHistorySize s.
Proof.
  destruct st; simpl.
  - unfold undo. destruct (negb (canUndo s)); [auto|]. destruct (index _ _); auto.
  - unfold redo. destruct (negb (canRedo s)); [auto|]. destruct (index _ _); auto.
Qed.

(** X9. No sequence of undo and redo steps changes the log, its length as
    [getStateInfo] reports it, or the unsaved-changes flag: after
    [markAsSaved] or [clearHistory] the flag stays false however often the
    user undoes or redoes, and after [saveState] it stays true. *)
Theorem steps_keep_log_and_flag (sts : list Step) (s : t) :
  history (steps sts s) = history s
  /\ hasUnsavedChanges (steps sts s) = hasUnsavedChanges s
  /\ hasUnsavedChanges (steps sts (markAsSaved s)) = false
  /\ hasUnsavedChanges (steps sts (clearHistory s)) = false
  /\ (forall c, hasUnsavedChanges (steps sts (record c s)) = true)
  /\ historyLength (getStateInfo (steps sts s)) = historyLength (getStateInfo s).
Proof.
  assert (H : forall s, history (steps sts s) = history s
                        /\ hasUnsavedChangesFlag (steps sts s) = hasUnsavedChangesFlag s).
  { induction sts as [|st sts IH]; intros s0; simpl; [auto|].
    destruct (IH (step st s0)) as [-> ->]. destruct (step_fields st s0) as (-> & -> & _).
    auto. }
  unfold hasUnsavedChanges, getStateInfo. simpl.
  destruct (H s) as [Hh Hf].
  split; [exact Hh|]. split; [exact Hf|].
  split; [rewrite (proj2 (H _)); reflexivity|].
  split; [rewrite (proj2 (H _)); reflexivity|].
  split; [intros c; rewrite (proj2 (H _)); reflexivity|].
  rewrite Hh. reflexivity.
Qed.

(** X10. [importHistory] of what [exportHistory] returned succeeds and
    takes over the log, keeps the importing manager's own cap and marks it
    as having unsaved changes.  The pointer is taken over unless it was 0:
    a pointer on the first entry is read as absent and becomes [-1], so
    that the one action that could be undone before the export can no
    longer be undone after the import. *)
Theorem importHistory_exportHistory (now : Z) (s target : t) :
  let '(s', ok) := importHistory (Some (exportHistory now s)) target in
  ok = true
  /\ history s' = history s
  /\ currentIndex s' = (if currentIndex s =? 0 then -1 else currentIndex s)
  /\ maxHistorySize s' = maxHistorySize target
  /\ hasUnsavedChanges s' = true
  /\ (currentIndex s = 0 -> canUndo s = true /\ canUndo s' = false)
  /\ (currentIndex s <> 0 -> canUndo s' = canUndo s /\ canRedo s' = canRedo s).
Proof.
  unfold importHistory, exportHistory, hasUnsavedChanges, canUndo, canRedo. simpl.
  do 5 (split; [reflexivity|]).
  destruct (Z.eqb_spec (currentIndex s) 0) as [E|E]; split; intros E'; lia.
Qed.

End StateManagerExtFacts.

(** ** Grid: configuration, dragging and serialisation *)

Module GridExtFacts.
Import JS Grid GridExt.

Local Ltac conjuncts := repeat match goal with |- _ /\ _ => split end.

Lemma getStandardTuning_length (stringCount : Z) :
  4 <= stringCount <= 12 ->
  Z.of_nat (length (MusicTheory.getStandardTuning stringCount)) = stringCount.
Proof.
  intros H.
  assert (C : stringCount ∈ [4; 5; 6; 7; 8; 9; 10; 11; 12]).
  { rewrite !elem_of_cons, elem_of_nil. lia. }
  rewrite !elem_of_cons, elem_of_nil in C.
  destruct C as [->|[->|[->|[->|[->|[->|[->|[->|[->|[]]]]]]]]]]; reflexivity.
Qed.

Lemma changedConfig_in_range (control : Control) (parsed : option Z)
    (config config' : Config) :
  configInRange config ->
  changedConfig control parsed config = Some config' ->
  configInRange config'.
Proof.
  unfold configInRange, changedConfig.
  intros (Hs & He & Hc & Ht) H.
  destruct control.
  - destruct (negb _); [|discriminate]. injection H as <-. simpl.
    destruct (Z.ltb_spec (endFret config) (Z.max 0 (Z.min 24 (parsedOr parsed 0)))); lia.
  - destruct (negb _); [|discriminate]. injection H as <-. simpl.
    destruct (Z.ltb_spec (Z.max 0 (Z.min 24 (parsedOr parsed 0))) (startFret config)); lia.
  - destruct (negb _); [|discriminate]. injection H as <-. simpl.
    rewrite getStandardTuning_length by lia. lia.
Qed.

(** X15. A change of the start fret, the end fret or the string count
    keeps a configuration within its ranges: frets from 0 to 24 with the
    start not after the end, 4 to 12 strings, one tuning entry per string.
    It never touches the notes, the lock, the root note or the intervals;
    it records one [grid_config_change] action when the configuration
    changed and nothing when it did not, and a locked grid ignores it. *)
Theorem handleConfigChange_in_range (control : Control) (parsed : option Z)
    (s : Scene) :
  configInRange (config (grid s)) ->
  let s' := handleConfigChange control parsed s in
  configInRange (config (grid s'))
  /\ notes (grid s') = notes (grid s)
  /\ id (grid s') = id (grid s)
  /\ isLocked (grid s') = isLocked (grid s)
  /\ rootNote s' = rootNote s
  /\ intervals s' = intervals s
  /\ (config (grid s') = config (grid s) -> s' = s)
  /\ (config (grid s') <> config (grid s) ->
      recorded s'
      = (recorded s ++
         [StateManager.createAction "grid_config_change"
            ("Update grid " ++ id (grid s) ++ " configuration") VNull])%list)
  /\ (isLocked (grid s) = true -> s' = s).
Proof.
  intros Hok s'. subst s'. unfold handleConfigChange.
  destruct (isLocked (grid s)) eqn:L.
  { conjuncts; auto. intros H. exfalso. apply H. reflexivity. }
  destruct (changedConfig control parsed (config (grid s))) as [config'|] eqn:C.
  - pose proof (changedConfig_in_range _ _ _ _ Hok C) as Hok'.
    assert (Hne : config' <> config (grid s)).
    { intros Heq. unfold changedConfig in C.
      destruct control;
        match type of C with
        | context [negb (?a =? ?b)] => destruct (Z.eqb_spec a b) as [E|E]
        end; cbn [negb] in C; try discriminate C; injection C as C;
        apply E; rewrite <- Heq, <- C; reflexivity. }
    simpl. conjuncts; auto; try discriminate.
    intros H. contradiction.
  - conjuncts; auto. intros H. exfalso. apply H. reflexivity.
Qed.

(** X16. What an unlocked grid stores for a typed value: the number is
    clamped to [0,24] for a fret and to [4,12] for the string count, text
    that is no number and the number 0 count as 0 for a fret and as 6 for
    the string count; a new start fret above the end fret drags the end
    fret along and a new end fret below the start fret drags the start
    fret along; a new string count replaces the tuning by the standard
    tuning for that count, the same count leaves the tuning alone. *)
Theorem handleConfigChange_stores (control : Control) (parsed : option Z)
    (s : Scene) :
  isLocked (grid s) = false ->
  let before := config (grid s) in
  let after := config (grid (handleConfigChange control parsed s)) in
  orientation after = orientation before
  /\ match control with
     | StartFretInput =>
         let value := Z.max 0 (Z.min 24 (parsedOr parsed 0)) in
         startFret after = value
         /\ (value <> startFret before ->
             endFret after = Z.max (endFret before) value)
         /\ (value = startFret before -> endFret after = endFret before)
         /\ stringCount after = stringCount before
         /\ tuning after = tuning before
     | EndFretInput =>
         let value := Z.max 0 (Z.min 24 (parsedOr parsed 0)) in
         endFret after = value
         /\ (value <> endFret before ->
             startFret after = Z.min (startFret before) value)
         /\ (value = endFret before -> startFret after = startFret before)
         /\ stringCount after = stringCount before
         /\ tuning after = tuning before
     | StringCountInput =>
         let value := Z.max 4 (Z.min 12 (parsedOr parsed 6)) in
         stringCount after = value
         /\ (value <> stringCount before ->
             tuning after = MusicTheory.getStandardTuning value)
         /\ (value = stringCount before -> tuning after = tuning before)
         /\ startFret after = startFret before
         /\ endFret after = endFret before
     end.
Proof.
  intros L before after. subst before after.
  unfold handleConfigChange. rewrite L. unfold changedConfig.
  destruct control;
    match goal with
    | |- context [negb (?a =? ?b)] => destruct (Z.eqb_spec a b) as [E|E]
    end; cbn [negb]; simpl; conjuncts; auto; try (intros; contradiction);
    try (intros; congruence).
  - intros _. destruct (Z.ltb_spec (endFret (config (grid s)))
                          (Z.max 0 (Z.min 24 (parsedOr parsed 0)))); lia.
  - intros _. destruct (Z.ltb_spec (Z.max 0 (Z.min 24 (parsedOr parsed 0)))
                          (startFret (config (grid s)))); lia.
Qed.

Lemma handleConfigChange_stores_witness :
  startFret (config (grid (handleConfigChange StartFretInput (Some 30)
                             Samples.emptyScene))) = 24.
Proof.
  exact (proj1 (proj2 (handleConfigChange_stores StartFretInput (Some 30)
                         Samples.emptyScene eq_refl))).
Defined.

Lemma handleConfigChange_in_range_witness :
  configInRange (config (grid (handleConfigChange StringCountInput (Some 40)
                                 Samples.emptyScene))).
Proof.
  refine (proj1 (handleConfigChange_in_range StringCountInput (Some 40)
                   Samples.emptyScene _)).
  unfold configInRange. simpl. lia.
Defined.

(** X17. [toggleOrientation] of a grid changes the orientation and
    nothing else of the configuration or the notes, and records one action;
    afterwards the orientation is vertical or horizontal whatever it was,
    and a second toggle gives back a configuration that was vertical or
    horizontal.  A locked grid ignores it. *)
Theorem toggleOrientation_flips (s : Scene) :
  let s' := toggleOrientation s in
  (isLocked (grid s) = true -> s' = s)
  /\ (isLocked (grid s) = false ->
      orientation (config (grid s'))
      = (if String.eqb (orientation (config (grid s))) "vertical"
         then "horizontal" else "vertical")
      /\ startFret (config (grid s')) = startFret (config (grid s))
      /\ endFret (config (grid s')) = endFret (config (grid s))
      /\ stringCount (config (grid s')) = stringCount (config (grid s))
      /\ tuning (config (grid s')) = tuning (config (grid s))
      /\ notes (grid s') = notes (grid s)
      /\ length (recorded s') = S (length (recorded s))
      /\ (orientation (config (grid s)) ∈ ["vertical"; "horizontal"] ->
          config (grid (toggleOrientation s')) = config (grid s))
      /\ orientation (config (grid s')) ∈ ["vertical"; "horizontal"]).
Proof.
  intros s'. subst s'. unfold toggleOrientation.
  destruct (isLocked (grid s)) eqn:L; split; try discriminate; auto.
  intros _. simpl. rewrite L. simpl.
  conjuncts; auto.
  - rewrite length_app. simpl. lia.
  - rewrite !elem_of_cons, elem_of_nil. destruct (config (grid s)) as [a b c d o].
    simpl. intros [->|[->|[]]]; reflexivity.
  - rewrite !elem_of_cons. destruct (String.eqb _ "vertical"); auto.
Qed.

(** X18. A locked grid that is not being dragged never moves: whatever
    mouse-down, mouse-move and mouse-up events arrive, its position, its
    drag state and the history are what they were. *)
Theorem locked_grid_never_moves (events : list Mouse) (g : Placed)
    (manager : StateManager.t) :
  isLocked (placedGrid g) = true ->
  isDragging g = false ->
  mouseAll events (g, manager) = (g, manager).
Proof.
  intros L D. unfold mouseAll.
  induction events as [|event events IH]; [reflexivity|].
  simpl. replace (mouse event (g, manager)) with (g, manager); [exact IH|].
  destruct event; simpl.
  - unfold startDrag. rewrite L. reflexivity.
  - unfold drag. rewrite D. reflexivity.
  - unfold endDrag. rewrite D. reflexivity.
Qed.

Lemma locked_grid_never_moves_witness :
  let g := {| placedGrid := setLocked true (Grid.new "grid-1");
              position := {| x := 50; y := 70 |};
              isDragging := false;
              dragOffset := {| x := 0; y := 0 |} |} in
  let rect := {| rectLeft := 0; rectTop := 0; rectWidth := 800; rectHeight := 600 |} in
  mouseAll [MouseDown true 60 80 rect; MouseMove 300 200 rect rect]
    (g, StateManager.new)
  = (g, StateManager.new).
Proof.
  intros g rect. apply (locked_grid_never_moves _ g StateManager.new); reflexivity.
Defined.

(** X19. While a grid is dragged its position is never negative and never
    beyond the room the canvas leaves: a grid that fits in the canvas stays
    inside it, and a grid larger than the canvas is held at 0. *)
Theorem drag_within_canvas (clientX clientY : Z) (canvasRect gridRect : Rect)
    (g : Placed) :
  isDragging g = true ->
  let p := position (drag clientX clientY canvasRect gridRect g) in
  0 <= x p <= Z.max 0 (rectWidth canvasRect - rectWidth gridRect)
  /\ 0 <= y p <= Z.max 0 (rectHeight canvasRect - rectHeight gridRect)
  /\ (rectWidth gridRect <= rectWidth canvasRect ->
      x p + rectWidth gridRect <= rectWidth canvasRect)
  /\ (rectHeight gridRect <= rectHeight canvasRect ->
      y p + rectHeight gridRect <= rectHeight canvasRect)
  /\ (rectWidth canvasRect < rectWidth gridRect -> x p = 0)
  /\ (rectHeight canvasRect < rectHeight gridRect -> y p = 0).
Proof.
  intros D p. subst p. unfold drag. rewrite D. simpl. lia.
Qed.

Lemma drag_within_canvas_witness :
  let canvasRect := {| rectLeft := 10; rectTop := 10; rectWidth := 800; rectHeight := 600 |} in
  let gridRect := {| rectLeft := 60; rectTop := 60; rectWidth := 300; rectHeight := 200 |} in
  let g := startDrag true 70 65 gridRect (place "grid-1") in
  x (position (drag 5000 5000 canvasRect gridRect g)) + 300 <= 800.
Proof.
  intros canvasRect gridRect g.
  exact (proj1 (proj2 (proj2 (drag_within_canvas 5000 5000 canvasRect gridRect g eq_refl)))
           ltac:(simpl; lia)).
Defined.

(** X20. [endDrag] keeps the position and records the move with [null]
    as the previous state: with a cap of at least one, the undo that
    follows hands [null] to the canvas as the state to restore, together
    with the [grid_move] action that carries the position. *)
Theorem endDrag_undo_restores_null (env : StateManager.Env) (canvasState : value)
    (g : Placed) (manager : StateManager.t) :
  isDragging g = true ->
  1 <= StateManager.maxHistorySize manager ->
  let '(g', manager') := endDrag env canvasState g manager in
  position g' = position g
  /\ isDragging g' = false
  /\ exists r,
       snd (StateManager.undo manager') = Normal (Some r)
       /\ StateManager.stateToRestore r = VNull
       /\ StateManager.direction r = "undo"
       /\ StateManager.type (StateManager.restoreAction r) = "grid_move"
       /\ StateManager.data (StateManager.restoreAction r)
          = VObj [("position", positionData (position g))].
Proof.
  intros D Hcap. unfold endDrag. rewrite D. simpl.
  split; [reflexivity|]. split; [reflexivity|].
  set (c := {| StateManager.callEnv := env;
               StateManager.callAction :=
                 StateManager.createAction "grid_move"
                   ("Move grid " ++ id (placedGrid g))
                   (VObj [("position", positionData (position g))]);
               StateManager.callPrevious := VNull;
               StateManager.callNew := canvasState |}).
  pose proof (StateManagerFacts.record_entry_at_pointer c manager Hcap) as He.
  destruct (StateManagerFacts.undo_at_entry _ _ He) as (s1 & Hu & _).
  unfold StateManager.record in Hu. simpl in Hu.
  eexists. rewrite Hu. simpl. split; [reflexivity|]. conjuncts; reflexivity.
Qed.

Lemma endDrag_undo_restores_null_witness :
  let rect := {| rectLeft := 0; rectTop := 0; rectWidth := 800; rectHeight := 600 |} in
  let g := startDrag true 5 5 rect (place "grid-1") in
  exists r,
    snd (StateManager.undo
           (snd (endDrag (StateManager.callEnv (Samples.sampleCall 0)) VNull g
                   StateManager.new)))
    = Normal (Some r)
    /\ StateManager.stateToRestore r = VNull.
Proof.
  intros rect g.
  pose proof (endDrag_undo_restores_null (StateManager.callEnv (Samples.sampleCall 0))
                VNull g StateManager.new eq_refl ltac:(simpl; lia)) as H.
  destruct (endDrag _ _ g StateManager.new) as [g' m'].
  destruct H as (_ & _ & r & Hr & Hn & _). exists r. split; assumption.
Defined.

(** X21. [removeNote] deletes the note with the given id and no other, and
    leaves the configuration alone; an id that is not on the grid changes
    nothing.  When the note was the root note the root note is cleared and
    the interval map emptied; otherwise both stay as they were, the
    interval entry of the removed note included.  One [note_remove] action
    is recorded. *)
Theorem removeNote_spec (noteId : string) (s : Scene) :
  let s' := removeNote noteId s in
  notes (grid s') = delete noteId (notes (grid s))
  /\ config (grid s') = config (grid s)
  /\ (notes (grid s) !! noteId = None -> s' = s)
  /\ (forall note,
        notes (grid s) !! noteId = Some note ->
        let wasRoot :=
          match rootNote s with
          | Some root => String.eqb (rootNoteId root) noteId
          | None => false
          end in
        rootNote s' = (if wasRoot then None else rootNote s)
        /\ intervals s' = (if wasRoot then ∅ else intervals s)
        /\ recorded s'
           = (recorded s ++
              [StateManager.createAction "note_remove"
                 ("Remove " ++ MusicTheory.noteName (noteInfo note) ++ " note")
                 VNull])%list).
Proof.
  intros s'. subst s'. unfold removeNote.
  destruct (notes (grid s) !! noteId) as [note|] eqn:E.
  - simpl. split.
    { destruct (rootNote s) as [root|]; [destruct (String.eqb _ _)|]; reflexivity. }
    split.
    { destruct (rootNote s) as [root|]; [destruct (String.eqb _ _)|]; reflexivity. }
    split; [discriminate|].
    intros note' [= <-].
    destruct (rootNote s) as [root|]; [destruct (String.eqb _ _)|];
      conjuncts; reflexivity.
  - split; [symmetry; apply delete_id, E|].
    split; [reflexivity|]. split; [reflexivity|]. intros note [=].
Qed.

(** X22. Placing a note on a free position and removing it again gives
    back the grid as it was; the history holds the two actions. *)
Theorem placeNote_removeNote (stringIndex fret : Z) (s : Scene)
    (t : MusicTheory.StringTuning) (info : MusicTheory.NoteInfo) :
  index (tuning (config (grid s))) stringIndex = Some t ->
  MusicTheory.getNoteAt t fret = Normal info ->
  let noteId := noteIdOf (grid s) stringIndex fret in
  notes (grid s) !! noteId = None ->
  exists placed,
    placeNote stringIndex fret s = (placed, Normal ())
    /\ notes (grid placed) !! noteId
       = Some {| noteInfo := info; stringIndex := stringIndex;
                 groupState := "chromatic" |}
    /\ grid (removeNote noteId placed) = grid s
    /\ (StateManager.type <$> recorded (removeNote noteId placed))
       = ((StateManager.type <$> recorded s) ++ ["note_place"; "note_remove"])%list.
Proof.
  intros Ht Hi noteId Hfree.
  unfold placeNote. rewrite Ht, Hi. fold noteId.
  eexists. split; [reflexivity|].
  unfold removeNote. simpl. rewrite lookup_insert_eq.
  split; [reflexivity|].
  assert (Hd : delete noteId (<[noteId := {| noteInfo := info; stringIndex := stringIndex;
                                            groupState := "chromatic" |}]> (notes (grid s)))
               = notes (grid s)).
  { rewrite delete_insert_eq. apply delete_id, Hfree. }
  destruct (rootNote s) as [root|]; [destruct (String.eqb _ _)|]; simpl;
    rewrite Hd; (split; [destruct (grid s); reflexivity|]);
    rewrite !fmap_app; simpl; rewrite <- app_assoc; reflexivity.
Qed.

Lemma placeNote_removeNote_witness :
  exists placed,
    placeNote 0 3 Samples.emptyScene = (placed, Normal ())
    /\ grid (removeNote (noteIdOf (grid Samples.emptyScene) 0 3) placed)
       = grid Samples.emptyScene.
Proof.
  destruct (placeNote_removeNote 0 3 Samples.emptyScene Samples.lowE Samples.gAtFret3
              eq_refl eq_refl eq_refl) as (placed & Hp & _ & Hg & _).
  exists placed. split; assumption.
Defined.

(** In a list of entries with distinct keys, [assoc] finds exactly the
    entries of the list. *)
Lemma assoc_elem_of (key : string) (v : value) (props : list (string * value)) :
  NoDup props.*1 ->
  assoc key props = Some v <-> (key, v) ∈ props.
Proof.
  induction props as [|[k x] props IH]; simpl; intros Hnd.
  - split; [discriminate|]. intros H. inversion H.
  - apply NoDup_cons in Hnd as [Hk Hnd].
    rewrite elem_of_cons. destruct (String.eqb_spec k key) as [->|Hne].
    + split.
      * intros [= ->]. left. reflexivity.
      * intros [[= ->]|Hin]; [reflexivity|].
        exfalso. apply Hk. apply list_elem_of_fmap. exists (key, v). auto.
    + rewrite (IH Hnd). split; [auto|].
      intros [[= -> ->]|Hin]; [contradiction|exact Hin].
Qed.

Lemma assoc_map_to_list (key : string) (m : gmap string value) :
  assoc key (map_to_list m) = m !! key.
Proof.
  destruct (m !! key) as [v|] eqn:E.
  - apply assoc_elem_of; [apply NoDup_fst_map_to_list|].
    apply elem_of_map_to_list, E.
  - destruct (assoc key (map_to_list m)) as [v|] eqn:A; [|reflexivity].
    apply assoc_elem_of in A; [|apply NoDup_fst_map_to_list].
    apply elem_of_map_to_list in A. congruence.
Qed.

(** What [serialize] returns passes the grid validator's checks. *)
Lemma serialize_wellShaped (g : Placed) : Shape.wellShapedGrid (serialize g).
Proof.
  unfold Shape.wellShapedGrid, serialize, positionData, configData.
  eexists _, _, _, _, _, _, _, _, _.
  split; [reflexivity|]. simpl.
  conjuncts; try reflexivity; eexists; reflexivity.
Qed.

(** X23. What [serialize] returns always passes [validateGridStructure];
    for a configuration within its ranges it satisfies the fret bounds and
    has one tuning entry per string; and its [notes] object holds, under
    each note id of the grid, the data of that note and nothing under any
    other key. *)
Theorem serialize_spec (g : Placed) :
  FileOperations.validateGridStructure (serialize g) = FileOperations.Pass
  /\ (configInRange (config (placedGrid g)) ->
      Shape.fretBoundsHold (serialize g) /\ Shape.tuningLengthHolds (serialize g))
  /\ (forall noteId,
        (notesData ← get (serialize g) "notes"; get notesData noteId)
        = Normal (default VUndefined
                    (noteData <$> notes (placedGrid g) !! noteId))).
Proof.
  split; [apply FileOperationsFacts.shape_validateGridStructure, serialize_wellShaped|].
  split.
  { intros (Hs & He & Hc & Ht). split.
    - unfold Shape.fretBoundsHold, serialize, configData.
      eexists _, _, _, _. split; [reflexivity|]. simpl.
      conjuncts; try reflexivity; lia.
    - unfold Shape.tuningLengthHolds, serialize, configData.
      eexists _, _, _, _. split; [reflexivity|]. simpl.
      conjuncts; try reflexivity. rewrite length_fmap. exact Ht. }
  intros noteId. unfold serialize. simpl.
  rewrite assoc_map_to_list, lookup_fmap. reflexivity.
Qed.

End GridExtFacts.

(** ** FileOperations: saving and loading as a whole *)

Module FileOperationsExtFacts.
Import JS FileOperations Shape FileOperationsExt.

Local Ltac conjuncts := repeat match goal with |- _ /\ _ => split end.

(** X11. What [saveCanvas] does, for every argument.  On success exactly
    one file is handed to the browser, under the name given or, without
    one, under the default name; the document carries the version and the
    time; the manager is marked as saved with its history untouched, and
    [getCurrentFileInfo] reports the new name.  On failure nothing is
    downloaded, the file operations are as they were and the error is the
    last line of the console.  A call without a state, as the keyboard
    shortcut makes it, always fails. *)
Theorem saveCanvas_effects (env : SaveEnv) (canvasState : value)
    (filename : option string) (w : World) :
  let '(w', r) := saveCanvas env canvasState filename w in
  match r with
  | Success name =>
      name = match filename with
             | Some f => if String.eqb f "" then defaultFileName env else f
             | None => defaultFileName env
             end
      /\ (exists doc,
            downloads w' = (downloads w ++ [(name, doc)])%list
            /\ get doc "version" = Normal (VStr (fileVersion (ops w)))
            /\ get doc "timestamp" = Normal (VNum (now env)))
      /\ getCurrentFileInfo (ops w')
         = {| infoFileName := Some name;
              infoHasUnsavedChanges := false;
              infoVersion := fileVersion (ops w) |}
      /\ StateManager.history (stateManager (ops w'))
         = StateManager.history (stateManager (ops w))
      /\ StateManager.currentIndex (stateManager (ops w'))
         = StateManager.currentIndex (stateManager (ops w))
      /\ canvasState <> VUndefined
      /\ canvasState <> VNull
  | Failure error =>
      ops w' = ops w
      /\ downloads w' = downloads w
      /\ last (console w') = Some ("Error saving canvas: " +:+ error)
  end.
Proof.
  unfold saveCanvas.
  destruct (saveDataOf (ops w) env canvasState) as [saveData|e] eqn:Es.
  - destruct (validateSaveData saveData) as [|logged] eqn:V.
    + split; [reflexivity|]. split.
      { exists saveData. split; [reflexivity|].
        destruct canvasState; try discriminate Es;
          unfold saveDataOf in Es; simpl in Es; injection Es as <-;
          split; reflexivity. }
      split; [reflexivity|]. split; [reflexivity|]. split; [reflexivity|].
      split; intros ->; discriminate Es.
    + unfold saveFailed. conjuncts; try reflexivity.
      rewrite app_assoc. apply last_snoc.
  - unfold saveFailed. conjuncts; try reflexivity.
    rewrite app_assoc. apply last_snoc.
Qed.

Lemma validateLoadData_loadable (doc : value) (logged : list string) :
  validateLoadData doc = (None, logged) -> logged = [] /\ loadable doc.
Proof.
  unfold validateLoadData, validateLoadDataBody, loadable.
  destruct doc as [ | | b | n | s | items | props]; simpl;
    try discriminate.
  { destruct b; discriminate. }
  { destruct (n =? 0); discriminate. }
  { destruct (String.eqb s ""); discriminate. }
  { rewrite FileOperationsFacts.arrayIndexOf_not_digits by reflexivity.
    simpl. discriminate. }
  destruct (assoc "version" props) as [version|] eqn:Ev; simpl; [|discriminate].
  destruct (truthy version) eqn:Tv; simpl; [|discriminate].
  destruct (assoc "canvas" props) as [canvas|] eqn:Ec; simpl; [|discriminate].
  destruct (negb (truthy canvas) || notObject canvas) eqn:Cc; [discriminate|].
  apply orb_false_iff in Cc as [Tc Oc].
  apply negb_false_iff in Tc.
  apply FileOperationsFacts.typeof_object_notObject in Oc.
  destruct (assoc "grids" props) as [[ | | | | | grids | ]|] eqn:Eg; simpl;
    try discriminate.
  destruct (firstInvalidGrid 0 grids) as [[i l]|] eqn:F; [discriminate|].
  intros [= <-]. split; [reflexivity|].
  exists props, version, canvas, grids. conjuncts; auto.
  apply (FileOperationsFacts.firstInvalidGrid_None 0), F.
Qed.

Lemma loadable_validateLoadData (doc : value) :
  loadable doc -> validateLoadData doc = (None, []).
Proof.
  intros (props & version & canvas & grids & -> & Ev & Tv & Ec & Tc & Oc & Eg & Hall).
  unfold validateLoadData, validateLoadDataBody. simpl.
  rewrite Ev. simpl. rewrite Tv. simpl. rewrite Ec. simpl. rewrite Tc.
  apply FileOperationsFacts.typeof_object_notObject in Oc. rewrite Oc. simpl.
  rewrite Eg. simpl.
  apply (FileOperationsFacts.firstInvalidGrid_None 0) in Hall. rewrite Hall.
  reflexivity.
Qed.

Lemma jsonPlain_cons (k : string) (x : value) (props : list (string * value)) :
  jsonPlain (VObj ((k, x) :: props))
  = (match x with VUndefined => false | _ => jsonPlain x end)
    && jsonPlain (VObj props).
Proof. reflexivity. Qed.

(** A property of plain data is plain and is not [undefined]. *)
Lemma assoc_plain (key : string) (v : value) (props : list (string * value)) :
  jsonPlain (VObj props) = true ->
  assoc key props = Some v ->
  v <> VUndefined /\ jsonPlain v = true.
Proof.
  induction props as [|[k x] props IH]; [discriminate 2|].
  rewrite jsonPlain_cons. intros Hp%andb_true_iff Ha. destruct Hp as [Hx Hp].
  simpl in Ha. destruct (String.eqb k key).
  - injection Ha as <-. destruct x; try discriminate Hx; split; auto; discriminate.
  - apply IH; assumption.
Qed.

Lemma or_else_plain (key : string) (d : value) (props : list (string * value)) :
  jsonPlain (VObj props) = true ->
  d <> VUndefined ->
  jsonPlain d = true ->
  let x := or_else (default VUndefined (assoc key props)) d in
  (match x with VUndefined => false | _ => jsonPlain x end) = true.
Proof.
  intros Hp Hd Hdp x. subst x. unfold or_else.
  destruct (assoc key props) as [v|] eqn:E; simpl.
  - destruct (assoc_plain key v props Hp E) as [Hv Hvp].
    destruct (truthy v).
    + destruct v; try exact Hvp; contradiction.
    + destruct d; try exact Hdp; contradiction.
  - destruct d; try exact Hdp; contradiction.
Qed.

(** The document built from plain data is plain. *)
Lemma saveDataOf_plain (fo : t) (env : SaveEnv) (props : list (string * value))
    (doc : value) :
  jsonPlain (VObj props) = true ->
  saveDataOf fo env (VObj props) = Normal doc ->
  jsonPlain doc = true.
Proof.
  intros Hp Es. unfold saveDataOf in Es. simpl in Es. injection Es as <-.
  rewrite !jsonPlain_cons.
  rewrite !(or_else_plain _ _ props Hp) by (discriminate || reflexivity).
  reflexivity.
Qed.

Section Loading.

Variable JSON_parse : string -> completion value.

(** X14. [loadCanvas] succeeds exactly when a file was given, its name
    ends in .json whatever the case, its text can be read and parsed, and
    the document has a version, a canvas object and an array of
    well-shaped grids.  On success the data handed on holds the canvas and
    the grids of the document and defaults for missing notes, root note,
    intervals and settings, and passes [validateState]; the history is
    empty, nothing can be undone or redone, there are no unsaved changes,
    the file name is the current one, nothing is downloaded, and the
    console gets a warning exactly when the version is not the current
    one. *)
Theorem loadCanvas_success (file : option File) (w : World) :
  let '(w', r) := loadCanvas JSON_parse file w in
  ((exists loaded, r = Success loaded)
   <-> exists f text doc,
         file = Some f
         /\ endsWith (toLowerCase (fileName f)) ".json" = true
         /\ fileText f = Normal text
         /\ JSON_parse text = Normal doc
         /\ loadable doc)
  /\ forall loaded,
       r = Success loaded ->
       exists f text props,
         file = Some f
         /\ fileText f = Normal text
         /\ JSON_parse text = Normal (VObj props)
         /\ loadedFileName loaded = fileName f
         /\ loadedData loaded
            = VObj [ ("canvas", default VUndefined (assoc "canvas" props));
                     ("grids", default VUndefined (assoc "grids" props));
                     ("notes", or_else (default VUndefined (assoc "notes" props)) (VObj []));
                     ("rootNote", or_else (default VUndefined (assoc "rootNote" props)) VNull);
                     ("intervals",
                      or_else (default VUndefined (assoc "intervals" props)) (VObj []));
                     ("settings",
                      or_else (default VUndefined (assoc "settings" props)) (VObj [])) ]
         /\ StateManagerExt.validateState (loadedData loaded) = Normal true
         /\ getCurrentFileInfo (ops w')
            = {| infoFileName := Some (fileName f);
                 infoHasUnsavedChanges := false;
                 infoVersion := fileVersion (ops w) |}
         /\ StateManager.history (stateManager (ops w')) = []
         /\ StateManager.canUndo (stateManager (ops w')) = false
         /\ StateManager.canRedo (stateManager (ops w')) = false
         /\ downloads w' = downloads w
         /\ console w'
            = (console w
               ++ versionWarning (ops w) (default VUndefined (assoc "version" props))
               ++ ["Canvas loaded successfully from " +:+ fileName f])%list.
Proof.
  unfold loadCanvas.
  destruct file as [f|]; simpl.
  2:{ split; [|intros ? [=]]. split; [intros [? [=]]|].
      intros (f & ? & ? & [=] & _). }
  destruct (endsWith (toLowerCase (fileName f)) ".json") eqn:Hn; simpl.
  2:{ split; [|intros ? [=]]. split; [intros [? [=]]|].
      intros (f' & ? & ? & [= <-] & Hn' & _). congruence. }
  destruct (fileText f) as [text|e] eqn:Ht.
  2:{ split; [|intros ? [=]]. split; [intros [? [=]]|].
      intros (f' & ? & ? & [= <-] & _ & Ht' & _). congruence. }
  destruct (JSON_parse text) as [doc|e] eqn:Hp.
  2:{ split; [|intros ? [=]]. split; [intros [? [=]]|].
      intros (f' & ? & ? & [= <-] & _ & Ht' & Hp' & _). congruence. }
  destruct (validateLoadData doc) as [[reason|] logged] eqn:V.
  { split; [|intros ? [=]]. split; [intros [? [=]]|].
    intros (f' & ? & ? & [= <-] & _ & Ht' & Hp' & Hl).
    apply loadable_validateLoadData in Hl.
    rewrite Ht in Ht'. injection Ht' as <-. rewrite Hp in Hp'. injection Hp' as <-.
    congruence. }
  destruct (validateLoadData_loadable doc logged V) as [-> Hl].
  pose proof Hl as (props & version & canvas & grids & -> & Ev & Tv & Ec & Tc & Oc & Eg & Hall).
  simpl. rewrite Ev, Ec, Eg. simpl.
  split.
  { split; [intros _; exists f, text, (VObj props); auto|eauto]. }
  intros loaded [= <-]. exists f, text, props. simpl.
  unfold or_else at 1 2. rewrite Tc. simpl.
  conjuncts; try reflexivity; try assumption.
  - rewrite Ec, Eg. reflexivity.
  - unfold versionWarning. rewrite Ev. reflexivity.
Qed.

(** X13. A state of plain data that was saved can be loaded again: the
    document survives the journey through JSON text unchanged, and loading
    a .json file with that text succeeds without a version warning, gives
    back the grids, notes, root note, intervals and settings that were
    saved and the canvas section of the document, and empties the
    history. *)
Theorem save_then_load (env : SaveEnv) (props : list (string * value))
    (filename : option string) (w w1 : World) (name : string)
    (f : File) (text : string) :
  jsonPlain (VObj props) = true ->
  fileVersion (ops w) <> "" ->
  saveCanvas env (VObj props) filename w = (w1, Success name) ->
  exists doc,
    downloads w1 = (downloads w ++ [(name, doc)])%list
    /\ jsonClone doc = doc
    /\ (endsWith (toLowerCase (fileName f)) ".json" = true ->
        fileText f = Normal text ->
        JSON_parse text = Normal doc ->
        exists w2 data,
          loadCanvas JSON_parse (Some f) w1
          = (w2, Success {| loadedData := data; loadedFileName := fileName f |})
          /\ get data "grids"
             = Normal (or_else (default VUndefined (assoc "grids" props)) (VArr []))
          /\ get data "notes"
             = Normal (or_else (default VUndefined (assoc "notes" props)) (VObj []))
          /\ get data "rootNote"
             = Normal (or_else (default VUndefined (assoc "rootNote" props)) VNull)
          /\ get data "intervals"
             = Normal (or_else (default VUndefined (assoc "intervals" props)) (VObj []))
          /\ get data "settings"
             = Normal (or_else (default VUndefined (assoc "settings" props)) (VObj []))
          /\ get data "canvas" = get doc "canvas"
          /\ console w2
             = (console w1 ++ ["Canvas loaded successfully from " +:+ fileName f])%list
          /\ StateManager.history (stateManager (ops w2)) = []
          /\ currentFileName (ops w2) = Some (fileName f)).
Proof.
  intros Hp Hv Hs. unfold saveCanvas in Hs.
  destruct (saveDataOf (ops w) env (VObj props)) as [doc|e] eqn:Es;
    [|discriminate Hs].
  destruct (FileOperationsFacts.validateSaveData_saveDataOf _ _ _ _ Es) as [_ Hval].
  destruct (validateSaveData doc) as [|logged] eqn:V; [|discriminate Hs].
  injection Hs as <- <-.
  exists doc. split; [reflexivity|].
  split; [apply JSFacts.jsonClone_plain, (saveDataOf_plain _ _ _ _ Hp Es)|].
  intros Hn Ht Hparse.
  unfold saveDataOf in Es. simpl in Es. injection Es as <-.
  simpl in Hval.
  remember (or_else (default VUndefined (assoc "grids" props)) (VArr [])) as grids
    eqn:Eg.
  destruct grids as [ | | | | | gs | ]; try discriminate Hval.
  destruct (firstInvalidGrid 0 gs) as [[i l]|] eqn:F; [discriminate Hval|].
  unfold loadCanvas. simpl. rewrite Hn, Ht. simpl. rewrite Hparse.
  rewrite loadable_validateLoadData.
  2:{ eexists _, _, _, gs. split; [reflexivity|]. simpl.
      conjuncts; try reflexivity.
      - unfold truthy.
        destruct (String.eqb_spec (fileVersion (ops w)) ""); [contradiction|reflexivity].
      - apply (FileOperationsFacts.firstInvalidGrid_None 0), F. }
  simpl.
  destruct (String.eqb_spec (fileVersion (ops w)) "") as [|_]; [contradiction|].
  rewrite String.eqb_refl. simpl.
  eexists _, _. split; [reflexivity|]. simpl.
  assert (Ho : forall a d, or_else (or_else a d) d = or_else a d).
  { intros a d. unfold or_else. destruct (truthy a) eqn:Ta; [rewrite Ta|];
      [reflexivity|destruct (truthy d); reflexivity]. }
  rewrite !Ho.
  conjuncts; reflexivity.
Qed.

End Loading.

Lemma save_then_load_witness :
  let saved := saveCanvas Samples.saveEnv (Samples.canvasStateWith []) None
                 Samples.freshWorld in
  let parse := fun _ : string =>
                 match downloads (fst saved) with
                 | [(_, doc)] => Normal doc
                 | _ => Throw "Unexpected token"
                 end in
  exists w2 data,
    loadCanvas parse (Some (Samples.fileOf "")) (fst saved)
    = (w2, Success {| loadedData := data; loadedFileName := "Lesson.JSON" |})
    /\ get data "grids" = Normal (VArr []).
Proof.
  intros saved parse.
  destruct (save_then_load parse Samples.saveEnv
              (Samples.canvasProps []) None Samples.freshWorld (fst saved)
              (defaultFileName Samples.saveEnv) (Samples.fileOf "") ""
              ltac:(reflexivity) ltac:(simpl; discriminate) ltac:(reflexivity))
    as (doc & Hd & Hc & Hload).
  destruct Hload as (w2 & data & Hl & Hg & _).
  - reflexivity.
  - reflexivity.
  - unfold parse. rewrite Hd. reflexivity.
  - exists w2, data. split; [exact Hl|exact Hg].
Defined.

End FileOperationsExtFacts.

(** ** Canvas: grids, root note, lock and state *)

Module CanvasExtFacts.
Import JS CanvasExt.

Local Ltac conjuncts := repeat match goal with |- _ /\ _ => split end.

Lemma intervalsOf_lookup (root : Grid.RootNote) (g : GridExt.Placed)
    (noteId : string) :
  intervalsOf root g !! noteId
  = Grid.notes (GridExt.placedGrid g) !! noteId
    ≫= (fun note => MusicTheory.calculateInterval (Some root) (Some note)).
Proof. unfold intervalsOf. apply lookup_omap. Qed.

(** An entry of the interval map was set for a grid of the canvas. *)
Lemma found_Some (root : Grid.RootNote) (gs : list (string * GridExt.Placed))
    (found : gmap string MusicTheory.Interval) (noteId : string)
    (i : MusicTheory.Interval) :
  fold_left (fun found entry => intervalsOf root (snd entry) ∪ found) gs found
    !! noteId = Some i ->
  found !! noteId = Some i
  \/ exists entry, entry ∈ gs /\ intervalsOf root (snd entry) !! noteId = Some i.
Proof.
  revert found. induction gs as [|entry gs IH]; intros found; simpl; [auto|].
  intros H. apply IH in H as [H|(e & He & H)].
  - apply lookup_union_Some_raw in H as [H|[_ H]]; [|auto].
    right. exists entry. split; [left|exact H].
  - right. exists e. split; [right; exact He|exact H].
Qed.

(** A note id has no entry exactly when no grid set one. *)
Lemma found_None (root : Grid.RootNote) (gs : list (string * GridExt.Placed))
    (found : gmap string MusicTheory.Interval) (noteId : string) :
  fold_left (fun found entry => intervalsOf root (snd entry) ∪ found) gs found
    !! noteId = None
  <-> found !! noteId = None
      /\ forall entry, entry ∈ gs -> intervalsOf root (snd entry) !! noteId = None.
Proof.
  revert found. induction gs as [|entry gs IH]; intros found; simpl.
  - split; [|tauto]. intros H. split; [exact H|]. intros e He. inversion He.
  - rewrite IH, lookup_union_None. split.
    + intros [[H1 H2] H3]. split; [exact H2|].
      intros e [->|He]%elem_of_cons; auto.
    + intros [H1 H2]. split; [split; [apply H2; left|exact H1]|].
      intros e He. apply H2. right. exact He.
Qed.

(** X24. [setRootNote] with a note makes it the root note and rebuilds
    the interval map from the notes of all grids: every entry is the
    interval of a note with that id on some grid of the canvas, an id has
    no entry exactly when no note with that id stands in a recognised
    interval to the root, and a note of the root's own pitch class (the
    root itself among them) has none when its id is used once.  With
    [null] the root note and the map are cleared.  Neither records an
    action, and the grids are not touched. *)
Theorem setRootNote_intervals (root : Grid.RootNote) (c : t) :
  let c' := setRootNote (Some root) c in
  rootNote c' = Some root
  /\ grids c' = grids c
  /\ recorded c' = recorded c
  /\ (forall noteId i,
        intervals c' !! noteId = Some i ->
        exists gridId g note,
          (gridId, g) ∈ grids c
          /\ Grid.notes (GridExt.placedGrid g) !! noteId = Some note
          /\ MusicTheory.calculateInterval (Some root) (Some note) = Some i)
  /\ (forall noteId,
        intervals c' !! noteId = None
        <-> forall gridId g note,
              (gridId, g) ∈ grids c ->
              Grid.notes (GridExt.placedGrid g) !! noteId = Some note ->
              MusicTheory.calculateInterval (Some root) (Some note) = None)
  /\ (forall gridId g noteId note,
        (gridId, g) ∈ grids c ->
        Grid.notes (GridExt.placedGrid g) !! noteId = Some note ->
        MusicTheory.semitoneOf note = MusicTheory.semitoneOf root ->
        (forall gridId' g' note',
           (gridId', g') ∈ grids c ->
           Grid.notes (GridExt.placedGrid g') !! noteId = Some note' ->
           note' = note) ->
        intervals c' !! noteId = None)
  /\ rootNote (setRootNote None c) = None
  /\ intervals (setRootNote None c) = ∅.
Proof.
  intros c'. subst c'. unfold setRootNote, updateIntervalHighlighting. simpl.
  assert (Hnone : forall noteId,
            fold_left (fun found entry => intervalsOf root (snd entry) ∪ found)
              (grids c) ∅ !! noteId = None
            <-> forall gridId g note,
                  (gridId, g) ∈ grids c ->
                  Grid.notes (GridExt.placedGrid g) !! noteId = Some note ->
                  MusicTheory.calculateInterval (Some root) (Some note) = None).
  { intros noteId. rewrite found_None. split.
    - intros [_ H] gridId g note Hin Hn.
      specialize (H _ Hin). rewrite intervalsOf_lookup in H. simpl in H.
      rewrite Hn in H. exact H.
    - intros H. split; [apply lookup_empty|].
      intros [gridId g] Hin. rewrite intervalsOf_lookup. simpl.
      destruct (Grid.notes (GridExt.placedGrid g) !! noteId) as [note|] eqn:E;
        [|reflexivity].
      simpl. apply (H gridId g note Hin E). }
  conjuncts; try reflexivity.
  - intros noteId i H. apply found_Some in H as [H|([gridId g] & Hin & H)].
    + rewrite lookup_empty in H. discriminate.
    + rewrite intervalsOf_lookup in H. simpl in H.
      destruct (Grid.notes (GridExt.placedGrid g) !! noteId) as [note|] eqn:E;
        [|discriminate].
      exists gridId, g, note. auto.
  - exact Hnone.
  - intros gridId g noteId note Hin Hn Hs Huniq. apply Hnone.
    intros gridId' g' note' Hin' Hn'.
    rewrite (Huniq _ _ _ Hin' Hn').
    unfold MusicTheory.calculateInterval. rewrite Hs, Z.sub_diag. reflexivity.
Qed.

Lemma mapGet_mapDelete {A} (key other : string) (m : list (string * A)) :
  mapGet other (mapDelete key m)
  = if String.eqb other key then None else mapGet other m.
Proof.
  induction m as [|[k v] m IH]; simpl.
  - destruct (String.eqb other key); reflexivity.
  - destruct (String.eqb_spec k key) as [->|Hk]; simpl.
    + rewrite IH. rewrite (String.eqb_sym key other).
      destruct (String.eqb other key); reflexivity.
    + rewrite IH. destruct (String.eqb_spec k other) as [->|Ho].
      * destruct (String.eqb_spec other key); [contradiction|reflexivity].
      * reflexivity.
Qed.


Lemma mapDelete_absent {A} (key : string) (m : list (string * A)) :
  mapGet key m = None -> mapDelete key m = m.
Proof.
  induction m as [|[k v] m IH]; simpl; [reflexivity|].
  destruct (String.eqb k key); [discriminate|]. simpl.
  intros H. rewrite (IH H). reflexivity.
Qed.


(** X25. [handleGridDelete] does nothing for an unknown id.  Otherwise it
    removes that grid and no other and records one [grid_delete] action;
    when the root note was on the grid, the root note is cleared and the
    interval map emptied; when it was not, root note and interval map stay
    as they were. *)
Theorem handleGridDelete_spec (gridId : string) (c : t) :
  let c' := handleGridDelete gridId c in
  (mapGet gridId (grids c) = None -> c' = c)
  /\ (is_Some (mapGet gridId (grids c)) ->
      let onGrid :=
        match rootNote c with
        | Some root => String.eqb (Grid.rootGridId root) gridId
        | None => false
        end in
      grids c' = mapDelete gridId (grids c)
      /\ mapGet gridId (grids c') = None
      /\ (forall other,
            other <> gridId -> mapGet other (grids c') = mapGet other (grids c))
      /\ rootNote c' = (if onGrid then None else rootNote c)
      /\ intervals c' = (if onGrid then ∅ else intervals c)
      /\ recorded c'
         = (recorded c ++
            [StateManager.createAction "grid_delete" ("Delete grid " ++ gridId)
               VNull])%list).
Proof.
  intros c'. subst c'. unfold handleGridDelete.
  destruct (mapGet gridId (grids c)) as [g|] eqn:E.
  - split; [discriminate|]. intros _. simpl.
    assert (Hg1 : mapGet gridId (mapDelete gridId (grids c)) = None).
    { rewrite mapGet_mapDelete, String.eqb_refl. reflexivity. }
    assert (Hg2 : forall other, other <> gridId ->
                    mapGet other (mapDelete gridId (grids c)) = mapGet other (grids c)).
    { intros other Ho. rewrite mapGet_mapDelete.
      destruct (String.eqb_spec other gridId); [contradiction|reflexivity]. }
    destruct (rootNote c) as [root|] eqn:R; [destruct (String.eqb _ gridId)|];
      simpl; rewrite ?R; conjuncts; auto.
  - split; [reflexivity|]. intros [? [=]].
Qed.

Lemma toggleLock_grids (c : t) :
  Forall (fun entry =>
            Grid.isLocked (GridExt.placedGrid (snd entry)) = negb (isLocked c))
         (grids (toggleLock c)).
Proof.
  unfold toggleLock. simpl. apply Forall_fmap, Forall_forall.
  intros [gridId g] _. reflexivity.
Qed.

(** X26. [toggleLock] flips the lock of the canvas and gives every grid
    the new lock state; ids, notes, configurations and positions of the
    grids, the root note, the intervals and the orientation stay as they
    were; a second toggle gives back the first lock state; each toggle
    records one action that says which way it went. *)
Theorem toggleLock_spec (c : t) :
  let c' := toggleLock c in
  isLocked c' = negb (isLocked c)
  /\ Forall (fun entry =>
               Grid.isLocked (GridExt.placedGrid (snd entry)) = isLocked c')
            (grids c')
  /\ Forall2 (fun entry' entry =>
                fst entry' = fst entry
                /\ Grid.notes (GridExt.placedGrid (snd entry'))
                   = Grid.notes (GridExt.placedGrid (snd entry))
                /\ Grid.config (GridExt.placedGrid (snd entry'))
                   = Grid.config (GridExt.placedGrid (snd entry))
                /\ GridExt.position (snd entry') = GridExt.position (snd entry)
                /\ GridExt.isDragging (snd entry') = GridExt.isDragging (snd entry))
             (grids c') (grids c)
  /\ rootNote c' = rootNote c
  /\ intervals c' = intervals c
  /\ orientation c' = orientation c
  /\ isLocked (toggleLock c') = isLocked c
  /\ recorded c'
     = (recorded c ++
        [StateManager.createAction "canvas_lock_toggle"
           (if isLocked c then "Canvas unlocked" else "Canvas locked") VNull])%list.
Proof.
  intros c'. subst c'.
  split; [reflexivity|]. split; [apply toggleLock_grids|].
  split.
  { unfold toggleLock. simpl. apply Forall2_fmap_l, Forall_Forall2_diag, Forall_forall.
    intros [gridId g] _. simpl. conjuncts; reflexivity. }
  unfold toggleLock. simpl. conjuncts; try reflexivity.
  - apply negb_involutive.
  - destruct (isLocked c); reflexivity.
Qed.





(** X29. A double click never records an action and never changes a
    grid.  On a locked grid or on a position without a note it does
    nothing; otherwise the note, with the grid's id and its own, becomes
    the root note of the canvas, and when the grid is on the canvas and
    the note id is used once, the root note itself gets no interval. *)
Theorem handleNoteDoubleClick_spec (g : Grid.t) (stringIndex fret : Z) (c : t) :
  let noteId := Grid.noteIdOf g stringIndex fret in
  let c' := handleNoteDoubleClick g stringIndex fret c in
  recorded c' = recorded c
  /\ grids c' = grids c
  /\ (Grid.isLocked g = true -> c' = c)
  /\ (Grid.notes g !! noteId = None -> c' = c)
  /\ (Grid.isLocked g = false ->
      forall note,
        Grid.notes g !! noteId = Some note ->
        let root := {| Grid.rootNoteData := note;
                       Grid.rootGridId := Grid.id g;
                       Grid.rootNoteId := noteId |} in
        c' = setRootNote (Some root) c
        /\ rootNote c' = Some root
        /\ ((exists gridId p, (gridId, p) ∈ grids c /\ GridExt.placedGrid p = g) ->
            (forall gridId' p' note',
               (gridId', p') ∈ grids c ->
               Grid.notes (GridExt.placedGrid p') !! noteId = Some note' ->
               note' = note) ->
            intervals c' !! noteId = None)).
Proof.
  intros noteId c'. subst c'. unfold handleNoteDoubleClick. fold noteId.
  destruct (Grid.isLocked g) eqn:L.
  { conjuncts; try reflexivity; discriminate. }
  destruct (Grid.notes g !! noteId) as [note|] eqn:E.
  2:{ conjuncts; try reflexivity; discriminate. }
  split; [reflexivity|]. split; [reflexivity|].
  split; [discriminate|]. split; [discriminate|].
  intros _ note' [= <-]. split; [reflexivity|]. split; [reflexivity|].
  intros (gridId & p & Hin & <-) Huniq.
  unfold setRootNote, updateIntervalHighlighting. simpl.
  apply found_None. split; [apply lookup_empty|].
  intros [gridId' p'] Hin'. rewrite intervalsOf_lookup. simpl.
  destruct (Grid.notes (GridExt.placedGrid p') !! noteId) as [note'|] eqn:E';
    [|reflexivity].
  simpl. rewrite (Huniq _ _ _ Hin' E').
  unfold MusicTheory.calculateInterval.
  unfold MusicTheory.semitoneOf, RootNote_semitone, Note_semitone. simpl.
  rewrite Z.sub_diag. reflexivity.
Qed.

Section GetCanvasState.

Variable noteObject : Grid.Note -> list (string * value).

(** X12. Saving from the canvas always succeeds: every grid the canvas
    serialises passes validation.  The document holds the serialised
    grids, the notes, the root note, the intervals and the settings of the
    state, but its canvas section is always portrait, unlocked and 816 by
    1056, whatever the orientation, the lock and the size of the canvas:
    [saveCanvas] reads them from the top level of the state, where
    [getCanvasState] does not put them. *)
Theorem handleSave_succeeds (env : FileOperations.SaveEnv)
    (offsetWidth offsetHeight now : Z) (c : t) (w : FileOperations.World) :
  exists doc w',
    let name := FileOperations.defaultFileName env in
    FileOperations.saveCanvas env
      (getCanvasState noteObject offsetWidth offsetHeight now c) None w
    = (w', FileOperations.Success name)
    /\ handleSave noteObject env offsetWidth offsetHeight now c w
       = (w', ("Canvas saved as " +:+ name, "success"))
    /\ FileOperations.downloads w'
       = (FileOperations.downloads w ++ [(name, doc)])%list
    /\ get doc "canvas"
       = Normal (VObj [ ("orientation", VStr "portrait");
                        ("locked", VBool false);
                        ("dimensions",
                         VObj [("width", VNum 816); ("height", VNum 1056)]) ])
    /\ get doc "grids"
       = Normal (VArr (GridExt.serialize <$> (snd <$> grids c)))
    /\ get doc "notes" = Normal (VObj (notesDataOf noteObject (grids c)))
    /\ get doc "rootNote" = Normal (rootNoteDataOf noteObject (rootNote c))
    /\ get doc "intervals"
       = Normal (VObj (map_to_list (intervalData <$> intervals c)))
    /\ get doc "settings"
       = Normal (VObj [("version", VStr "1.0"); ("timestamp", VNum now)]).
Proof.
  destruct (FileOperations.saveDataOf (FileOperations.ops w) env
              (getCanvasState noteObject offsetWidth offsetHeight now c))
    as [saveData|e] eqn:Es; [|discriminate Es].
  pose proof Es as Es'. unfold getCanvasState in Es'.
  apply FileOperationsFacts.validateSaveData_saveDataOf in Es' as [_ Hv].
  simpl in Hv.
  assert (Hall : FileOperations.firstInvalidGrid 0
                   (GridExt.serialize <$> (snd <$> grids c)) = None).
  { apply FileOperationsFacts.firstInvalidGrid_None.
    apply Forall_fmap, Forall_forall. intros g _.
    apply GridExtFacts.serialize_wellShaped. }
  unfold or_else in Hv. simpl in Hv. rewrite Hall in Hv.
  exists saveData. eexists. intros name.
  unfold handleSave, FileOperations.saveCanvas. rewrite Es, Hv.
  split; [reflexivity|]. split; [reflexivity|]. split; [reflexivity|].
  unfold FileOperations.saveDataOf, getCanvasState in Es. simpl in Es.
  injection Es as <-. simpl.
  conjuncts; try reflexivity.
  destruct (rootNote c); reflexivity.
Qed.

End GetCanvasState.

End CanvasExtFacts.
